(** * gmpy2_divmod.c: [__divmod__] and [context.divmod()]

    A shallow embedding of [src/gmpy2_divmod.c] (GMPY2): the four per-kind
    algorithms [GMPy_Integer_DivMod], [GMPy_Rational_DivMod],
    [GMPy_Real_DivMod] and [GMPy_Complex_DivMod], the operator-slot
    dispatchers [GMPy_mp*_divmod_fast], the context-taking dispatcher
    [GMPy_Number_DivMod] and the method [GMPy_Context_DivMod].

    Python objects live in a reference-counted heap, [PyObject *] is a heap
    location, and every C function is a computation in a state monad whose
    state holds the heap, the Python error indicator, the process-wide current
    context and the global state of the MPFR library. *)

From Stdlib Require Import ZArith QArith Qround String Lia Lqa Bool.
From stdpp Require Import gmap.

Local Open Scope Z_scope.

(** ** Machine integers

    [mpir_si] is the signed machine word of the GMP/MPIR build and the [_ui]
    entry points of GMP take the unsigned word of the same width. The typedef
    is outside this file, so the width is a parameter of the definitions that
    depend on it. *)

Module MachineWord.

Definition si_min (bits : Z) : Z := - 2 ^ (bits - 1).
Definition si_max (bits : Z) : Z := 2 ^ (bits - 1) - 1.

Definition fits_si (bits v : Z) : bool :=
  (si_min bits <=? v) && (v <=? si_max bits).

(** Two's complement wrap-around of a mathematical integer into the signed
    word. *)
Definition wrap_si (bits v : Z) : Z :=
  (v + 2 ^ (bits - 1)) mod 2 ^ bits - 2 ^ (bits - 1).

(** [-temp_si] evaluated in [mpir_si]. *)
Definition si_neg (bits v : Z) : Z := wrap_si bits (- v).

(** Conversion of a signed word to the unsigned parameter of a [_ui]
    function. *)
Definition si_to_ui (bits v : Z) : Z := v mod 2 ^ bits.

End MachineWord.

(** ** GMP integer and rational primitives

    The external library is taken at its documented meaning: [mpz_t] is a
    mathematical integer, [mpq_t] a fraction kept in canonical form. *)

Module GMP.

(** [mpz_fdiv_qr (q, r, n, d)]: quotient rounded towards minus infinity,
    remainder with the sign of [d]. *)
Definition mpz_fdiv_qr (n d : Z) : Z * Z := (n / d, n mod d).

(** [mpz_fdiv_qr_ui]: the same with an unsigned word as divisor. *)
Definition mpz_fdiv_qr_ui (n d : Z) : Z * Z := (n / d, n mod d).

(** [mpz_cdiv_qr_ui (q, r, n, d)]: quotient rounded towards plus infinity,
    remainder [n - q * d] of the sign opposite to [d]. *)
Definition mpz_cdiv_qr_ui (n d : Z) : Z * Z :=
  let q := - ((- n) / d) in (q, n - q * d).

Definition mpz_fdiv_q (n d : Z) : Z := n / d.
Definition mpz_neg (z : Z) : Z := - z.
Definition mpz_sgn (z : Z) : Z := Z.sgn z.

Definition mpq_sgn (q : Q) : Z := Z.sgn (Qnum q).
Definition mpq_numref (q : Q) : Z := Qnum q.
Definition mpq_denref (q : Q) : Z := Zpos (Qden q).
Definition mpq_set_z (z : Z) : Q := z # 1.
Definition mpq_div (a b : Q) : Q := Qred (a / b).
Definition mpq_mul (a b : Q) : Q := Qred (a * b).
Definition mpq_sub (a b : Q) : Q := Qred (a - b).

End GMP.

(** ** MPFR primitives

    A reference model of the part of the MPFR library that [GMPy_Real_DivMod]
    calls, after the MPFR manual: every operation computes the exact result,
    rounds it to the precision of the destination in the requested direction,
    checks it against the current exponent range and raises the global flags. *)

Module MPFR.

Inductive mpfr_rnd_t := MPFR_RNDN | MPFR_RNDZ | MPFR_RNDU | MPFR_RNDD | MPFR_RNDA.

(** The value held by an [mpfr_t]; [Num neg m e] is [(-1)^neg * m * 2^e]. *)
Inductive mpfr_t :=
| NaN
| Inf (neg : bool)
| Zero (neg : bool)
| Num (neg : bool) (m : positive) (e : Z).

(** The global flags of the library. *)
Record flags_t := mk_flags {
  underflow : bool;
  overflow : bool;
  nanflag : bool;
  inexflag : bool;
  erangeflag : bool;
  divby0 : bool
}.

Definition no_flags : flags_t := mk_flags false false false false false false.

Definition flags_or (a b : flags_t) : flags_t :=
  mk_flags (underflow a || underflow b) (overflow a || overflow b)
           (nanflag a || nanflag b) (inexflag a || inexflag b)
           (erangeflag a || erangeflag b) (divby0 a || divby0 b).

Definition flag_nan : flags_t := mk_flags false false true false false false.
Definition flag_inexact : flags_t := mk_flags false false false true false false.
Definition flag_erange : flags_t := mk_flags false false false false true false.
Definition flag_divby0 : flags_t := mk_flags false false false false false true.
Definition flag_underflow : flags_t := mk_flags true false false false false false.
Definition flag_overflow : flags_t := mk_flags false true false false false false.

(** The current exponent range ([mpfr_set_emin], [mpfr_set_emax]). *)
Record exp_range := mk_range { emin : Z; emax : Z }.

(** What an operation hands back: the value stored in the destination, the
    ternary value and the flags it raises. *)
Definition result : Type := mpfr_t * Z * flags_t.

Definition bitlen (m : positive) : Z := Z.log2 (Zpos m) + 1.

(** The exponent in MPFR's convention: the value lies in
    [[2^(E-1), 2^E)]. *)
Definition mpfr_get_exp (m : positive) (e : Z) : Z := e + bitlen m.

Fixpoint strip (m : positive) (e : Z) : positive * Z :=
  match m with
  | xO m' => strip m' (e + 1)
  | _ => (m, e)
  end.

Definition make_num (neg : bool) (M e : Z) : mpfr_t :=
  match M with
  | Zpos m => let '(m', e') := strip m e in Num neg m' e'
  | _ => Zero neg
  end.

(** How a rounding mode acts on the magnitude of a number of a given sign. *)
Inductive mag_dir := ToZero | AwayZero | Nearest.

Definition mag_dir_of (rnd : mpfr_rnd_t) (neg : bool) : mag_dir :=
  match rnd with
  | MPFR_RNDN => Nearest
  | MPFR_RNDZ => ToZero
  | MPFR_RNDA => AwayZero
  | MPFR_RNDU => if neg then ToZero else AwayZero
  | MPFR_RNDD => if neg then AwayZero else ToZero
  end.

(** The rounded magnitude compared with the exact magnitude. *)
Inductive inex := Exact | Down | Up.

Definition ternary (neg : bool) (ix : inex) : Z :=
  match ix with
  | Exact => 0
  | Up => if neg then -1 else 1
  | Down => if neg then 1 else -1
  end.

Definition inex_of_ternary (neg : bool) (t : Z) : inex :=
  if t =? 0 then Exact
  else if (0 <? t) then (if neg then Down else Up)
  else (if neg then Up else Down).

(** [round_mag p dir hint n d s] rounds the magnitude [(n / d) * 2^s] to [p]
    bits with an unbounded exponent: the result [(M, e, ix)] stands for
    [M * 2^e]. On a tie in round-to-nearest, [hint] tells on which side the
    value that was rounded before lies (used by [mpfr_subnormalize] against
    double rounding); [Exact] selects the even mantissa. *)
Definition round_mag (p : Z) (dir : mag_dir) (hint : inex) (n d : positive) (s : Z)
  : Z * Z * inex :=
  let k := Z.log2 (Zpos n) - Z.log2 (Zpos d) in
  let lq := if Zpos n * 2 ^ Z.max 0 (- k) <? Zpos d * 2 ^ Z.max 0 k then k - 1 else k in
  let t := p - 1 - lq in
  let num := Zpos n * 2 ^ Z.max 0 t in
  let den := Zpos d * 2 ^ Z.max 0 (- t) in
  let M := num / den in
  let R := num mod den in
  let up :=
    match dir with
    | ToZero => false
    | AwayZero => 0 <? R
    | Nearest =>
        (den <? 2 * R) ||
        ((den =? 2 * R) &&
         match hint with Exact => Z.odd M | Down => true | Up => false end)
    end in
  (if up then M + 1 else M, s - t, if R =? 0 then Exact else if up then Up else Down).

Definition is_pow2 (M : Z) : bool := M =? 2 ^ Z.log2 M.

(** [mpfr_check_range]: overflow and underflow of a rounded magnitude. *)
Definition check_range (rng : exp_range) (p : Z) (rnd : mpfr_rnd_t) (neg : bool)
    (r : Z * Z * inex) : result :=
  let '(M, e, ix) := r in
  let E := e + Z.log2 M + 1 in
  if emax rng <? E then
    match mag_dir_of rnd neg with
    | ToZero => (make_num neg (2 ^ p - 1) (emax rng - p), ternary neg Down,
                 flags_or flag_overflow flag_inexact)
    | _ => (Inf neg, ternary neg Up, flags_or flag_overflow flag_inexact)
    end
  else if E <? emin rng then
    let to_zero :=
      match mag_dir_of rnd neg with
      | ToZero => true
      | AwayZero => false
      | Nearest =>
          (E + 1 <? emin rng) ||
          (is_pow2 M && match ix with Down => false | _ => true end)
      end in
    if to_zero
    then (Zero neg, ternary neg Down, flags_or flag_underflow flag_inexact)
    else (Num neg 1 (emin rng - 1), ternary neg Up, flags_or flag_underflow flag_inexact)
  else
    (make_num neg M e, ternary neg ix,
     match ix with Exact => no_flags | _ => flag_inexact end).

(** Rounding of a number that is already a binary fraction. *)
Definition round_dyadic (rng : exp_range) (p : Z) (rnd : mpfr_rnd_t)
    (neg : bool) (m : positive) (e : Z) : result :=
  check_range rng p rnd neg
    (if bitlen m <=? p then (Zpos m, e, Exact)
     else round_mag p (mag_dir_of rnd neg) Exact m 1 e).

Definition nan_result : result := (NaN, 0, flag_nan).
Definition exact_result (v : mpfr_t) : result := (v, 0, no_flags).

(** *** Classification *)

Definition mpfr_nan_p (x : mpfr_t) : bool := match x with NaN => true | _ => false end.
Definition mpfr_inf_p (x : mpfr_t) : bool := match x with Inf _ => true | _ => false end.
Definition mpfr_zero_p (x : mpfr_t) : bool := match x with Zero _ => true | _ => false end.

(** The sign bit; that of a NaN is unspecified and modelled as clear. *)
Definition mpfr_signbit (x : mpfr_t) : bool :=
  match x with
  | NaN => false
  | Inf neg | Zero neg | Num neg _ _ => neg
  end.

(** [mpfr_sgn]: positive, zero or negative; on a NaN it returns zero and
    raises the erange flag. *)
Definition mpfr_sgn (x : mpfr_t) : Z * flags_t :=
  match x with
  | NaN => (0, flag_erange)
  | Zero _ => (0, no_flags)
  | Inf neg | Num neg _ _ => (if neg then -1 else 1, no_flags)
  end.

(** *** Assignment *)

Definition mpfr_set_nan : mpfr_t * flags_t := (NaN, flag_nan).
Definition mpfr_set_inf (sign : Z) : mpfr_t := Inf (sign <? 0).
Definition mpfr_set_zero (sign : Z) : mpfr_t := Zero (sign <? 0).

Definition mpfr_set_z (rng : exp_range) (p : Z) (v : Z) (rnd : mpfr_rnd_t) : result :=
  if v =? 0 then exact_result (Zero false)
  else round_dyadic rng p rnd (v <? 0) (Z.to_pos (Z.abs v)) 0.

Definition mpfr_set_si : exp_range -> Z -> Z -> mpfr_rnd_t -> result := mpfr_set_z.

Definition mpfr_set (rng : exp_range) (p : Z) (x : mpfr_t) (rnd : mpfr_rnd_t) : result :=
  match x with
  | NaN => nan_result
  | Inf _ | Zero _ => exact_result x
  | Num neg m e => round_dyadic rng p rnd neg m e
  end.

Definition mpfr_neg (rng : exp_range) (p : Z) (x : mpfr_t) (rnd : mpfr_rnd_t) : result :=
  match x with
  | NaN => nan_result
  | Inf neg => exact_result (Inf (negb neg))
  | Zero neg => exact_result (Zero (negb neg))
  | Num neg m e => round_dyadic rng p rnd (negb neg) m e
  end.

(** *** Arithmetic *)

Definition mpfr_div (rng : exp_range) (p : Z) (x y : mpfr_t) (rnd : mpfr_rnd_t) : result :=
  match x, y with
  | NaN, _ | _, NaN => nan_result
  | Inf _, Inf _ => nan_result
  | Inf a, (Zero b | Num b _ _) => exact_result (Inf (xorb a b))
  | (Zero a | Num a _ _), Inf b => exact_result (Zero (xorb a b))
  | Zero _, Zero _ => nan_result
  | Zero a, Num b _ _ => exact_result (Zero (xorb a b))
  | Num a _ _, Zero b => (Inf (xorb a b), 0, flag_divby0)
  | Num a mx ex, Num b my ey =>
      let neg := xorb a b in
      check_range rng p rnd neg (round_mag p (mag_dir_of rnd neg) Exact mx my (ex - ey))
  end.

(** [mpfr_floor]: the next lower or equal representable integer; the
    inexact flag is raised when the operand is not an integer. *)
Definition mpfr_floor (rng : exp_range) (p : Z) (x : mpfr_t) : result :=
  match x with
  | NaN => nan_result
  | Inf _ | Zero _ => exact_result x
  | Num neg m e =>
      if 0 <=? e then round_dyadic rng p MPFR_RNDD neg m e
      else
        let d := 2 ^ (- e) in
        let frac := negb (Zpos m mod d =? 0) in
        let mag := Zpos m / d + (if neg && frac then 1 else 0) in
        let '(v, t, fl) :=
          if mag =? 0 then exact_result (Zero neg)
          else round_dyadic rng p MPFR_RNDD neg (Z.to_pos mag) 0 in
        (v, if frac then -2 else t, if frac then flags_or flag_inexact fl else fl)
  end.

(** The sign of an exact zero obtained as a sum of the signed terms [a] and
    [b]. *)
Definition zero_sum_sign (rnd : mpfr_rnd_t) (a b : bool) : bool :=
  if Bool.eqb a b then a
  else match rnd with MPFR_RNDD => true | _ => false end.

(** [mpfr_fms (rop, x, y, z)]: [x * y - z] with a single rounding. *)
Definition mpfr_fms (rng : exp_range) (p : Z) (x y z : mpfr_t) (rnd : mpfr_rnd_t) : result :=
  match x, y, z with
  | NaN, _, _ | _, NaN, _ | _, _, NaN => nan_result
  | Inf _, Zero _, _ | Zero _, Inf _, _ => nan_result
  | Inf a, (Inf b | Num b _ _), _ | Num a _ _, Inf b, _ =>
      match z with
      | Inf c => if Bool.eqb (xorb a b) c then nan_result else exact_result (Inf (xorb a b))
      | _ => exact_result (Inf (xorb a b))
      end
  | _, _, Inf c => exact_result (Inf (negb c))
  | Zero a, (Zero b | Num b _ _), Zero c | Num a _ _, Zero b, Zero c =>
      exact_result (Zero (zero_sum_sign rnd (xorb a b) (negb c)))
  | Zero _, (Zero _ | Num _ _ _), Num c mz ez | Num _ _ _, Zero _, Num c mz ez =>
      round_dyadic rng p rnd (negb c) mz ez
  | Num a mx ex, Num b my ey, Zero _ =>
      round_dyadic rng p rnd (xorb a b) (mx * my) (ex + ey)
  | Num a mx ex, Num b my ey, Num c mz ez =>
      let e0 := Z.min (ex + ey) ez in
      let P := Zpos (mx * my) * 2 ^ (ex + ey - e0) in
      let Zv := Zpos mz * 2 ^ (ez - e0) in
      let V := (if xorb a b then - P else P) - (if c then - Zv else Zv) in
      if V =? 0 then
        exact_result (Zero match rnd with MPFR_RNDD => true | _ => false end)
      else round_dyadic rng p rnd (V <? 0) (Z.to_pos (Z.abs V)) e0
  end.

(** [mpfr_subnormalize (x, t, rnd)]: a number below the normal range of the
    emulated format is rounded again to the [E - emin + 1] bits a subnormal
    number has, with the old ternary value [t] deciding ties; the underflow
    flag is raised as soon as the number lies in that range. *)
Definition mpfr_subnormalize (rng : exp_range) (p : Z) (x : mpfr_t) (t : Z)
    (rnd : mpfr_rnd_t) : result :=
  let propagate := (x, t, if t =? 0 then no_flags else flag_inexact) in
  match x with
  | Num neg m e =>
      let E := mpfr_get_exp m e in
      if emin rng + p - 1 <=? E then propagate
      else
        let q := E - emin rng + 1 in
        let hint := inex_of_ternary neg t in
        let '(M, e', ix) :=
          if bitlen m <=? q then (Zpos m, e, Exact)
          else round_mag q (mag_dir_of rnd neg) hint m 1 e in
        let ix' := match ix with Exact => hint | _ => ix end in
        (make_num neg M e', ternary neg ix',
         match ix' with
         | Exact => flag_underflow
         | _ => flags_or flag_underflow flag_inexact
         end)
  | _ => propagate
  end.

End MPFR.

(** ** Contexts

    The [ctx] member of a [CTXT_Object]: precision, rounding mode, exponent
    range, the sticky flags, the trap mask and the read-only mark. *)

Record gmpy_context := mk_context {
  ctx_mpfr_prec : Z;
  ctx_mpfr_round : MPFR.mpfr_rnd_t;
  ctx_emax : Z;
  ctx_emin : Z;
  ctx_subnormalize : bool;
  ctx_underflow : bool;
  ctx_overflow : bool;
  ctx_inexact : bool;
  ctx_invalid : bool;
  ctx_erange : bool;
  ctx_divzero : bool;
  ctx_traps : Z;
  ctx_readonly : bool
}.

(** Modelled from the spec: the trap mask constants, which a header outside
    this file defines; one bit per condition. *)
Definition TRAP_NONE : Z := 0.
Definition TRAP_UNDERFLOW : Z := 1.
Definition TRAP_OVERFLOW : Z := 2.
Definition TRAP_INEXACT : Z := 4.
Definition TRAP_INVALID : Z := 8.
Definition TRAP_ERANGE : Z := 16.
Definition TRAP_DIVZERO : Z := 32.

(** [context->ctx.traps & TRAP_X] as a C condition. *)
Definition traps_on (c : gmpy_context) (mask : Z) : bool :=
  negb (Z.land (ctx_traps c) mask =? 0).

Definition set_divzero (c : gmpy_context) : gmpy_context :=
  mk_context (ctx_mpfr_prec c) (ctx_mpfr_round c) (ctx_emax c) (ctx_emin c)
    (ctx_subnormalize c) (ctx_underflow c) (ctx_overflow c) (ctx_inexact c)
    (ctx_invalid c) (ctx_erange c) true (ctx_traps c) (ctx_readonly c).

Definition set_invalid (c : gmpy_context) : gmpy_context :=
  mk_context (ctx_mpfr_prec c) (ctx_mpfr_round c) (ctx_emax c) (ctx_emin c)
    (ctx_subnormalize c) (ctx_underflow c) (ctx_overflow c) (ctx_inexact c)
    true (ctx_erange c) (ctx_divzero c) (ctx_traps c) (ctx_readonly c).

Definition set_readonly (b : bool) (c : gmpy_context) : gmpy_context :=
  mk_context (ctx_mpfr_prec c) (ctx_mpfr_round c) (ctx_emax c) (ctx_emin c)
    (ctx_subnormalize c) (ctx_underflow c) (ctx_overflow c) (ctx_inexact c)
    (ctx_invalid c) (ctx_erange c) (ctx_divzero c) (ctx_traps c) b.

(** Modelled from the spec: the macro [MERGE_FLAGS], defined in a header
    outside this file; it ORs the underflow, overflow and inexact flags that
    MPFR raised into the sticky flags of the context. *)
Definition merge_flags (fl : MPFR.flags_t) (c : gmpy_context) : gmpy_context :=
  mk_context (ctx_mpfr_prec c) (ctx_mpfr_round c) (ctx_emax c) (ctx_emin c)
    (ctx_subnormalize c)
    (ctx_underflow c || MPFR.underflow fl)
    (ctx_overflow c || MPFR.overflow fl)
    (ctx_inexact c || MPFR.inexflag fl)
    (ctx_invalid c) (ctx_erange c) (ctx_divzero c) (ctx_traps c) (ctx_readonly c).

(** ** Python objects and the interpreter state *)

Abbreviation loc := positive.

(** The object kinds the type tests of this file tell apart. *)
Inductive payload :=
| PyLong_Object (v : Z)
| MPZ_Object (z : Z)
| XMPZ_Object (z : Z)
| PyFraction_Object (q : Q)
| MPQ_Object (q : Q)
| PyFloat_Object (d : MPFR.mpfr_t)
| MPFR_Object (f : MPFR.mpfr_t) (prec : Z) (rc : Z)
| PyComplex_Object
| MPC_Object
| PyTuple_Object (items : list (option loc))
| CTXT_Object (ctx : gmpy_context)
| PyOther_Object.

Record PyObject := mk_object {
  ob_refcnt : positive;
  ob_data : payload
}.

Inductive exception :=
| PyExc_MemoryError
| PyExc_SystemError
| PyExc_ZeroDivisionError
| PyExc_TypeError
| GMPyExc_DivZero
| GMPyExc_Invalid
| GMPyExc_Underflow
| GMPyExc_Overflow
| GMPyExc_Inexact.

Record state := mk_state {
  heap : gmap loc PyObject;
  (** allocations that will still succeed *)
  mem_avail : nat;
  (** the process-wide current context *)
  current_context : loc;
  (** the global flags and exponent range of MPFR *)
  mpfr_flags : MPFR.flags_t;
  mpfr_range : MPFR.exp_range;
  (** the Python error indicator *)
  err_indicator : option (exception * string)
}.

Definition with_heap (h : gmap loc PyObject) (st : state) : state :=
  mk_state h (mem_avail st) (current_context st) (mpfr_flags st) (mpfr_range st)
    (err_indicator st).

(** What a function of the C API returns: [NULL] with the error indicator
    set, the [Py_NotImplemented] singleton, or a new reference. *)
Inductive retval :=
| NULL
| Py_NotImplemented
| Ref (l : loc).

(** ** The monad of C functions

    A computation maps a state to a result and a new state, or to [None] when
    the C code would dereference a pointer that is not live or read an object
    as a type it does not have. *)

Definition M (A : Type) : Type := state -> option (A * state).

Definition ret {A} (a : A) : M A := fun st => Some (a, st).

Definition bind {A B} (m : M A) (k : A -> M B) : M B :=
  fun st => match m st with
            | Some (a, st') => k a st'
            | None => None
            end.

Definition undefined {A} : M A := fun _ => None.

Notation "'let*' x ':=' m 'in' k" := (bind m (fun x => k))
  (at level 10, x name, m at level 100, k at level 200, only parsing).
Notation "'let*' ' pat ':=' m 'in' k" :=
  (bind m (fun x => match x with pat => k end))
  (at level 10, pat pattern, m at level 100, k at level 200, only parsing).
Notation "'do' m 'then' k" := (bind m (fun _ => k))
  (at level 10, m at level 100, k at level 200, only parsing).

Definition andM (a b : M bool) : M bool :=
  let* x := a in if x then b else ret false.

(** *** Heap access *)

Definition get_object (l : loc) : M PyObject :=
  fun st => match heap st !! l with
            | Some o => Some (o, st)
            | None => None
            end.

Definition put_object (l : loc) (o : PyObject) : M unit :=
  fun st => Some (tt, with_heap (<[l := o]> (heap st)) st).

Definition set_data (l : loc) (d : payload) : M unit :=
  let* o := get_object l in put_object l (mk_object (ob_refcnt o) d).

Definition PyErr_SetString (e : exception) (msg : string) : M unit :=
  fun st => Some (tt, mk_state (heap st) (mem_avail st) (current_context st)
                        (mpfr_flags st) (mpfr_range st) (Some (e, msg))).

(** Allocation of a fresh object holding one reference; with no memory left
    it returns [NULL] and sets [MemoryError]. *)
Definition alloc (d : payload) : M (option loc) :=
  fun st => match mem_avail st with
            | O => (do PyErr_SetString PyExc_MemoryError "" then ret None) st
            | S n =>
                let l := fresh (dom (heap st)) in
                Some (Some l,
                      mk_state (<[l := mk_object 1 d]> (heap st)) n (current_context st)
                        (mpfr_flags st) (mpfr_range st) (err_indicator st))
            end.

Definition free (l : loc) : M unit :=
  fun st => Some (tt, mk_state (delete l (heap st)) (S (mem_avail st)) (current_context st)
                        (mpfr_flags st) (mpfr_range st) (err_indicator st)).

Definition Py_INCREF (l : loc) : M unit :=
  let* o := get_object l in put_object l (mk_object (Pos.succ (ob_refcnt o)) (ob_data o)).

(** Release of a reference held by a tuple slot. The tuples of this file hold
    numbers only, so an item that dies owns nothing further. *)
Definition decref_item (l : loc) : M unit :=
  let* o := get_object l in
  if (ob_refcnt o =? 1)%positive then free l
  else put_object l (mk_object (Pos.pred (ob_refcnt o)) (ob_data o)).

Fixpoint release_items (items : list (option loc)) : M unit :=
  match items with
  | [] => ret tt
  | None :: rest => release_items rest
  | Some l :: rest => do decref_item l then release_items rest
  end.

(** [Py_DECREF]: the object is deallocated when its last reference goes; a
    tuple then releases its non-NULL items. *)
Definition Py_DECREF (l : loc) : M unit :=
  let* o := get_object l in
  if (ob_refcnt o =? 1)%positive then
    do free l then
    match ob_data o with
    | PyTuple_Object items => release_items items
    | _ => ret tt
    end
  else put_object l (mk_object (Pos.pred (ob_refcnt o)) (ob_data o)).

Definition Py_XDECREF (p : option loc) : M unit :=
  match p with
  | Some l => Py_DECREF l
  | None => ret tt
  end.

(** *** Tuples *)

Definition PyTuple_New (n : nat) : M (option loc) :=
  alloc (PyTuple_Object (replicate n None)).

Definition tuple_items (t : loc) : M (list (option loc)) :=
  let* o := get_object t in
  match ob_data o with
  | PyTuple_Object items => ret items
  | _ => undefined
  end.

Definition PyTuple_GET_SIZE (t : loc) : M nat :=
  let* items := tuple_items t in ret (length items).

Definition PyTuple_GET_ITEM (t : loc) (i : nat) : M loc :=
  let* items := tuple_items t in
  match items !! i with
  | Some (Some l) => ret l
  | _ => undefined
  end.

(** [PyTuple_SET_ITEM] stores the pointer and takes over the reference. *)
Definition PyTuple_SET_ITEM (t : loc) (i : nat) (v : loc) : M unit :=
  let* items := tuple_items t in set_data t (PyTuple_Object (<[i := Some v]> items)).

(** *** Type tests

    Modelled from the spec: the macros [CHECK_MPZANY], [PyIntOrLong_Check],
    [IS_INTEGER], [IS_RATIONAL], [IS_REAL], [IS_COMPLEX] and [CTXT_Check] are
    defined in headers outside this file; they order the object kinds in the
    tower Integer, Rational, Real, Complex by convertibility. *)

Definition is_MPZANY (d : payload) : bool :=
  match d with MPZ_Object _ | XMPZ_Object _ => true | _ => false end.

Definition is_PyIntOrLong (d : payload) : bool :=
  match d with PyLong_Object _ => true | _ => false end.

Definition is_INTEGER (d : payload) : bool := is_MPZANY d || is_PyIntOrLong d.

Definition is_RATIONAL (d : payload) : bool :=
  is_INTEGER d ||
  match d with MPQ_Object _ | PyFraction_Object _ => true | _ => false end.

Definition is_REAL (d : payload) : bool :=
  is_RATIONAL d ||
  match d with MPFR_Object _ _ _ | PyFloat_Object _ => true | _ => false end.

Definition is_COMPLEX (d : payload) : bool :=
  is_REAL d ||
  match d with MPC_Object | PyComplex_Object => true | _ => false end.

Definition is_CTXT (d : payload) : bool :=
  match d with CTXT_Object _ => true | _ => false end.

Definition type_test (f : payload -> bool) (x : loc) : M bool :=
  let* o := get_object x in ret (f (ob_data o)).

Definition CHECK_MPZANY : loc -> M bool := type_test is_MPZANY.
Definition PyIntOrLong_Check : loc -> M bool := type_test is_PyIntOrLong.
Definition IS_INTEGER : loc -> M bool := type_test is_INTEGER.
Definition IS_RATIONAL : loc -> M bool := type_test is_RATIONAL.
Definition IS_REAL : loc -> M bool := type_test is_REAL.
Definition IS_COMPLEX : loc -> M bool := type_test is_COMPLEX.
Definition CTXT_Check : loc -> M bool := type_test is_CTXT.

(** *** Error macros *)

Definition ZERO_ERROR : string -> M unit := PyErr_SetString PyExc_ZeroDivisionError.
Definition TYPE_ERROR : string -> M unit := PyErr_SetString PyExc_TypeError.
Definition SYSTEM_ERROR : string -> M unit := PyErr_SetString PyExc_SystemError.
Definition GMPY_DIVZERO : string -> M unit := PyErr_SetString GMPyExc_DivZero.
Definition GMPY_INVALID : string -> M unit := PyErr_SetString GMPyExc_Invalid.
Definition GMPY_UNDERFLOW : string -> M unit := PyErr_SetString GMPyExc_Underflow.
Definition GMPY_OVERFLOW : string -> M unit := PyErr_SetString GMPyExc_Overflow.
Definition GMPY_INEXACT : string -> M unit := PyErr_SetString GMPyExc_Inexact.

(** *** Contexts in the heap *)

Definition get_ctx (c : loc) : M gmpy_context :=
  let* o := get_object c in
  match ob_data o with
  | CTXT_Object cx => ret cx
  | _ => undefined
  end.

Definition set_ctx (c : loc) (cx : gmpy_context) : M unit :=
  set_data c (CTXT_Object cx).

Definition CURRENT_CONTEXT : M loc :=
  fun st => Some (current_context st, st).

Definition SET_EXPONENT (c : loc) : M unit :=
  let* cx := get_ctx c in
  fun st => Some (tt, mk_state (heap st) (mem_avail st) (current_context st)
                        (mpfr_flags st) (MPFR.mk_range (ctx_emin cx) (ctx_emax cx))
                        (err_indicator st)).

(** Modelled from the spec: the macro [CHECK_CONTEXT_SET_EXPONENT], defined
    in a header outside this file. A NULL context stands for the process-wide
    current context; the exponent range of the context is handed to MPFR. *)
Definition CHECK_CONTEXT_SET_EXPONENT (context : option loc) : M loc :=
  let* c := match context with
            | Some c => ret c
            | None => CURRENT_CONTEXT
            end in
  do SET_EXPONENT c then ret c.

(** Modelled from the spec: [GMPy_CTXT_Copy], defined outside this file,
    clones a context into a fresh writable one. *)
Definition GMPy_CTXT_Copy (self : loc) : M (option loc) :=
  let* cx := get_ctx self in alloc (CTXT_Object (set_readonly false cx)).

(** *** MPFR in the interpreter state *)

Definition mpfr_raise (fl : MPFR.flags_t) : M unit :=
  fun st => Some (tt, mk_state (heap st) (mem_avail st) (current_context st)
                        (MPFR.flags_or (mpfr_flags st) fl) (mpfr_range st)
                        (err_indicator st)).

Definition mpfr_clear_flags : M unit :=
  fun st => Some (tt, mk_state (heap st) (mem_avail st) (current_context st)
                        MPFR.no_flags (mpfr_range st) (err_indicator st)).

Definition mpfr_get_flags : M MPFR.flags_t :=
  fun st => Some (mpfr_flags st, st).

(** Run an MPFR operation in the current exponent range and raise its
    flags. *)
Definition mpfr_call (f : MPFR.exp_range -> MPFR.result) : M (MPFR.mpfr_t * Z) :=
  fun st => let '(v, t, fl) := f (mpfr_range st) in
            (do mpfr_raise fl then ret (v, t)) st.

(** *** Numbers in the heap *)

(** The macro [MPZ(x)] and the member [->z]: the integer held by an [mpz] or
    [xmpz] object. *)
Definition MPZ (x : loc) : M Z :=
  let* o := get_object x in
  match ob_data o with
  | MPZ_Object z | XMPZ_Object z => ret z
  | _ => undefined
  end.

(** The member [->q] of an [mpq] object. *)
Definition MPQ (x : loc) : M Q :=
  let* o := get_object x in
  match ob_data o with
  | MPQ_Object q => ret q
  | _ => undefined
  end.

(** The members [->f] and [->rc] of an [mpfr] object, with the precision of
    [->f]. *)
Definition MPFR_of (x : loc) : M (MPFR.mpfr_t * Z * Z) :=
  let* o := get_object x in
  match ob_data o with
  | MPFR_Object f prec rc => ret (f, prec, rc)
  | _ => undefined
  end.

Definition MPFR_f (x : loc) : M MPFR.mpfr_t :=
  let* '(f, _, _) := MPFR_of x in ret f.

Definition PyLong_value (x : loc) : M Z :=
  let* o := get_object x in
  match ob_data o with
  | PyLong_Object v => ret v
  | _ => undefined
  end.

(** [mpz_set_PyIntOrLong (tempz, y)]: the value of a Python integer of any
    size. *)
Definition mpz_set_PyIntOrLong : loc -> M Z := PyLong_value.

(** Modelled from the spec: the constructors of the result containers, which
    are defined outside this file. A new [mpz] or [mpq] holds zero; a new
    [mpfr] of precision 0 takes the precision of the context and holds NaN. *)
Definition GMPy_MPZ_New (context : loc) : M (option loc) :=
  alloc (MPZ_Object 0).

Definition GMPy_MPQ_New (context : loc) : M (option loc) :=
  alloc (MPQ_Object 0).

Definition GMPy_MPFR_New (prec : Z) (context : loc) : M (option loc) :=
  let* cx := get_ctx context in
  alloc (MPFR_Object MPFR.NaN (if prec =? 0 then ctx_mpfr_prec cx else prec) 0).

(** Modelled from the spec: the promotion of an operand to the layer of the
    algorithm ([GMPy_MPZ_From_Integer_Temp], [GMPy_MPQ_From_Number_Temp],
    [GMPy_MPFR_From_Real_Temp], defined outside this file). An operand that
    already has the type of the layer is returned with a new reference; any
    other is converted into a temporary object; an operand outside the layer
    gives [NULL]. *)
Definition GMPy_MPZ_From_Integer_Temp (x : loc) (context : loc) : M (option loc) :=
  let* o := get_object x in
  match ob_data o with
  | MPZ_Object _ => do Py_INCREF x then ret (Some x)
  | XMPZ_Object z => alloc (MPZ_Object z)
  | PyLong_Object v => alloc (MPZ_Object v)
  | _ => do TYPE_ERROR "cannot convert object to mpz" then ret None
  end.

Definition GMPy_MPQ_From_Number_Temp (x : loc) (context : loc) : M (option loc) :=
  let* o := get_object x in
  match ob_data o with
  | MPQ_Object _ => do Py_INCREF x then ret (Some x)
  | MPZ_Object z | XMPZ_Object z | PyLong_Object z => alloc (MPQ_Object (z # 1))
  | PyFraction_Object q => alloc (MPQ_Object (Qred q))
  | _ => do TYPE_ERROR "cannot convert object to mpq" then ret None
  end.

(** The precision of a C double. *)
Definition DBL_MANT_DIG : Z := 53.

Definition mpfr_set_q (rng : MPFR.exp_range) (p : Z) (q : Q) (rnd : MPFR.mpfr_rnd_t)
  : MPFR.result :=
  match Qnum q with
  | Z0 => MPFR.exact_result (MPFR.Zero false)
  | Zpos n =>
      MPFR.check_range rng p rnd false
        (MPFR.round_mag p (MPFR.mag_dir_of rnd false) MPFR.Exact n (Qden q) 0)
  | Zneg n =>
      MPFR.check_range rng p rnd true
        (MPFR.round_mag p (MPFR.mag_dir_of rnd true) MPFR.Exact n (Qden q) 0)
  end.

Definition GMPy_MPFR_From_Real_Temp (x : loc) (prec : Z) (context : loc)
  : M (option loc) :=
  let* o := get_object x in
  let* cx := get_ctx context in
  let p := if prec =? 0 then ctx_mpfr_prec cx else prec in
  match ob_data o with
  | MPFR_Object _ _ _ => do Py_INCREF x then ret (Some x)
  | PyFloat_Object d => alloc (MPFR_Object d DBL_MANT_DIG 0)
  | MPZ_Object z | XMPZ_Object z | PyLong_Object z =>
      let* '(f, rc) := mpfr_call (fun rng => MPFR.mpfr_set_z rng p z (ctx_mpfr_round cx)) in
      alloc (MPFR_Object f p rc)
  | MPQ_Object q | PyFraction_Object q =>
      let* '(f, rc) := mpfr_call (fun rng => mpfr_set_q rng p q (ctx_mpfr_round cx)) in
      alloc (MPFR_Object f p rc)
  | _ => do TYPE_ERROR "cannot convert object to mpfr" then ret None
  end.

(** ** The algorithms of gmpy2_divmod.c *)

Section Divmod.

(** The width in bits of [mpir_si]. *)
Variable si_bits : Z.

(** Modelled from the spec: [PyLong_AsSIAndOverflow], defined outside this
    file, converts a Python integer that fits the machine word and reports
    an overflow for any other. *)
Definition PyLong_AsSIAndOverflow (y : loc) : M (Z * bool) :=
  let* v := PyLong_value y in
  ret (if MachineWord.fits_si si_bits v then (v, false) else (0, true)).

(** The C expression [-temp_si] passed to an [unsigned] parameter. *)
Definition neg_si_as_ui (temp_si : Z) : Z :=
  MachineWord.si_to_ui si_bits (MachineWord.si_neg si_bits temp_si).

(** Lines 93-96: division by a negative machine word. *)
Definition divmod_neg_si (n temp_si : Z) : Z * Z :=
  let '(q, r) := GMP.mpz_cdiv_qr_ui n (neg_si_as_ui temp_si) in
  (GMP.mpz_neg q, r).

(** The common tail of the successful paths of [GMPy_Integer_DivMod]: the
    quotient and remainder are written to [quo->z] and [rem->z] and the
    tuple takes over both references. *)
Definition return_mpz_pair (result quo rem : loc) (qr : Z * Z) : M retval :=
  do set_data quo (MPZ_Object (fst qr)) then
  do set_data rem (MPZ_Object (snd qr)) then
  do PyTuple_SET_ITEM result 0 quo then
  do PyTuple_SET_ITEM result 1 rem then
  ret (Ref result).

Definition GMPy_Integer_DivMod (x y : loc) (context : option loc) : M retval :=
  let* context := CHECK_CONTEXT_SET_EXPONENT context in
  let* result := PyTuple_New 2 in
  let* rem := GMPy_MPZ_New context in
  let* quo := GMPy_MPZ_New context in
  match result, rem, quo with
  | Some result, Some rem, Some quo =>
      let zero_division : M retval :=
        do ZERO_ERROR "division or modulo by zero" then
        do Py_DECREF rem then
        do Py_DECREF quo then
        do Py_DECREF result then
        ret NULL in
      (* lines 116-163 *)
      let rest : M retval :=
        let* b := andM (CHECK_MPZANY y) (PyIntOrLong_Check x) in
        if b then
          let* zy := MPZ y in
          if GMP.mpz_sgn zy =? 0 then zero_division
          else
            let* tempz := mpz_set_PyIntOrLong x in
            return_mpz_pair result quo rem (GMP.mpz_fdiv_qr tempz zy)
        else
          let* b := andM (IS_INTEGER x) (IS_INTEGER y) in
          if b then
            let* tempx := GMPy_MPZ_From_Integer_Temp x context in
            let* tempy := GMPy_MPZ_From_Integer_Temp y context in
            match tempx, tempy with
            | Some tx, Some ty =>
                let* zx := MPZ tx in
                let* zy := MPZ ty in
                if GMP.mpz_sgn zy =? 0 then
                  do ZERO_ERROR "division or modulo by zero" then
                  do Py_XDECREF tempx then
                  do Py_XDECREF tempy then
                  do Py_DECREF rem then
                  do Py_DECREF quo then
                  do Py_DECREF result then
                  ret NULL
                else
                  do set_data quo (MPZ_Object (fst (GMP.mpz_fdiv_qr zx zy))) then
                  do set_data rem (MPZ_Object (snd (GMP.mpz_fdiv_qr zx zy))) then
                  do Py_DECREF tx then
                  do Py_DECREF ty then
                  do PyTuple_SET_ITEM result 0 quo then
                  do PyTuple_SET_ITEM result 1 rem then
                  ret (Ref result)
            | _, _ =>
                do SYSTEM_ERROR "Could not convert Integer to mpz." then
                do Py_XDECREF tempx then
                do Py_XDECREF tempy then
                do Py_DECREF rem then
                do Py_DECREF quo then
                do Py_DECREF result then
                ret NULL
            end
          else
            do Py_DECREF result then ret Py_NotImplemented in
      (* lines 74-114 *)
      let* b := CHECK_MPZANY x in
      if b then
        let* b := PyIntOrLong_Check y in
        if b then
          let* '(temp_si, overflow) := PyLong_AsSIAndOverflow y in
          let* zx := MPZ x in
          if overflow then
            let* tempz := mpz_set_PyIntOrLong y in
            return_mpz_pair result quo rem (GMP.mpz_fdiv_qr zx tempz)
          else if temp_si >? 0 then
            return_mpz_pair result quo rem
              (GMP.mpz_fdiv_qr_ui zx (MachineWord.si_to_ui si_bits temp_si))
          else if temp_si =? 0 then zero_division
          else return_mpz_pair result quo rem (divmod_neg_si zx temp_si)
        else
          let* b := CHECK_MPZANY y in
          if b then
            let* zy := MPZ y in
            if GMP.mpz_sgn zy =? 0 then zero_division
            else
              let* zx := MPZ x in
              return_mpz_pair result quo rem (GMP.mpz_fdiv_qr zx zy)
          else rest
      else rest
  | _, _, _ =>
      do Py_XDECREF rem then
      do Py_XDECREF quo then
      do Py_XDECREF result then
      ret NULL
  end.

(** *** Rational *)

Definition mpq_div (rop a b : loc) : M unit :=
  let* qa := MPQ a in
  let* qb := MPQ b in
  set_data rop (MPQ_Object (GMP.mpq_div qa qb)).

Definition mpq_mul (rop a b : loc) : M unit :=
  let* qa := MPQ a in
  let* qb := MPQ b in
  set_data rop (MPQ_Object (GMP.mpq_mul qa qb)).

Definition mpq_sub (rop a b : loc) : M unit :=
  let* qa := MPQ a in
  let* qb := MPQ b in
  set_data rop (MPQ_Object (GMP.mpq_sub qa qb)).

Definition mpq_set_z (rop z : loc) : M unit :=
  let* v := MPZ z in set_data rop (MPQ_Object (GMP.mpq_set_z v)).

(** [mpz_fdiv_q (quo->z, mpq_numref (q), mpq_denref (q))]. *)
Definition mpz_fdiv_q_num_den (rop q : loc) : M unit :=
  let* v := MPQ q in
  set_data rop (MPZ_Object (GMP.mpz_fdiv_q (GMP.mpq_numref v) (GMP.mpq_denref v))).

Definition GMPy_Rational_DivMod (x y : loc) (context : option loc) : M retval :=
  let* context := CHECK_CONTEXT_SET_EXPONENT context in
  let* result := PyTuple_New 2 in
  let* rem := GMPy_MPQ_New context in
  let* quo := GMPy_MPZ_New context in
  match result, rem, quo with
  | Some result, Some rem, Some quo =>
      let* b := andM (IS_RATIONAL x) (IS_RATIONAL y) in
      if b then
        let* tempx := GMPy_MPQ_From_Number_Temp x context in
        let* tempy := GMPy_MPQ_From_Number_Temp y context in
        let error : M retval :=
          do Py_XDECREF tempx then
          do Py_XDECREF tempy then
          do Py_DECREF rem then
          do Py_DECREF quo then
          do Py_DECREF result then
          ret NULL in
        match tempx, tempy with
        | Some tx, Some ty =>
            let* qy := MPQ ty in
            if GMP.mpq_sgn qy =? 0 then
              do ZERO_ERROR "division or modulo by zero" then error
            else
              do mpq_div rem tx ty then
              do mpz_fdiv_q_num_den quo rem then
              (* Need to calculate x - quo * y. *)
              do mpq_set_z rem quo then
              do mpq_mul rem rem ty then
              do mpq_sub rem tx rem then
              do Py_DECREF tx then
              do Py_DECREF ty then
              do PyTuple_SET_ITEM result 0 quo then
              do PyTuple_SET_ITEM result 1 rem then
              ret (Ref result)
        | _, _ =>
            do SYSTEM_ERROR "Could not convert Rational to mpq." then error
        end
      else
        do Py_DECREF result then ret Py_NotImplemented
  | _, _, _ =>
      do Py_XDECREF result then
      do Py_XDECREF rem then
      do Py_XDECREF quo then
      ret NULL
  end.

(** *** Complex *)

Definition GMPy_Complex_DivMod (x y : loc) (context : option loc) : M retval :=
  do TYPE_ERROR "can't take floor or mod of complex number." then ret NULL.

(** *** Real *)

Definition set_f (rop : loc) (v : MPFR.mpfr_t) : M unit :=
  let* '(_, prec, rc) := MPFR_of rop in set_data rop (MPFR_Object v prec rc).

Definition set_rc (rop : loc) (rc : Z) : M unit :=
  let* '(f, prec, _) := MPFR_of rop in set_data rop (MPFR_Object f prec rc).

Definition GET_MPFR_ROUND (context : loc) : M MPFR.mpfr_rnd_t :=
  let* cx := get_ctx context in ret (ctx_mpfr_round cx).

Definition mpfr_zero_p (x : loc) : M bool :=
  let* f := MPFR_f x in ret (MPFR.mpfr_zero_p f).
Definition mpfr_nan_p (x : loc) : M bool :=
  let* f := MPFR_f x in ret (MPFR.mpfr_nan_p f).
Definition mpfr_inf_p (x : loc) : M bool :=
  let* f := MPFR_f x in ret (MPFR.mpfr_inf_p f).
Definition mpfr_signbit (x : loc) : M bool :=
  let* f := MPFR_f x in ret (MPFR.mpfr_signbit f).

Definition mpfr_sgn (x : loc) : M Z :=
  let* f := MPFR_f x in
  do mpfr_raise (snd (MPFR.mpfr_sgn f)) then ret (fst (MPFR.mpfr_sgn f)).

Definition mpfr_set_nan (rop : loc) : M unit :=
  do mpfr_raise (snd MPFR.mpfr_set_nan) then set_f rop (fst MPFR.mpfr_set_nan).

Definition mpfr_set_zero (rop : loc) (sign : Z) : M unit :=
  set_f rop (MPFR.mpfr_set_zero sign).

Definition mpfr_set_inf (rop : loc) (sign : Z) : M unit :=
  set_f rop (MPFR.mpfr_set_inf sign).

(** An operation that rounds into [rop]; the ternary value is returned. *)
Definition mpfr_into (rop : loc) (f : MPFR.exp_range -> Z -> MPFR.result) : M Z :=
  let* '(_, prec, _) := MPFR_of rop in
  let* '(v, t) := mpfr_call (fun rng => f rng prec) in
  do set_f rop v then ret t.

Definition mpfr_set_si (rop : loc) (v : Z) (rnd : MPFR.mpfr_rnd_t) : M Z :=
  mpfr_into rop (fun rng p => MPFR.mpfr_set_si rng p v rnd).

Definition mpfr_set (rop op : loc) (rnd : MPFR.mpfr_rnd_t) : M Z :=
  let* a := MPFR_f op in
  mpfr_into rop (fun rng p => MPFR.mpfr_set rng p a rnd).

Definition mpfr_neg (rop op : loc) (rnd : MPFR.mpfr_rnd_t) : M Z :=
  let* a := MPFR_f op in
  mpfr_into rop (fun rng p => MPFR.mpfr_neg rng p a rnd).

Definition mpfr_floor (rop op : loc) : M Z :=
  let* a := MPFR_f op in
  mpfr_into rop (fun rng p => MPFR.mpfr_floor rng p a).

Definition mpfr_div (rop op1 op2 : loc) (rnd : MPFR.mpfr_rnd_t) : M Z :=
  let* a := MPFR_f op1 in
  let* b := MPFR_f op2 in
  mpfr_into rop (fun rng p => MPFR.mpfr_div rng p a b rnd).

Definition mpfr_fms (rop op1 op2 op3 : loc) (rnd : MPFR.mpfr_rnd_t) : M Z :=
  let* a := MPFR_f op1 in
  let* b := MPFR_f op2 in
  let* c := MPFR_f op3 in
  mpfr_into rop (fun rng p => MPFR.mpfr_fms rng p a b c rnd).

(** Modelled from the spec: the macro [SUBNORMALIZE], defined in a header
    outside this file, applies the subnormal renormalization of MPFR to a
    result when the context asks for subnormal numbers. *)
Definition SUBNORMALIZE (context : loc) (v : loc) : M unit :=
  let* cx := get_ctx context in
  if ctx_subnormalize cx then
    let* '(f, prec, rc) := MPFR_of v in
    let* '(f', rc') :=
      mpfr_call (fun rng => MPFR.mpfr_subnormalize rng prec f rc (ctx_mpfr_round cx)) in
    set_data v (MPFR_Object f' prec rc')
  else ret tt.

Definition MERGE_FLAGS (context : loc) : M unit :=
  let* fl := mpfr_get_flags in
  let* cx := get_ctx context in
  set_ctx context (merge_flags fl cx).

Definition mpfr_underflow_p : M bool :=
  let* fl := mpfr_get_flags in ret (MPFR.underflow fl).
Definition mpfr_overflow_p : M bool :=
  let* fl := mpfr_get_flags in ret (MPFR.overflow fl).
Definition mpfr_inexflag_p : M bool :=
  let* fl := mpfr_get_flags in ret (MPFR.inexflag fl).

(** [context->ctx.traps & TRAP_X]. *)
Definition trapped (context : loc) (mask : Z) : M bool :=
  let* cx := get_ctx context in ret (traps_on cx mask).

(** Lines 285-291: a zero divisor raises the divide-by-zero flag; the
    result [true] stands for [goto error]. *)
Definition Real_DivMod_divzero (context tempy : loc) : M bool :=
  let* z := mpfr_zero_p tempy in
  if z then
    let* cx := get_ctx context in
    do set_ctx context (set_divzero cx) then
    let* t := trapped context TRAP_DIVZERO in
    if t then
      do GMPY_DIVZERO "'mpfr' division by zero in divmod" then ret true
    else ret false
  else ret false.

(** [context->ctx.invalid = 1] followed by the test of the trap. *)
Definition raise_invalid (context : loc) : M bool :=
  let* cx := get_ctx context in
  do set_ctx context (set_invalid cx) then
  let* t := trapped context TRAP_INVALID in
  if t then
    do GMPY_INVALID "'mpfr' invalid operation in divmod" then ret true
  else ret false.

Definition orM (a b : M bool) : M bool :=
  let* x := a in if x then ret true else b.

(** Lines 293-329: the decision table on special values and the general
    case; the result [true] stands for [goto error]. *)
Definition Real_DivMod_compute (context tempx tempy quo rem : loc) : M bool :=
  let* c := orM (mpfr_nan_p tempx) (orM (mpfr_nan_p tempy) (mpfr_inf_p tempx)) in
  if c then
    let* failed := raise_invalid context in
    if failed then ret true
    else
      do mpfr_set_nan quo then
      do mpfr_set_nan rem then
      ret false
  else
    let* c := mpfr_inf_p tempy in
    if c then
      let* failed := raise_invalid context in
      if failed then ret true
      else
        let* z := mpfr_zero_p tempx in
        if z then
          let* s := mpfr_sgn tempy in
          do mpfr_set_zero quo s then
          let* s := mpfr_sgn tempy in
          do mpfr_set_zero rem s then
          ret false
        else
          let* sx := mpfr_signbit tempx in
          let* sy := mpfr_signbit tempy in
          if negb (Bool.eqb sx sy) then
            let* _ := mpfr_set_si quo (-1) MPFR.MPFR_RNDN in
            let* s := mpfr_sgn tempy in
            do mpfr_set_inf rem s then
            ret false
          else
            let* _ := mpfr_set_si quo 0 MPFR.MPFR_RNDN in
            let* rnd := GET_MPFR_ROUND context in
            let* t := mpfr_set rem tempx rnd in
            do set_rc rem t then
            ret false
    else
      let* _ := mpfr_div quo tempx tempy MPFR.MPFR_RNDD in
      let* _ := mpfr_floor quo quo in
      let* rnd := GET_MPFR_ROUND context in
      let* t := mpfr_fms rem quo tempy tempx rnd in
      do set_rc rem t then
      let* rnd := GET_MPFR_ROUND context in
      let* _ := mpfr_neg rem rem rnd in
      ret false.

(** Lines 333-344: the traps of the flags MPFR raised, in the order
    underflow, overflow, inexact; [true] stands for [goto error]. *)
Definition Real_DivMod_traps (context : loc) : M bool :=
  let* c := andM mpfr_underflow_p (trapped context TRAP_UNDERFLOW) in
  if c then
    do GMPY_UNDERFLOW "'mpfr' underflow in divmod" then ret true
  else
    let* c := andM mpfr_overflow_p (trapped context TRAP_OVERFLOW) in
    if c then
      do GMPY_OVERFLOW "'mpfr' overflow in divmod" then ret true
    else
      let* c := andM mpfr_inexflag_p (trapped context TRAP_INEXACT) in
      if c then
        do GMPY_INEXACT "'mpfr' inexact result in divmod" then ret true
      else ret false.

Definition GMPy_Real_DivMod (x y : loc) (context : option loc) : M retval :=
  let* context := CHECK_CONTEXT_SET_EXPONENT context in
  let* result := PyTuple_New 2 in
  let* rem := GMPy_MPFR_New 0 context in
  let* quo := GMPy_MPFR_New 0 context in
  match result, rem, quo with
  | Some result, Some rem, Some quo =>
      let* b := andM (IS_REAL x) (IS_REAL y) in
      if b then
        let* tempx := GMPy_MPFR_From_Real_Temp x 0 context in
        let* tempy := GMPy_MPFR_From_Real_Temp y 0 context in
        let error : M retval :=
          do Py_XDECREF tempx then
          do Py_XDECREF tempy then
          do Py_DECREF rem then
          do Py_DECREF quo then
          do Py_DECREF result then
          ret NULL in
        match tempx, tempy with
        | Some tx, Some ty =>
            let* failed := Real_DivMod_divzero context ty in
            if failed then error
            else
              do mpfr_clear_flags then
              let* failed := Real_DivMod_compute context tx ty quo rem in
              if failed then error
              else
                do SUBNORMALIZE context rem then
                do SUBNORMALIZE context quo then
                do MERGE_FLAGS context then
                let* failed := Real_DivMod_traps context in
                if failed then error
                else
                  do Py_DECREF tx then
                  do Py_DECREF ty then
                  do PyTuple_SET_ITEM result 0 quo then
                  do PyTuple_SET_ITEM result 1 rem then
                  ret (Ref result)
        | _, _ =>
            do SYSTEM_ERROR "Can not convert Real to 'mpfr'" then error
        end
      else
        do Py_DECREF result then ret Py_NotImplemented
  | _, _, _ =>
      do Py_XDECREF result then
      do Py_XDECREF quo then
      do Py_XDECREF rem then
      ret NULL
  end.

(** *** The operator slots and the dispatcher *)

Definition GMPy_mpz_divmod_fast (x y : loc) : M retval :=
  let* b := andM (IS_INTEGER x) (IS_INTEGER y) in
  if b then GMPy_Integer_DivMod x y None
  else
    let* b := andM (IS_RATIONAL x) (IS_RATIONAL y) in
    if b then GMPy_Rational_DivMod x y None
    else
      let* b := andM (IS_REAL x) (IS_REAL y) in
      if b then GMPy_Real_DivMod x y None
      else
        let* b := andM (IS_COMPLEX x) (IS_COMPLEX y) in
        if b then GMPy_Complex_DivMod x y None
        else ret Py_NotImplemented.

Definition GMPy_mpq_divmod_fast (x y : loc) : M retval :=
  let* b := andM (IS_RATIONAL x) (IS_RATIONAL y) in
  if b then GMPy_Rational_DivMod x y None
  else
    let* b := andM (IS_REAL x) (IS_REAL y) in
    if b then GMPy_Real_DivMod x y None
    else
      let* b := andM (IS_COMPLEX x) (IS_COMPLEX y) in
      if b then GMPy_Complex_DivMod x y None
      else ret Py_NotImplemented.

Definition GMPy_mpfr_divmod_fast (x y : loc) : M retval :=
  let* b := andM (IS_REAL x) (IS_REAL y) in
  if b then GMPy_Real_DivMod x y None
  else
    let* b := andM (IS_COMPLEX x) (IS_COMPLEX y) in
    if b then GMPy_Complex_DivMod x y None
    else ret Py_NotImplemented.

Definition GMPy_mpc_divmod_fast (x y : loc) : M retval :=
  GMPy_Complex_DivMod x y None.

Definition GMPy_Number_DivMod (x y : loc) (context : option loc) : M retval :=
  let* b := andM (IS_INTEGER x) (IS_INTEGER y) in
  if b then GMPy_Integer_DivMod x y context
  else
    let* b := andM (IS_RATIONAL x) (IS_RATIONAL y) in
    if b then GMPy_Rational_DivMod x y context
    else
      let* b := andM (IS_REAL x) (IS_REAL y) in
      if b then GMPy_Real_DivMod x y context
      else
        let* b := andM (IS_COMPLEX x) (IS_COMPLEX y) in
        if b then GMPy_Complex_DivMod x y context
        else
          do TYPE_ERROR "divmod() argument type not supported" then ret NULL.

(** *** The method [context.divmod] *)

Definition GMPy_Context_DivMod (self : option loc) (args : loc) : M retval :=
  let* n := PyTuple_GET_SIZE args in
  if negb (n =? 2)%nat then
    do TYPE_ERROR "div_mod() requires 2 arguments." then ret NULL
  else
    let* is_ctx := match self with
                   | Some s => CTXT_Check s
                   | None => ret false
                   end in
    let* context :=
      match self, is_ctx with
      | Some s, true =>
          (* If we are passed a read-only context, make a copy of it before
             proceeding. Remember to decref context when we're done. *)
          let* cx := get_ctx s in
          if ctx_readonly cx then GMPy_CTXT_Copy s
          else do Py_INCREF s then ret (Some s)
      | _, _ =>
          let* c := CHECK_CONTEXT_SET_EXPONENT None in
          do Py_INCREF c then ret (Some c)
      end in
    match context with
    | None => ret NULL
    | Some context =>
        let* a0 := PyTuple_GET_ITEM args 0 in
        let* a1 := PyTuple_GET_ITEM args 1 in
        let* result := GMPy_Number_DivMod a0 a1 (Some context) in
        do Py_DECREF context then
        ret result
    end.

End Divmod.

(** * Specification and proof vocabulary *)

Definition wp {A} (m : M A) (st : state) (Q : A -> state -> Prop) : Prop :=
  match m st with
  | Some (a, st') => Q a st'
  | None => False
  end.

Definition upd (l : loc) (o : PyObject) (st : state) : state :=
  with_heap (<[l := o]> (heap st)) st.

Definition fresh_loc (st : state) : loc := fresh (dom (heap st)).

Definition alloc_state (d : payload) (st : state) : state :=
  mk_state (<[fresh_loc st := mk_object 1 d]> (heap st)) (Nat.pred (mem_avail st))
    (current_context st) (mpfr_flags st) (mpfr_range st) (err_indicator st).

Definition free_state (l : loc) (st : state) : state :=
  mk_state (delete l (heap st)) (S (mem_avail st)) (current_context st)
    (mpfr_flags st) (mpfr_range st) (err_indicator st).

Definition err_state (e : exception) (msg : string) (st : state) : state :=
  mk_state (heap st) (mem_avail st) (current_context st) (mpfr_flags st)
    (mpfr_range st) (Some (e, msg)).

Definition range_state (rng : MPFR.exp_range) (st : state) : state :=
  mk_state (heap st) (mem_avail st) (current_context st) (mpfr_flags st) rng
    (err_indicator st).

Definition is_tuple (d : payload) : bool :=
  match d with PyTuple_Object _ => true | _ => false end.

(** A context argument that designates a live context object. *)
Definition resolve (st : state) (context : option loc) : loc :=
  match context with Some c => c | None => current_context st end.

Definition flags_state (fl : MPFR.flags_t) (st : state) : state :=
  mk_state (heap st) (mem_avail st) (current_context st) fl (mpfr_range st)
    (err_indicator st).

(** The value of the temporary that [GMPy_MPQ_From_Number_Temp] allocates
    for an operand that is not an [mpq]. *)
Definition mpq_temp_value (d : payload) : option Q :=
  match d with
  | MPZ_Object z | XMPZ_Object z | PyLong_Object z => Some (z # 1)
  | PyFraction_Object q => Some (Qred q)
  | _ => None
  end.

Record prelude_post (d1 d2 d3 : payload) (S1 S4 : state) (r m q : loc) : Prop := {
  pre_r : heap S4 !! r = Some (mk_object 1 d1);
  pre_m : heap S4 !! m = Some (mk_object 1 d2);
  pre_q : heap S4 !! q = Some (mk_object 1 d3);
  pre_rm : r <> m;
  pre_rq : r <> q;
  pre_mq : m <> q;
  pre_old : forall l o, heap S1 !! l = Some o ->
            heap S4 !! l = Some o /\ l <> r /\ l <> m /\ l <> q;
  pre_fresh_r : heap S1 !! r = None;
  pre_fresh_m : heap S1 !! m = None;
  pre_fresh_q : heap S1 !! q = None;
  pre_heap : heap S4 =
             <[q := mk_object 1 d3]> (<[m := mk_object 1 d2]> (<[r := mk_object 1 d1]> (heap S1)));
  pre_mem : mem_avail S4 = (mem_avail S1 - 3)%nat;
  pre_cur : current_context S4 = current_context S1;
  pre_flags : mpfr_flags S4 = mpfr_flags S1;
  pre_range : mpfr_range S4 = mpfr_range S1;
  pre_err : err_indicator S4 = err_indicator S1
}.

(** Floor division: the quotient is [floor (a / b)] and the remainder has the
    sign of the divisor. *)
Definition floor_divmod (a b q m : Z) : Prop :=
  q = a / b /\ m = a - q * b /\ (0 <= m < b \/ b < m <= 0) /\ Z.abs m < Z.abs b.

Definition integer_value (d : payload) : option Z :=
  match d with
  | PyLong_Object v | MPZ_Object v | XMPZ_Object v => Some v
  | _ => None
  end.

Definition read_pair (st : state) (r : loc) : option (payload * payload) :=
  match heap st !! r with
  | Some (mk_object _ (PyTuple_Object [Some q; Some m])) =>
      match heap st !! q, heap st !! m with
      | Some oq, Some om => Some (ob_data oq, ob_data om)
      | _, _ => None
      end
  | _ => None
  end.

Definition Integer_DivMod_post (a b : Z) (v : retval) (st' : state) : Prop :=
  (b = 0 -> v = NULL /\
            err_indicator st' =
              Some (PyExc_ZeroDivisionError, "division or modulo by zero"%string)) /\
  (b <> 0 -> exists r q m, v = Ref r /\
             read_pair st' r = Some (MPZ_Object q, MPZ_Object m) /\
             floor_divmod a b q m).

Definition rational_value (d : payload) : option Q :=
  match d with
  | PyLong_Object z | MPZ_Object z | XMPZ_Object z => Some (inject_Z z)
  | PyFraction_Object q | MPQ_Object q => Some q
  | _ => None
  end.

Definition Rational_DivMod_post (qx qy : Q) (v : retval) (st' : state) : Prop :=
  (qy == 0 -> v = NULL /\
              err_indicator st' =
                Some (PyExc_ZeroDivisionError, "division or modulo by zero"%string))%Q /\
  (~ qy == 0 -> exists r quo rem, v = Ref r /\
             read_pair st' r = Some (MPZ_Object quo, MPQ_Object rem) /\
             quo = Qfloor (qx / qy) /\
             rem = Qred (qx - inject_Z quo * qy) /\
             qx == inject_Z quo * qy + rem)%Q.

(** No context object of the old state is changed in the new one. *)
Definition ctx_unchanged (st st' : state) : Prop :=
  forall l n c, heap st !! l = Some (mk_object n (CTXT_Object c)) ->
                heap st' !! l = Some (mk_object n (CTXT_Object c)).

(** The temporary that [GMPy_MPFR_From_Real_Temp] allocates for an operand
    that is not an [mpfr]: value, precision, ternary value and the MPFR flags
    the conversion raises. *)
Definition mpfr_temp (cx : gmpy_context) (rng : MPFR.exp_range) (d : payload)
  : option (MPFR.mpfr_t * Z * Z * MPFR.flags_t) :=
  let p := ctx_mpfr_prec cx in
  match d with
  | PyFloat_Object f => Some (f, DBL_MANT_DIG, 0, MPFR.no_flags)
  | MPZ_Object z | XMPZ_Object z | PyLong_Object z =>
      let R := MPFR.mpfr_set_z rng p z (ctx_mpfr_round cx) in
      Some (fst (fst R), p, snd (fst R), snd R)
  | MPQ_Object q | PyFraction_Object q =>
      let R := mpfr_set_q rng p q (ctx_mpfr_round cx) in
      Some (fst (fst R), p, snd (fst R), snd R)
  | _ => None
  end.

(** The value [GMPy_Real_DivMod] computes with for a Real operand. *)
Definition real_value (cx : gmpy_context) (d : payload) : option MPFR.mpfr_t :=
  match d with
  | MPFR_Object f _ _ => Some f
  | _ => match mpfr_temp cx (MPFR.mk_range (ctx_emin cx) (ctx_emax cx)) d with
         | Some (f, _, _, _) => Some f
         | None => None
         end
  end.

(** ** The arithmetic of [GMPy_Real_DivMod] on values

    The stages of the function as pure functions of the context, the operand
    values, the two result cells (value and ternary value) and the MPFR
    flags. *)

Record real_cells := mk_cells {
  c_ctx : gmpy_context;
  c_quo : MPFR.mpfr_t * Z;
  c_rem : MPFR.mpfr_t * Z;
  c_flags : MPFR.flags_t
}.

(** The value and ternary value of an MPFR result, and the flags after it. *)
Definition res_cell (R : MPFR.result) : MPFR.mpfr_t * Z := (fst (fst R), snd (fst R)).

(** Lines 285-291. *)
Definition divzero_pure (fy : MPFR.mpfr_t) (cx : gmpy_context)
  : gmpy_context * option (exception * string) :=
  if MPFR.mpfr_zero_p fy then
    (set_divzero cx,
     if traps_on cx TRAP_DIVZERO
     then Some (GMPyExc_DivZero, "'mpfr' division by zero in divmod"%string)
     else None)
  else (cx, None).

Definition invalid_error : exception * string :=
  (GMPyExc_Invalid, "'mpfr' invalid operation in divmod"%string).

(** Lines 293-329. *)
Definition compute_pure (rng : MPFR.exp_range) (p : Z) (fx fy : MPFR.mpfr_t)
    (s : real_cells) : real_cells * option (exception * string) :=
  let cx := c_ctx s in
  let fl := c_flags s in
  let rnd := ctx_mpfr_round cx in
  if MPFR.mpfr_nan_p fx || (MPFR.mpfr_nan_p fy || MPFR.mpfr_inf_p fx) then
    if traps_on cx TRAP_INVALID
    then (mk_cells (set_invalid cx) (c_quo s) (c_rem s) fl, Some invalid_error)
    else (mk_cells (set_invalid cx) (MPFR.NaN, snd (c_quo s)) (MPFR.NaN, snd (c_rem s))
            (MPFR.flags_or (MPFR.flags_or fl MPFR.flag_nan) MPFR.flag_nan), None)
  else if MPFR.mpfr_inf_p fy then
    if traps_on cx TRAP_INVALID
    then (mk_cells (set_invalid cx) (c_quo s) (c_rem s) fl, Some invalid_error)
    else if MPFR.mpfr_zero_p fx then
      let sg := MPFR.mpfr_sgn fy in
      (mk_cells (set_invalid cx)
         (MPFR.mpfr_set_zero (fst sg), snd (c_quo s))
         (MPFR.mpfr_set_zero (fst sg), snd (c_rem s))
         (MPFR.flags_or (MPFR.flags_or fl (snd sg)) (snd sg)), None)
    else if negb (Bool.eqb (MPFR.mpfr_signbit fx) (MPFR.mpfr_signbit fy)) then
      let Rq := MPFR.mpfr_set_si rng p (-1) MPFR.MPFR_RNDN in
      let sg := MPFR.mpfr_sgn fy in
      (mk_cells (set_invalid cx)
         (fst (fst Rq), snd (c_quo s))
         (MPFR.mpfr_set_inf (fst sg), snd (c_rem s))
         (MPFR.flags_or (MPFR.flags_or fl (snd Rq)) (snd sg)), None)
    else
      let Rq := MPFR.mpfr_set_si rng p 0 MPFR.MPFR_RNDN in
      let Rr := MPFR.mpfr_set rng p fx rnd in
      (mk_cells (set_invalid cx)
         (fst (fst Rq), snd (c_quo s))
         (res_cell Rr)
         (MPFR.flags_or (MPFR.flags_or fl (snd Rq)) (snd Rr)), None)
  else
    let Rd := MPFR.mpfr_div rng p fx fy MPFR.MPFR_RNDD in
    let Rf := MPFR.mpfr_floor rng p (fst (fst Rd)) in
    let Rm := MPFR.mpfr_fms rng p (fst (fst Rf)) fy fx rnd in
    let Rn := MPFR.mpfr_neg rng p (fst (fst Rm)) rnd in
    (mk_cells cx
       (fst (fst Rf), snd (c_quo s))
       (fst (fst Rn), snd (fst Rm))
       (MPFR.flags_or
          (MPFR.flags_or (MPFR.flags_or (MPFR.flags_or fl (snd Rd)) (snd Rf)) (snd Rm))
          (snd Rn)), None).

(** The macro [SUBNORMALIZE] on one result cell. *)
Definition subnormalize_pure (cx : gmpy_context) (rng : MPFR.exp_range) (p : Z)
    (cell : MPFR.mpfr_t * Z) (fl : MPFR.flags_t)
  : (MPFR.mpfr_t * Z) * MPFR.flags_t :=
  if ctx_subnormalize cx then
    let R := MPFR.mpfr_subnormalize rng p (fst cell) (snd cell) (ctx_mpfr_round cx) in
    (res_cell R, MPFR.flags_or fl (snd R))
  else (cell, fl).

(** Lines 333-344: the first trapped condition, in the order underflow,
    overflow, inexact. *)
Definition traps_pure (fl : MPFR.flags_t) (cx : gmpy_context)
  : option (exception * string) :=
  if MPFR.underflow fl && traps_on cx TRAP_UNDERFLOW
  then Some (GMPyExc_Underflow, "'mpfr' underflow in divmod"%string)
  else if MPFR.overflow fl && traps_on cx TRAP_OVERFLOW
  then Some (GMPyExc_Overflow, "'mpfr' overflow in divmod"%string)
  else if MPFR.inexflag fl && traps_on cx TRAP_INEXACT
  then Some (GMPyExc_Inexact, "'mpfr' inexact result in divmod"%string)
  else None.

(** What a call of [GMPy_Real_DivMod] leaves behind: the context, whether
    the MPFR flags were merged and which they were, and the error raised or
    the pair returned. *)
Record real_outcome := mk_outcome {
  out_ctx : gmpy_context;
  out_flags : option MPFR.flags_t;
  out_result : (exception * string) + (MPFR.mpfr_t * Z) * (MPFR.mpfr_t * Z)
}.

Definition core_pure (rng : MPFR.exp_range) (p : Z) (cx : gmpy_context)
    (fx fy : MPFR.mpfr_t) : real_outcome :=
  match divzero_pure fy cx with
  | (cx1, Some e) => mk_outcome cx1 None (inl e)
  | (cx1, None) =>
      match compute_pure rng p fx fy
              (mk_cells cx1 (MPFR.NaN, 0) (MPFR.NaN, 0) MPFR.no_flags) with
      | (s, Some e) => mk_outcome (c_ctx s) None (inl e)
      | (s, None) =>
          let rf := subnormalize_pure (c_ctx s) rng p (c_rem s) (c_flags s) in
          let qf := subnormalize_pure (c_ctx s) rng p (c_quo s) (snd rf) in
          let cx3 := merge_flags (snd qf) (c_ctx s) in
          match traps_pure (snd qf) cx3 with
          | Some e => mk_outcome cx3 (Some (snd qf)) (inl e)
          | None => mk_outcome cx3 (Some (snd qf)) (inr (fst qf, fst rf))
          end
      end
  end.

(** The exponent range and the precision are those of the context. *)
Definition Real_DivMod_pure (cx : gmpy_context) (fx fy : MPFR.mpfr_t) : real_outcome :=
  core_pure (MPFR.mk_range (ctx_emin cx) (ctx_emax cx)) (ctx_mpfr_prec cx) cx fx fy.

(** The state after a stage that only writes the objects at [L]. *)
Record modifies (L : list loc) (S S' : state) : Prop := {
  mod_frame : forall l, l ∉ L -> heap S' !! l = heap S !! l;
  mod_mem : mem_avail S' = mem_avail S;
  mod_cur : current_context S' = current_context S;
  mod_range : mpfr_range S' = mpfr_range S
}.

(** The error indicator after a stage that may have raised [e]. *)
Definition err_after (e : option (exception * string)) (S : state)
  : option (exception * string) :=
  match e with
  | Some _ => e
  | None => err_indicator S
  end.

(** [goto error] was taken. *)
Definition raised (e : option (exception * string)) : bool :=
  match e with Some _ => true | None => false end.

(** The state in which [GMPy_Real_DivMod] leaves its computation, at
    [error] or before the pair is built: the context, the two result
    objects, the flags and the error indicator. *)
Definition core_post (out : real_outcome) (k quo rem : loc) (nk : positive) (p : Z)
    (S S' : state) : Prop :=
  heap S' !! k = Some (mk_object nk (CTXT_Object (out_ctx out))) /\
  (exists q r,
     heap S' !! quo = Some (mk_object 1 (MPFR_Object (fst q) p (snd q))) /\
     heap S' !! rem = Some (mk_object 1 (MPFR_Object (fst r) p (snd r))) /\
     forall v, out_result out = inr v -> v = (q, r)) /\
  modifies [k; quo; rem] S S' /\
  (forall fl, out_flags out = Some fl -> mpfr_flags S' = fl) /\
  err_indicator S' =
    match out_result out with inl e => Some e | inr _ => err_indicator S end.

(** Every context object other than [k] is the same in both states. *)
Definition ctx_frame (k : loc) (st st' : state) : Prop :=
  forall l n c, l <> k -> heap st !! l = Some (mk_object n (CTXT_Object c)) ->
                heap st' !! l = Some (mk_object n (CTXT_Object c)).

(** The result of [GMPy_Real_DivMod] on operands of values [fx] and [fy]
    under the context [cx] held by the object [k]. *)
Definition Real_DivMod_post (cx : gmpy_context) (fx fy : MPFR.mpfr_t) (k : loc)
    (n : positive) (st : state) (v : retval) (st' : state) : Prop :=
  let out := Real_DivMod_pure cx fx fy in
  heap st' !! k = Some (mk_object n (CTXT_Object (out_ctx out))) /\
  ctx_frame k st st' /\
  (forall fl, out_flags out = Some fl -> mpfr_flags st' = fl) /\
  match out_result out with
  | inl e => v = NULL /\ err_indicator st' = Some e /\ mem_avail st' = mem_avail st
  | inr (quo, rem) =>
      exists r, v = Ref r /\
        read_pair st' r =
          Some (MPFR_Object (fst quo) (ctx_mpfr_prec cx) (snd quo),
                MPFR_Object (fst rem) (ctx_mpfr_prec cx) (snd rem)) /\
        err_indicator st' = err_indicator st /\
        mem_avail st' = (mem_avail st - 3)%nat
  end.

(** ** The decision table of Real divmod on special values, as specified *)

(** A value rounded to the precision of the context in its rounding mode
    and brought into the subnormal range of the context if it asks for
    that. *)
Definition rounded_per_context (cx : gmpy_context) (x : MPFR.mpfr_t) : MPFR.mpfr_t :=
  let rng := MPFR.mk_range (ctx_emin cx) (ctx_emax cx) in
  let R := MPFR.mpfr_set rng (ctx_mpfr_prec cx) x (ctx_mpfr_round cx) in
  if ctx_subnormalize cx then
    fst (fst (MPFR.mpfr_subnormalize rng (ctx_mpfr_prec cx) (fst (fst R)) (snd (fst R))
                (ctx_mpfr_round cx)))
  else fst (fst R).

(** The number -1. *)
Definition minus_one : MPFR.mpfr_t := MPFR.Num true 1 0.

(** The pair (quotient, remainder) that the specification prescribes when an
    operand is a NaN or an infinity; [None] for two finite operands. *)
Definition special_values (cx : gmpy_context) (fx fy : MPFR.mpfr_t)
  : option (MPFR.mpfr_t * MPFR.mpfr_t) :=
  match fx, fy with
  | MPFR.NaN, _ | _, MPFR.NaN | MPFR.Inf _, _ => Some (MPFR.NaN, MPFR.NaN)
  | MPFR.Zero _, MPFR.Inf sy => Some (MPFR.Zero sy, MPFR.Zero sy)
  | MPFR.Num sx _ _, MPFR.Inf sy =>
      if Bool.eqb sx sy then Some (MPFR.Zero false, rounded_per_context cx fx)
      else Some (minus_one, MPFR.Inf sy)
  | _, _ => None
  end.

(** ** Sticky flags and traps, as specified *)

(** Every sticky flag set in [c] is set in [c']. *)
Definition flags_kept (c c' : gmpy_context) : Prop :=
  (ctx_underflow c = true -> ctx_underflow c' = true) /\
  (ctx_overflow c = true -> ctx_overflow c' = true) /\
  (ctx_inexact c = true -> ctx_inexact c' = true) /\
  (ctx_invalid c = true -> ctx_invalid c' = true) /\
  (ctx_erange c = true -> ctx_erange c' = true) /\
  (ctx_divzero c = true -> ctx_divzero c' = true).

(** [c'] is [c] with, possibly, the invalid-operation or the divide-by-zero
    flag raised. *)
Definition raises_only (c c' : gmpy_context) : Prop :=
  ctx_traps c' = ctx_traps c /\
  ctx_underflow c' = ctx_underflow c /\
  ctx_overflow c' = ctx_overflow c /\
  ctx_inexact c' = ctx_inexact c /\
  ctx_erange c' = ctx_erange c /\
  (ctx_invalid c = true -> ctx_invalid c' = true) /\
  (ctx_divzero c = true -> ctx_divzero c' = true).

(** The conditions that can trap after the computation, in the order of
    their priority: the flag MPFR raised, the trap bit and the error. *)
Definition trap_checks (fl : MPFR.flags_t) : list (bool * Z * exception) :=
  [ (MPFR.underflow fl, TRAP_UNDERFLOW, GMPyExc_Underflow);
    (MPFR.overflow fl, TRAP_OVERFLOW, GMPyExc_Overflow);
    (MPFR.inexflag fl, TRAP_INEXACT, GMPyExc_Inexact) ].

(** The first condition of the list that was raised and whose trap is
    enabled. *)
Fixpoint first_trap (cx : gmpy_context) (checks : list (bool * Z * exception))
  : option exception :=
  match checks with
  | [] => None
  | (flag, mask, e) :: rest =>
      if flag && traps_on cx mask then Some e else first_trap cx rest
  end.

(** ** The numeric tower, as specified *)

Inductive layer := Integer | Rational | Real | Complex.

(** The order in which the dispatcher tries the layers. *)
Definition layers : list layer := [Integer; Rational; Real; Complex].

Definition in_layer (L : layer) (d : payload) : bool :=
  match L with
  | Integer => is_INTEGER d
  | Rational => is_RATIONAL d
  | Real => is_REAL d
  | Complex => is_COMPLEX d
  end.

(** The first layer of the list that both operands satisfy. *)
Definition first_common (ls : list layer) (dx dy : payload) : option layer :=
  List.find (fun L => in_layer L dx && in_layer L dy) ls.

Definition algorithm (si_bits : Z) (L : layer) : loc -> loc -> option loc -> M retval :=
  match L with
  | Integer => GMPy_Integer_DivMod si_bits
  | Rational => GMPy_Rational_DivMod
  | Real => GMPy_Real_DivMod
  | Complex => GMPy_Complex_DivMod
  end.

(** The state in which a function leaves the interpreter when it only sets
    the error indicator. *)
Definition only_error (e : exception) (msg : string) (st st' : state) : Prop :=
  err_indicator st' = Some (e, msg) /\
  heap st' = heap st /\
  mem_avail st' = mem_avail st /\
  current_context st' = current_context st /\
  mpfr_flags st' = mpfr_flags st /\
  mpfr_range st' = mpfr_range st.

(** ** The way out of an algorithm for operands outside its layer *)



(** ** The method of the context *)

(** What the dispatcher does to the context it is given and to the other
    contexts. *)
Definition context_frame (k : loc) (n : positive) (cx : gmpy_context) (st : state)
    (v : retval) (st' : state) : Prop :=
  exists cx', heap st' !! k = Some (mk_object n (CTXT_Object cx')) /\
              flags_kept cx cx' /\ ctx_frame k st st'.


(** ** Example states *)

(** A context of precision 53 that rounds to nearest, with the given traps. *)
Definition example_context (traps : Z) (readonly : bool) : gmpy_context :=
  mk_context 53 MPFR.MPFR_RNDN 1073741823 (-1073741823) false
    false false false false false false traps readonly.

(** The current context at address 1, two operands at the addresses 2 and 3
    and the tuple of both at address 4; room for ten more objects. *)
Definition example_state (cx : gmpy_context) (dx dy : payload) : state :=
  mk_state
    (<[4%positive := mk_object 1 (PyTuple_Object [Some 2%positive; Some 3%positive])]>
       (<[3%positive := mk_object 1 dy]>
          (<[2%positive := mk_object 1 dx]>
             (<[1%positive := mk_object 1 (CTXT_Object cx)]> ∅))))
    10 1%positive MPFR.no_flags (MPFR.mk_range (-1073741823) 1073741823) None.

(** The number 5 and the number 7.5 as floating-point values. *)
Definition five : MPFR.mpfr_t := MPFR.Num false 5 0.
Definition seven_and_a_half : MPFR.mpfr_t := MPFR.Num false 15 (-1).
Definition two : MPFR.mpfr_t := MPFR.Num false 1 1.

Definition ex_cx : gmpy_context := example_context TRAP_NONE false.

(** divmod (-7, 2) on an [mpz] and a Python integer. *)
Definition ex_int : state := example_state ex_cx (MPZ_Object (-7)) (PyLong_Object 2).

(** divmod (7, -2): the divisor is a negative machine word. *)
Definition ex_neg : state := example_state ex_cx (MPZ_Object 7) (PyLong_Object (-2)).

(** divmod (7/2, 1/3) on an [mpq] and a Python fraction. *)
Definition ex_rat : state :=
  example_state ex_cx (MPQ_Object (7 # 2)) (PyFraction_Object (1 # 3)).

(** divmod (5.0, -inf). *)
Definition ex_inf : state :=
  example_state ex_cx (PyFloat_Object five) (MPFR_Object (MPFR.Inf true) 53 0).

(** divmod (5.0, 0.0). *)
Definition ex_zero_div : state :=
  example_state ex_cx (PyFloat_Object five) (PyFloat_Object (MPFR.Zero false)).


(** An operand that is no number, such as a string, and the integer 1. *)
Definition ex_no_layer : state := example_state ex_cx PyOther_Object (PyLong_Object 1).

(** A Python complex number and the integer 1. *)
Definition ex_complex : state := example_state ex_cx PyComplex_Object (PyLong_Object 1).

(** divmod (7.5, 2.0) called as a method of the read-only context at
    address 1. *)
Definition ex_readonly : state :=
  example_state (example_context TRAP_NONE true)
    (PyFloat_Object seven_and_a_half) (PyFloat_Object two).

(** ** The two exits before the computation *)



(** An untrapped context of precision 53 with the given exponent range. *)
Definition range_context (emin emax : Z) : gmpy_context :=
  mk_context 53 MPFR.MPFR_RNDN emax emin false false false false false false false TRAP_NONE false.

(** The number 0.25. *)
Definition a_quarter : MPFR.mpfr_t := MPFR.Num false 1 (-2).

(** divmod (0.25, -inf) under an untrapped context whose largest exponent
    is 0: the numbers of the context are below 1 in magnitude. *)
Definition ex_small_range : state :=
  example_state (range_context (-1073741823) 0)
    (MPFR_Object a_quarter 53 0) (MPFR_Object (MPFR.Inf true) 53 0).


(** * Ownership and the rest of the file *)

(** Every object of [st] outside [L] is in [st'] what it was, reference
    count included. *)
Definition preserves (L : list loc) (st st' : state) : Prop :=
  forall l o, l ∉ L -> heap st !! l = Some o -> heap st' !! l = Some o.

(** The protocol of a function that returns a new pair: [NULL] with an
    exception set and as much memory left as before, or a tuple that did
    not exist before, holds one reference, and owns two objects that did
    not exist before and hold one reference each; nothing else is
    allocated. *)
Definition returns_new_pair (st : state) (v : retval) (st' : state) : Prop :=
  match v with
  | NULL => err_indicator st' <> None /\ mem_avail st' = mem_avail st
  | Py_NotImplemented => False
  | Ref r =>
      err_indicator st' = err_indicator st /\
      mem_avail st' = (mem_avail st - 3)%nat /\
      exists q m dq dm,
        heap st' !! r = Some (mk_object 1 (PyTuple_Object [Some q; Some m])) /\
        heap st' !! q = Some (mk_object 1 dq) /\
        heap st' !! m = Some (mk_object 1 dm) /\
        heap st !! r = None /\ heap st !! q = None /\ heap st !! m = None /\
        r <> q /\ r <> m /\ q <> m
  end.

(** The state after a failure that released everything: the given
    exception is set, every object of the caller is what it was and the
    memory is what it was. *)
Definition fails_clean (e : exception) (msg : string) (st st' : state) : Prop :=
  err_indicator st' = Some (e, msg) /\
  preserves [] st st' /\
  mem_avail st' = mem_avail st.

(** An operand that the conversion of the layer returns as it is. *)
Definition native_mpq (d : payload) : bool :=
  match d with MPQ_Object _ => true | _ => false end.

Definition native_mpfr (d : payload) : bool :=
  match d with MPFR_Object _ _ _ => true | _ => false end.

(** The state [st] with room for [n] more objects. *)
Definition with_mem (n : nat) (st : state) : state :=
  mk_state (heap st) n (current_context st) (mpfr_flags st) (mpfr_range st)
    (err_indicator st).

(** divmod (3, 2) on two Python integers. *)
Definition ex_longs : state := example_state ex_cx (PyLong_Object 3) (PyLong_Object 2).

(** A call of the method with one argument only. *)
Definition ex_one_arg : state :=
  mk_state
    (<[4%positive := mk_object 1 (PyTuple_Object [Some 2%positive])]>
       (<[2%positive := mk_object 1 (PyLong_Object 1)]>
          (<[1%positive := mk_object 1 (CTXT_Object ex_cx)]> ∅)))
    10 1%positive MPFR.no_flags (MPFR.mk_range (-1073741823) 1073741823) None.

(** divmod (nan, 2.0) with the trap on invalid operations enabled. *)
Definition ex_trap_invalid : state :=
  example_state (example_context TRAP_INVALID false)
    (PyFloat_Object MPFR.NaN) (PyFloat_Object two).

(** divmod (0.0, 2.0). *)
Definition ex_zero_dividend : state :=
  example_state ex_cx (PyFloat_Object (MPFR.Zero false)) (PyFloat_Object two).

(** divmod (7.5, 2.0) under an untrapped context. *)
Definition ex_finite : state :=
  example_state ex_cx (PyFloat_Object seven_and_a_half) (PyFloat_Object two).

(** Rounding toward minus infinity. *)
Definition is_RNDD (rnd : MPFR.mpfr_rnd_t) : bool :=
  match rnd with MPFR.MPFR_RNDD => true | _ => false end.


(** ** Weakest preconditions *)

Lemma wp_ret {A} (a : A) st Q : Q a st -> wp (ret a) st Q.
Proof. exact (fun H => H). Qed.

Lemma wp_bind {A B} (m : M A) (k : A -> M B) st Q :
  wp m st (fun a st' => wp (k a) st' Q) -> wp (bind m k) st Q.
Proof. unfold wp, bind. destruct (m st) as [[a st']|]; auto. Qed.

Lemma wp_eq {A} (m : M A) st a st' (Q : A -> state -> Prop) :
  m st = Some (a, st') -> Q a st' -> wp m st Q.
Proof. unfold wp. intros ->. auto. Qed.

Lemma wp_run {A} (m : M A) st (Q : A -> state -> Prop) :
  wp m st Q <-> exists a st', m st = Some (a, st') /\ Q a st'.
Proof.
  unfold wp. split.
  - destruct (m st) as [[a st']|]; [eauto | tauto].
  - intros (a & st' & -> & H). exact H.
Qed.

Lemma wp_run_eq {A} (m : M A) st a st' :
  wp m st (fun b s => b = a /\ s = st') -> m st = Some (a, st').
Proof. intros H. apply wp_run in H. destruct H as (b & s & -> & -> & ->). reflexivity. Qed.

Lemma wp_mono {A} (m : M A) st (Q Q' : A -> state -> Prop) :
  wp m st Q -> (forall a st', Q a st' -> Q' a st') -> wp m st Q'.
Proof. unfold wp. destruct (m st) as [[a st']|]; auto. Qed.

(** ** Run lemmas of the primitives *)

Lemma get_object_run l o st :
  heap st !! l = Some o -> get_object l st = Some (o, st).
Proof. unfold get_object. intros ->. reflexivity. Qed.

Lemma type_test_run f l o st :
  heap st !! l = Some o -> type_test f l st = Some (f (ob_data o), st).
Proof. intros H. unfold type_test, bind. rewrite (get_object_run _ _ _ H). reflexivity. Qed.

Lemma set_data_run l d o st :
  heap st !! l = Some o -> set_data l d st = Some (tt, upd l (mk_object (ob_refcnt o) d) st).
Proof. intros H. unfold set_data, bind. rewrite (get_object_run _ _ _ H). reflexivity. Qed.

Lemma fresh_loc_None st : heap st !! fresh_loc st = None.
Proof. unfold fresh_loc. apply (not_elem_of_dom (D := gset loc)). apply is_fresh. Qed.

Lemma fresh_loc_ne st l o : heap st !! l = Some o -> fresh_loc st <> l.
Proof. intros H E. rewrite <- E, fresh_loc_None in H. discriminate. Qed.

Lemma alloc_run d st :
  mem_avail st <> O -> alloc d st = Some (Some (fresh_loc st), alloc_state d st).
Proof. unfold alloc. destruct (mem_avail st) eqn:E; [congruence|]. intros _.
  unfold alloc_state. rewrite E. reflexivity. Qed.

Lemma alloc_fail d st :
  mem_avail st = O -> alloc d st = Some (None, err_state PyExc_MemoryError "" st).
Proof. unfold alloc. intros ->. reflexivity. Qed.

Lemma PyErr_SetString_run e msg st :
  PyErr_SetString e msg st = Some (tt, err_state e msg st).
Proof. reflexivity. Qed.

Lemma free_run l st : free l st = Some (tt, free_state l st).
Proof. reflexivity. Qed.

Lemma Py_INCREF_run l o st :
  heap st !! l = Some o ->
  Py_INCREF l st = Some (tt, upd l (mk_object (Pos.succ (ob_refcnt o)) (ob_data o)) st).
Proof. intros H. unfold Py_INCREF, bind. rewrite (get_object_run _ _ _ H). reflexivity. Qed.

Lemma release_items_None n st : release_items (replicate n None) st = Some (tt, st).
Proof. induction n; simpl; auto. Qed.

Lemma Py_DECREF_free l o st :
  heap st !! l = Some o -> ob_refcnt o = 1%positive ->
  (is_tuple (ob_data o) = false \/ exists n, ob_data o = PyTuple_Object (replicate n None)) ->
  Py_DECREF l st = Some (tt, free_state l st).
Proof.
  intros H E D. unfold Py_DECREF, bind. rewrite (get_object_run _ _ _ H), E. simpl.
  destruct D as [D|[n D]].
  - destruct (ob_data o); simpl in D; try discriminate; reflexivity.
  - rewrite D. apply release_items_None.
Qed.

Lemma Py_DECREF_dec l o st :
  heap st !! l = Some o -> ob_refcnt o <> 1%positive ->
  Py_DECREF l st = Some (tt, upd l (mk_object (Pos.pred (ob_refcnt o)) (ob_data o)) st).
Proof.
  intros H E. unfold Py_DECREF, bind. rewrite (get_object_run _ _ _ H).
  destruct (Pos.eqb_spec (ob_refcnt o) 1); [congruence | reflexivity].
Qed.

Lemma get_ctx_run c n cx st :
  heap st !! c = Some (mk_object n (CTXT_Object cx)) -> get_ctx c st = Some (cx, st).
Proof. intros H. unfold get_ctx, bind. rewrite (get_object_run _ _ _ H). reflexivity. Qed.

Lemma CHECK_CONTEXT_SET_EXPONENT_run context n cx st :
  heap st !! resolve st context = Some (mk_object n (CTXT_Object cx)) ->
  CHECK_CONTEXT_SET_EXPONENT context st =
    Some (resolve st context, range_state (MPFR.mk_range (ctx_emin cx) (ctx_emax cx)) st).
Proof.
  intros H. unfold CHECK_CONTEXT_SET_EXPONENT, SET_EXPONENT, bind.
  destruct context as [c|]; simpl in *; unfold CURRENT_CONTEXT;
    rewrite (get_ctx_run _ _ _ _ H); reflexivity.
Qed.

Lemma MPZ_run l o z st :
  heap st !! l = Some o -> (ob_data o = MPZ_Object z \/ ob_data o = XMPZ_Object z) ->
  MPZ l st = Some (z, st).
Proof. intros H D. unfold MPZ, bind. rewrite (get_object_run _ _ _ H).
  destruct D as [-> | ->]; reflexivity. Qed.

Lemma PyLong_value_run l o v st :
  heap st !! l = Some o -> ob_data o = PyLong_Object v -> PyLong_value l st = Some (v, st).
Proof. intros H D. unfold PyLong_value, bind. rewrite (get_object_run _ _ _ H), D. reflexivity. Qed.

Lemma tuple_items_run l o items st :
  heap st !! l = Some o -> ob_data o = PyTuple_Object items -> tuple_items l st = Some (items, st).
Proof. intros H D. unfold tuple_items, bind. rewrite (get_object_run _ _ _ H), D. reflexivity. Qed.

Lemma PyTuple_SET_ITEM_run l o items i v st :
  heap st !! l = Some o -> ob_data o = PyTuple_Object items ->
  PyTuple_SET_ITEM l i v st =
    Some (tt, upd l (mk_object (ob_refcnt o) (PyTuple_Object (<[i := Some v]> items))) st).
Proof. intros H D. unfold PyTuple_SET_ITEM, bind. rewrite (tuple_items_run _ _ _ _ H D).
  apply set_data_run, H. Qed.

(** *** Lookups through the state transformers *)

Lemma alloc_lookup_new d st :
  heap (alloc_state d st) !! fresh_loc st = Some (mk_object 1 d).
Proof. apply lookup_insert_eq. Qed.

Lemma alloc_lookup_old d st l o :
  heap st !! l = Some o -> heap (alloc_state d st) !! l = Some o.
Proof.
  intros H. unfold alloc_state; cbn [heap].
  rewrite lookup_insert_ne; [exact H | eapply fresh_loc_ne, H].
Qed.

Lemma upd_lookup_eq l o st : heap (upd l o st) !! l = Some o.
Proof. apply lookup_insert_eq. Qed.

Lemma upd_lookup_ne l o st p : l <> p -> heap (upd l o st) !! p = heap st !! p.
Proof. apply lookup_insert_ne. Qed.

Lemma free_lookup_ne l st p : l <> p -> heap (free_state l st) !! p = heap st !! p.
Proof. apply lookup_delete_ne. Qed.

Lemma free_lookup_eq l st : heap (free_state l st) !! l = None.
Proof. apply lookup_delete_eq. Qed.

Lemma err_lookup e msg st p : heap (err_state e msg st) !! p = heap st !! p.
Proof. reflexivity. Qed.

Lemma range_lookup rng st p : heap (range_state rng st) !! p = heap st !! p.
Proof. reflexivity. Qed.

Lemma flags_lookup fl st p : heap (flags_state fl st) !! p = heap st !! p.
Proof. reflexivity. Qed.

(** [solve_lookup] proves [heap S !! p = Some ?o] by walking down the
    transformers that built [S]; [solve_ne] proves that two locations differ,
    from a hypothesis or because one of them was fresh when the other was
    live. *)
Ltac solve_lookup :=
  lazymatch goal with
  | |- heap (alloc_state ?d ?S) !! fresh_loc ?S = _ => apply alloc_lookup_new
  | |- heap (alloc_state ?d (flags_state ?f ?S)) !! fresh_loc ?S = _ =>
      exact (alloc_lookup_new d (flags_state f S))
  | |- heap (alloc_state ?d ?S) !! ?p = _ => apply alloc_lookup_old; solve_lookup
  | |- heap (upd ?l ?o ?S) !! ?l = _ => apply upd_lookup_eq
  | |- heap (upd ?l ?o ?S) !! ?p = _ =>
      rewrite (upd_lookup_ne l o S p) by solve_ne; solve_lookup
  | |- heap (free_state ?l ?S) !! ?p = _ =>
      rewrite (free_lookup_ne l S p) by solve_ne; solve_lookup
  | |- heap (err_state ?e ?m ?S) !! ?p = _ => rewrite (err_lookup e m S p); solve_lookup
  | |- heap (range_state ?r ?S) !! ?p = _ => rewrite (range_lookup r S p); solve_lookup
  | |- heap (flags_state ?f ?S) !! ?p = _ => rewrite (flags_lookup f S p); solve_lookup
  | |- heap ?S !! ?p = _ =>
      first
        [ eassumption
        | match goal with
          | H : modifies ?L ?S0 S |- _ =>
              rewrite (mod_frame L S0 S H p)
                by (rewrite ?not_elem_of_cons; repeat split;
                    first [solve_ne | apply not_elem_of_nil]);
              solve_lookup
          end ]
  end
with solve_ne :=
  first
    [ assumption
    | apply not_eq_sym; assumption
    | eapply fresh_loc_ne; solve_lookup
    | apply not_eq_sym; eapply fresh_loc_ne; solve_lookup
    | congruence ].

(** Rewrite the first heap lookup of the goal that [solve_lookup] settles. *)
Ltac lookup_rw :=
  match goal with
  | |- context [heap ?S !! ?p] =>
      let H := fresh "Hlk" in
      eassert (heap S !! p = Some _) as H by solve_lookup;
      rewrite H; clear H
  end.

Ltac proj_state :=
  cbn [mem_avail current_context mpfr_flags mpfr_range err_indicator
       upd with_heap alloc_state free_state err_state range_state flags_state].

Lemma PyLong_AsSIAndOverflow_run si_bits l o v st :
  heap st !! l = Some o -> ob_data o = PyLong_Object v ->
  PyLong_AsSIAndOverflow si_bits l st =
    Some (if MachineWord.fits_si si_bits v then (v, false) else (0, true), st).
Proof. intros H D. unfold PyLong_AsSIAndOverflow, bind.
  rewrite (PyLong_value_run _ _ _ _ H D). reflexivity. Qed.

Ltac through_modifies :=
  proj_state;
  repeat (match goal with
          | H : modifies _ _ ?S |- context [mpfr_range ?S] => rewrite (mod_range _ _ _ H)
          | H : modifies _ _ ?S |- context [mem_avail ?S] => rewrite (mod_mem _ _ _ H)
          | H : modifies _ _ ?S |- context [current_context ?S] =>
              rewrite (mod_cur _ _ _ H)
          end; proj_state).

Ltac solve_proj :=
  lazymatch goal with
  | |- mpfr_range _ = _ => through_modifies; first [eassumption | reflexivity]
  | |- mpfr_flags _ = _ => proj_state; first [eassumption | reflexivity]
  end.

Ltac side :=
  first [ solve_lookup | solve_proj | reflexivity | eassumption
        | left; reflexivity | right; reflexivity
        | right; exists 2%nat; reflexivity
        | proj_state; lia
        | rewrite ?Pos.pred_succ; apply Pos.succ_not_1 ].

Lemma From_Integer_Temp_fresh x c o v st :
  heap st !! x = Some o ->
  (ob_data o = PyLong_Object v \/ ob_data o = XMPZ_Object v) ->
  mem_avail st <> O ->
  GMPy_MPZ_From_Integer_Temp x c st =
    Some (Some (fresh_loc st), alloc_state (MPZ_Object v) st).
Proof.
  intros H D Hm. unfold GMPy_MPZ_From_Integer_Temp, bind.
  rewrite (get_object_run _ _ _ H). destruct D as [-> | ->]; apply alloc_run, Hm.
Qed.

Lemma From_Integer_Temp_borrow x c o z st :
  heap st !! x = Some o -> ob_data o = MPZ_Object z ->
  GMPy_MPZ_From_Integer_Temp x c st =
    Some (Some x, upd x (mk_object (Pos.succ (ob_refcnt o)) (ob_data o)) st).
Proof.
  intros H D. unfold GMPy_MPZ_From_Integer_Temp, bind.
  rewrite (get_object_run _ _ _ H), D. rewrite <- D.
  rewrite (Py_INCREF_run _ _ _ H). reflexivity.
Qed.

Lemma MPQ_run l o q st :
  heap st !! l = Some o -> ob_data o = MPQ_Object q -> MPQ l st = Some (q, st).
Proof. intros H D. unfold MPQ, bind. rewrite (get_object_run _ _ _ H), D. reflexivity. Qed.

Lemma From_Number_Temp_fresh x c o q st :
  heap st !! x = Some o -> mpq_temp_value (ob_data o) = Some q ->
  mem_avail st <> O ->
  GMPy_MPQ_From_Number_Temp x c st =
    Some (Some (fresh_loc st), alloc_state (MPQ_Object q) st).
Proof.
  intros H D Hm. unfold GMPy_MPQ_From_Number_Temp, bind.
  rewrite (get_object_run _ _ _ H).
  destruct (ob_data o); try discriminate; injection D as <-; apply alloc_run, Hm.
Qed.

Lemma From_Number_Temp_borrow x c o q st :
  heap st !! x = Some o -> ob_data o = MPQ_Object q ->
  GMPy_MPQ_From_Number_Temp x c st =
    Some (Some x, upd x (mk_object (Pos.succ (ob_refcnt o)) (ob_data o)) st).
Proof.
  intros H D. unfold GMPy_MPQ_From_Number_Temp, bind.
  rewrite (get_object_run _ _ _ H), D. rewrite <- D.
  rewrite (Py_INCREF_run _ _ _ H). reflexivity.
Qed.

Ltac simp_prog :=
  cbn [ob_data ob_refcnt is_MPZANY is_PyIntOrLong is_INTEGER is_RATIONAL is_REAL
       is_COMPLEX is_CTXT is_tuple orb andb negb fst snd replicate insert list_insert].

Ltac prim lem := eapply wp_eq; [ eapply lem; side | simp_prog ].

Ltac step :=
  lazymatch goal with
  | |- wp (bind _ _) _ _ => apply wp_bind
  | |- wp (ret _) _ _ => apply wp_ret; simp_prog
  | |- wp (andM _ _) _ _ => unfold andM
  | |- wp (orM _ _) _ _ => unfold orM
  | |- wp (return_mpz_pair _ _ _ _) _ _ => unfold return_mpz_pair
  | |- wp (PyTuple_New _) _ _ => unfold PyTuple_New
  | |- wp (GMPy_MPZ_New _) _ _ => unfold GMPy_MPZ_New
  | |- wp (GMPy_MPQ_New _) _ _ => unfold GMPy_MPQ_New
  | |- wp (Py_XDECREF (Some _)) _ _ => unfold Py_XDECREF
  | |- wp (CHECK_CONTEXT_SET_EXPONENT _) _ _ => prim CHECK_CONTEXT_SET_EXPONENT_run
  | |- wp (alloc _) _ _ => prim alloc_run
  | |- wp (type_test _ _) _ _ => prim type_test_run
  | |- wp (CHECK_MPZANY _) _ _ => prim type_test_run
  | |- wp (PyIntOrLong_Check _) _ _ => prim type_test_run
  | |- wp (IS_INTEGER _) _ _ => prim type_test_run
  | |- wp (IS_RATIONAL _) _ _ => prim type_test_run
  | |- wp (IS_REAL _) _ _ => prim type_test_run
  | |- wp (IS_COMPLEX _) _ _ => prim type_test_run
  | |- wp (CTXT_Check _) _ _ => prim type_test_run
  | |- wp (MPZ _) _ _ => prim MPZ_run
  | |- wp (PyLong_value _) _ _ => prim PyLong_value_run
  | |- wp (mpz_set_PyIntOrLong _) _ _ => prim PyLong_value_run
  | |- wp (PyLong_AsSIAndOverflow _ _) _ _ => prim PyLong_AsSIAndOverflow_run
  | |- wp (set_data _ _) _ _ => prim set_data_run
  | |- wp (PyTuple_SET_ITEM _ _ _) _ _ => prim PyTuple_SET_ITEM_run
  | |- wp (PyErr_SetString _ _) _ _ => prim PyErr_SetString_run
  | |- wp (ZERO_ERROR _) _ _ => prim PyErr_SetString_run
  | |- wp (TYPE_ERROR _) _ _ => prim PyErr_SetString_run
  | |- wp (SYSTEM_ERROR _) _ _ => prim PyErr_SetString_run
  | |- wp (Py_INCREF _) _ _ => prim Py_INCREF_run
  | |- wp (Py_DECREF _) _ _ => first [ prim Py_DECREF_free | prim Py_DECREF_dec ]
  | |- wp (get_ctx _) _ _ => prim get_ctx_run
  | |- wp (MPQ _) _ _ => prim MPQ_run
  | |- wp (mpq_div _ _ _) _ _ => unfold mpq_div
  | |- wp (mpq_mul _ _ _) _ _ => unfold mpq_mul
  | |- wp (mpq_sub _ _ _) _ _ => unfold mpq_sub
  | |- wp (mpq_set_z _ _) _ _ => unfold mpq_set_z
  | |- wp (mpz_fdiv_q_num_den _ _) _ _ => unfold mpz_fdiv_q_num_den
  | |- wp (GMPy_MPQ_From_Number_Temp _ _) _ _ =>
      first [ prim From_Number_Temp_borrow | prim From_Number_Temp_fresh ]
  | |- wp (GMPy_MPZ_From_Integer_Temp _ _) _ _ =>
      first [ prim From_Integer_Temp_borrow | prim From_Integer_Temp_fresh ]
  end.

Lemma alloc_lookup_None_old d st l :
  heap (alloc_state d st) !! l = None -> heap st !! l = None.
Proof.
  intros H. destruct (heap st !! l) as [o|] eqn:E; [|reflexivity].
  rewrite (alloc_lookup_old d st l o E) in H. discriminate.
Qed.

(** *** The common prelude: three freshly allocated containers *)

Lemma prelude_facts d1 d2 d3 S1 :
  prelude_post d1 d2 d3 S1
    (alloc_state d3 (alloc_state d2 (alloc_state d1 S1)))
    (fresh_loc S1)
    (fresh_loc (alloc_state d1 S1))
    (fresh_loc (alloc_state d2 (alloc_state d1 S1))).
Proof.
  assert (Hm : fresh_loc (alloc_state d1 S1) <> fresh_loc S1)
    by (eapply fresh_loc_ne; solve_lookup).
  assert (Hq1 : fresh_loc (alloc_state d2 (alloc_state d1 S1)) <> fresh_loc S1)
    by (eapply fresh_loc_ne; solve_lookup).
  assert (Hq2 : fresh_loc (alloc_state d2 (alloc_state d1 S1)) <> fresh_loc (alloc_state d1 S1))
    by (eapply fresh_loc_ne; solve_lookup).
  split; try solve_lookup; try congruence; try reflexivity.
  - intros l o H. repeat split; try solve_lookup; apply not_eq_sym; eapply fresh_loc_ne; solve_lookup.
  - apply fresh_loc_None.
  - apply (alloc_lookup_None_old d1), fresh_loc_None.
  - apply (alloc_lookup_None_old d1), (alloc_lookup_None_old d2), fresh_loc_None.
  - cbn. lia.
Qed.

(** Name the three containers and the state after the prelude, and forget
    how they were built. *)
Ltac abstract_prelude P :=
  lazymatch goal with
  | |- context [alloc_state ?d3 (alloc_state ?d2 (alloc_state ?d1 ?S1))] =>
      pose proof (prelude_facts d1 d2 d3 S1) as P;
      let q := fresh "quo" in
      let m := fresh "rem" in
      let r := fresh "result" in
      let s := fresh "st_pre" in
      set (q := fresh_loc (alloc_state d2 (alloc_state d1 S1))) in *;
      set (m := fresh_loc (alloc_state d1 S1)) in *;
      set (r := fresh_loc S1) in *;
      set (s := alloc_state d3 (alloc_state d2 (alloc_state d1 S1))) in *;
      clearbody q m r s
  end.

(** Run the prelude of an algorithm up to the third allocation. *)
Ltac run_prelude P :=
  repeat lazymatch goal with
         | |- context [alloc_state _ (alloc_state _ (alloc_state _ _))] => fail
         | |- _ => step
         end;
  abstract_prelude P.

(** Carry a fact about the state before the prelude over to the state after
    it. *)
Ltac lift_old P H :=
  let H1 := fresh H "'" in
  let N1 := fresh "Hne" in
  let N2 := fresh "Hne" in
  let N3 := fresh "Hne" in
  destruct (pre_old _ _ _ _ _ _ _ _ P _ _ H) as (H1 & N1 & N2 & N3).

Ltac branch :=
  lazymatch goal with
  | |- wp (if ?c then _ else _) _ _ =>
      let E := fresh "Hc" in destruct c eqn:E; simp_prog
  | |- wp (match (if ?c then _ else _) with _ => _ end) _ _ =>
      let E := fresh "Hc" in destruct c eqn:E; simp_prog
  end.

Ltac exec := repeat (step || branch).

(** Unpack the facts about the containers. *)
Ltac prelude_unpack P :=
  pose proof (pre_r _ _ _ _ _ _ _ _ P) as Hr;
  pose proof (pre_m _ _ _ _ _ _ _ _ P) as Hm;
  pose proof (pre_q _ _ _ _ _ _ _ _ P) as Hq;
  pose proof (pre_rm _ _ _ _ _ _ _ _ P) as Hrm;
  pose proof (pre_rq _ _ _ _ _ _ _ _ P) as Hrq;
  pose proof (pre_mq _ _ _ _ _ _ _ _ P) as Hmq;
  pose proof (pre_mem _ _ _ _ _ _ _ _ P) as Hmem';
  pose proof (pre_cur _ _ _ _ _ _ _ _ P) as Hcur';
  pose proof (pre_flags _ _ _ _ _ _ _ _ P) as Hflags';
  pose proof (pre_range _ _ _ _ _ _ _ _ P) as Hrange';
  pose proof (pre_err _ _ _ _ _ _ _ _ P) as Herr';
  cbn [mem_avail current_context mpfr_flags mpfr_range err_indicator range_state]
    in Hmem', Hcur', Hflags', Hrange', Herr'.


(** ** Arithmetic of the integer paths *)

Lemma fits_si_bounds bits v :
  MachineWord.fits_si bits v = true ->
  MachineWord.si_min bits <= v <= MachineWord.si_max bits.
Proof. unfold MachineWord.fits_si. intros H. apply andb_true_iff in H. lia. Qed.

Lemma si_pow_half bits : 0 < bits -> 2 ^ bits = 2 * 2 ^ (bits - 1).
Proof. intros H. rewrite <- Z.pow_succ_r by lia. f_equal. lia. Qed.

Lemma si_to_ui_pos bits v :
  MachineWord.fits_si bits v = true -> 0 < v -> MachineWord.si_to_ui bits v = v.
Proof.
  intros Hf Hv. apply fits_si_bounds in Hf. unfold MachineWord.si_max in Hf.
  unfold MachineWord.si_to_ui.
  destruct (Z.le_gt_cases bits 0) as [Hb|Hb].
  - rewrite (Z.pow_neg_r 2 (bits - 1)) in Hf by lia. lia.
  - apply Z.mod_small. rewrite (si_pow_half bits Hb).
    assert (0 < 2 ^ (bits - 1)) by (apply Z.pow_pos_nonneg; lia). lia.
Qed.

Lemma neg_si_as_ui_magnitude bits v :
  MachineWord.fits_si bits v = true -> v < 0 -> neg_si_as_ui bits v = - v.
Proof.
  intros Hf Hv. apply fits_si_bounds in Hf. unfold MachineWord.si_min in Hf.
  unfold neg_si_as_ui, MachineWord.si_to_ui, MachineWord.si_neg, MachineWord.wrap_si.
  destruct (Z.le_gt_cases bits 0) as [Hb|Hb].
  - rewrite (Z.pow_neg_r 2 (bits - 1)) in Hf by lia. lia.
  - assert (Hh : 0 < 2 ^ (bits - 1)) by (apply Z.pow_pos_nonneg; lia).
    pose proof (si_pow_half bits Hb) as Hp.
    rewrite Zminus_mod_idemp_l.
    replace (- v + 2 ^ (bits - 1) - 2 ^ (bits - 1)) with (- v) by lia.
    apply Z.mod_small. lia.
Qed.

Lemma cdiv_neg_is_fdiv n d :
  0 < d -> (let '(q, r) := GMP.mpz_cdiv_qr_ui n d in (GMP.mpz_neg q, r)) = GMP.mpz_fdiv_qr n (- d).
Proof.
  intros Hd. unfold GMP.mpz_cdiv_qr_ui, GMP.mpz_fdiv_qr, GMP.mpz_neg.
  assert (Hq : n / - d = - n / d).
  { rewrite <- (Z.opp_involutive n) at 1. rewrite Z.div_opp_opp by lia. reflexivity. }
  f_equal.
  - lia.
  - rewrite Z.mod_eq by lia. rewrite Hq. lia.
Qed.

Lemma divmod_neg_si_floor bits n v :
  MachineWord.fits_si bits v = true -> v < 0 ->
  divmod_neg_si bits n v = GMP.mpz_fdiv_qr n v.
Proof.
  intros Hf Hv. unfold divmod_neg_si. rewrite (neg_si_as_ui_magnitude _ _ Hf Hv).
  rewrite cdiv_neg_is_fdiv by lia. f_equal. lia.
Qed.

Lemma fdiv_qr_floor a b : b <> 0 -> floor_divmod a b (a / b) (a mod b).
Proof.
  intros Hb. unfold floor_divmod. split; [reflexivity|]. split.
  - rewrite Z.mod_eq by exact Hb. lia.
  - destruct (Z.lt_total b 0) as [H|[H|H]]; [|lia|].
    + pose proof (Z.mod_neg_bound a b H). lia.
    + pose proof (Z.mod_pos_bound a b H). lia.
Qed.


Ltac read_pair_rw := unfold read_pair; repeat (lookup_rw; simp_prog).

Lemma fits_si_zero bits : 0 < bits -> MachineWord.fits_si bits 0 = true.
Proof.
  intros H. unfold MachineWord.fits_si, MachineWord.si_min, MachineWord.si_max.
  assert (0 < 2 ^ (bits - 1)) by (apply Z.pow_pos_nonneg; lia).
  apply andb_true_iff. lia.
Qed.

Ltac zsimp :=
  unfold GMP.mpz_sgn, GMP.mpq_sgn in *;
  repeat match goal with
         | H : (_ =? _) = true |- _ => apply Z.eqb_eq in H
         | H : (_ =? _) = false |- _ => apply Z.eqb_neq in H
         | H : (_ >? _) = true |- _ => rewrite Z.gtb_ltb in H; apply Z.ltb_lt in H
         | H : (_ >? _) = false |- _ => rewrite Z.gtb_ltb in H; apply Z.ltb_ge in H
         | H : Z.sgn _ = 0 |- _ => apply -> Z.sgn_null_iff in H
         | H : Z.sgn _ <> 0 |- _ => rewrite Z.sgn_null_iff in H
         end.

(** The complete behaviour of [GMPy_Integer_DivMod] on two Integer
    operands. *)
Lemma Integer_DivMod_spec si_bits x y context st ox oy a b n cx :
  0 < si_bits ->
  heap st !! x = Some ox -> integer_value (ob_data ox) = Some a ->
  heap st !! y = Some oy -> integer_value (ob_data oy) = Some b ->
  heap st !! resolve st context = Some (mk_object n (CTXT_Object cx)) ->
  (5 <= mem_avail st)%nat ->
  wp (GMPy_Integer_DivMod si_bits x y context) st
     (fun v st' => Integer_DivMod_post a b v st' /\ ctx_unchanged st st').
Proof.
  intros Hbits Hx Vx Hy Vy Hc Hmem.
  unfold GMPy_Integer_DivMod.
  run_prelude P.
  lift_old P Hx. lift_old P Hy. lift_old P Hc.
  prelude_unpack P.
  destruct ox as [rx dx], oy as [ry dy]; cbn [ob_data] in Vx, Vy.
  destruct dx; try discriminate; injection Vx as ->;
  destruct dy; try discriminate; injection Vy as ->.
  all: simp_prog.
  all: exec.
  all: zsimp.
  all: (split; [| intros l n0 c0 Hl; lift_old P Hl; solve_lookup ]).
  all: unfold Integer_DivMod_post.
  all: pose proof (fits_si_zero si_bits Hbits).
  all: split;
       [ intros ->; first [ congruence | lia
                          | split; [reflexivity | proj_state; reflexivity] ]
       | intros Hb; first [ congruence | lia | idtac ] ].
  all: eexists _, _, _; split; [reflexivity|]; split; [read_pair_rw; reflexivity|].
  all: cbn [GMP.mpz_fdiv_qr GMP.mpz_fdiv_qr_ui fst snd].
  all: try (rewrite si_to_ui_pos by (assumption || lia)).
  all: try (rewrite divmod_neg_si_floor by (assumption || lia); cbn [GMP.mpz_fdiv_qr fst snd]).
  all: apply fdiv_qr_floor; assumption.
Qed.

(** C1. Integer divmod fails with a divide-by-zero error for a zero divisor;
    otherwise it returns the pair of the floor quotient [floor (x / y)] and
    the remainder [x - quotient * y], which has the sign of the divisor and
    a smaller magnitude. In particular divmod (-7, 2) = (-4, 1),
    divmod (7, -2) = (-4, -1) and divmod (-7, -2) = (3, -1). *)
Theorem Integer_DivMod_floor si_bits x y context st ox oy a b n cx :
  0 < si_bits ->
  heap st !! x = Some ox -> integer_value (ob_data ox) = Some a ->
  heap st !! y = Some oy -> integer_value (ob_data oy) = Some b ->
  heap st !! resolve st context = Some (mk_object n (CTXT_Object cx)) ->
  (5 <= mem_avail st)%nat ->
  (exists v st', GMPy_Integer_DivMod si_bits x y context st = Some (v, st') /\
                 Integer_DivMod_post a b v st') /\
  (forall v st', Integer_DivMod_post (-7) 2 v st' ->
     exists r, v = Ref r /\
               read_pair st' r = Some (MPZ_Object (-4), MPZ_Object 1)) /\
  (forall v st', Integer_DivMod_post 7 (-2) v st' ->
     exists r, v = Ref r /\
               read_pair st' r = Some (MPZ_Object (-4), MPZ_Object (-1))) /\
  (forall v st', Integer_DivMod_post (-7) (-2) v st' ->
     exists r, v = Ref r /\
               read_pair st' r = Some (MPZ_Object 3, MPZ_Object (-1))).
Proof.
  intros Hbits Hx Vx Hy Vy Hc Hmem. split.
  - pose proof (Integer_DivMod_spec si_bits x y context st ox oy a b n cx
                  Hbits Hx Vx Hy Vy Hc Hmem) as H.
    apply wp_run in H. destruct H as (v & st' & Hrun & Hpost & _). eauto.
  - repeat split; intros v st' [_ H];
      (destruct H as (r & q & m & -> & Hp & -> & -> & _); [lia|]);
      exists r; (split; [reflexivity | exact Hp]).
Qed.

(** C5. On the fast path of an [mpz] dividend and a negative divisor that
    fits the machine word, the ceiling division by the unsigned magnitude
    followed by the negation of the quotient is the floor division by the
    divisor itself, and it is what the function returns. *)
Theorem Integer_DivMod_negative_word si_bits x y context st ox oy a b n cx :
  heap st !! x = Some ox ->
  (ob_data ox = MPZ_Object a \/ ob_data ox = XMPZ_Object a) ->
  heap st !! y = Some oy -> ob_data oy = PyLong_Object b ->
  MachineWord.fits_si si_bits b = true -> b < 0 ->
  heap st !! resolve st context = Some (mk_object n (CTXT_Object cx)) ->
  (3 <= mem_avail st)%nat ->
  divmod_neg_si si_bits a b = GMP.mpz_fdiv_qr a b /\
  floor_divmod a b (fst (divmod_neg_si si_bits a b)) (snd (divmod_neg_si si_bits a b)) /\
  exists r st',
    GMPy_Integer_DivMod si_bits x y context st = Some (Ref r, st') /\
    read_pair st' r =
      Some (MPZ_Object (fst (divmod_neg_si si_bits a b)),
            MPZ_Object (snd (divmod_neg_si si_bits a b))).
Proof.
  intros Hx Dx Hy Dy Hfit Hneg Hc Hmem.
  split; [apply divmod_neg_si_floor; assumption|].
  split.
  { rewrite divmod_neg_si_floor by assumption. apply fdiv_qr_floor. lia. }
  cut (wp (GMPy_Integer_DivMod si_bits x y context) st
         (fun v st' => v = Ref (fresh_loc st) /\
            read_pair st' (fresh_loc st) =
              Some (MPZ_Object (fst (divmod_neg_si si_bits a b)),
                    MPZ_Object (snd (divmod_neg_si si_bits a b))))).
  { intros H. apply wp_run in H. destruct H as (v & st' & Hrun & -> & Hp). eauto. }
  unfold GMPy_Integer_DivMod.
  change (fresh_loc st) with
    (fresh_loc (range_state {| MPFR.emin := ctx_emin cx; MPFR.emax := ctx_emax cx |} st)).
  run_prelude P.
  lift_old P Hx. lift_old P Hy. lift_old P Hc.
  prelude_unpack P.
  destruct ox as [rx dx], oy as [ry dy]; cbn [ob_data] in Dx, Dy; subst dy.
  destruct Dx as [-> | ->]; simp_prog; exec.
  all: zsimp; try discriminate; try lia.
  all: split; [reflexivity | read_pair_rw; reflexivity].
Qed.


(** ** Rational *)

Lemma Qnum_zero (q : Q) : Qnum q = 0 <-> (q == 0)%Q.
Proof. unfold Qeq. cbn. lia. Qed.

(** The arithmetic of lines 215-220. *)
Lemma Rational_DivMod_arith (tx ty qx qy : Q) :
  (tx == qx)%Q -> (ty == qy)%Q -> (~ qy == 0)%Q ->
  let r1 := GMP.mpq_div tx ty in
  let quo := GMP.mpz_fdiv_q (GMP.mpq_numref r1) (GMP.mpq_denref r1) in
  let rem := GMP.mpq_sub tx (GMP.mpq_mul (GMP.mpq_set_z quo) ty) in
  (quo = Qfloor (qx / qy) /\
   rem = Qred (qx - inject_Z quo * qy) /\
   qx == inject_Z quo * qy + rem)%Q.
Proof.
  intros Ex Ey Hy. cbv zeta.
  unfold GMP.mpq_div, GMP.mpz_fdiv_q, GMP.mpq_numref, GMP.mpq_denref, GMP.mpq_sub,
    GMP.mpq_mul, GMP.mpq_set_z.
  assert (Hq : Qnum (Qred (tx / ty)) / Zpos (Qden (Qred (tx / ty))) = Qfloor (qx / qy)).
  { transitivity (Qfloor (Qred (tx / ty))).
    - destruct (Qred (tx / ty)); reflexivity.
    - apply Qfloor_comp. rewrite Qred_correct, Ex, Ey. reflexivity. }
  rewrite Hq. set (quo := Qfloor (qx / qy)).
  assert (Hr : Qred (tx - Qred ((quo # 1) * ty)) = Qred (qx - inject_Z quo * qy)).
  { apply Qred_complete. rewrite Qred_correct, Ex, Ey. reflexivity. }
  repeat split.
  - exact Hr.
  - rewrite Hr, Qred_correct. ring.
Qed.

Lemma rational_shape (d : payload) (q : Q) :
  rational_value d = Some q ->
  is_RATIONAL d = true /\
  (d = MPQ_Object q \/ exists t, mpq_temp_value d = Some t /\ (t == q)%Q).
Proof.
  destruct d; cbn; intros H; try discriminate; injection H as <-; split; try reflexivity.
  all: try (right; eexists; split; [reflexivity|]).
  all: try reflexivity.
  - apply Qred_correct.
  - left; reflexivity.
Qed.

(** The complete behaviour of [GMPy_Rational_DivMod] on two Rational
    operands. *)
Lemma Rational_DivMod_spec x y context st ox oy qx qy n cx :
  heap st !! x = Some ox -> rational_value (ob_data ox) = Some qx ->
  heap st !! y = Some oy -> rational_value (ob_data oy) = Some qy ->
  heap st !! resolve st context = Some (mk_object n (CTXT_Object cx)) ->
  (5 <= mem_avail st)%nat ->
  wp (GMPy_Rational_DivMod x y context) st
     (fun v st' => Rational_DivMod_post qx qy v st' /\ ctx_unchanged st st').
Proof.
  intros Hx Vx Hy Vy Hc Hmem.
  assert (Hgoal : forall tx ty S v,
            match v with
            | NULL => GMP.mpq_sgn ty = 0 /\
                      err_indicator S =
                        Some (PyExc_ZeroDivisionError, "division or modulo by zero"%string)
            | Ref r => GMP.mpq_sgn ty <> 0 /\
                       read_pair S r =
                         Some (MPZ_Object
                                 (GMP.mpz_fdiv_q (GMP.mpq_numref (GMP.mpq_div tx ty))
                                    (GMP.mpq_denref (GMP.mpq_div tx ty))),
                               MPQ_Object
                                 (GMP.mpq_sub tx
                                    (GMP.mpq_mul
                                       (GMP.mpq_set_z
                                          (GMP.mpz_fdiv_q (GMP.mpq_numref (GMP.mpq_div tx ty))
                                             (GMP.mpq_denref (GMP.mpq_div tx ty)))) ty)))
            | Py_NotImplemented => False
            end -> (tx == qx)%Q -> (ty == qy)%Q -> Rational_DivMod_post qx qy v S).
  { intros tx ty S v Hv Ex Ey. unfold GMP.mpq_sgn in Hv.
    destruct v as [| |r]; [| contradiction |]; destruct Hv as [Hs Hv].
    - apply Z.sgn_null_iff, Qnum_zero in Hs. rewrite Ey in Hs.
      split; [intros _; split; [reflexivity | exact Hv] | intros Hn; contradiction].
    - rewrite Z.sgn_null_iff, Qnum_zero, Ey in Hs.
      split; [intros Hz; contradiction | intros _].
      eexists _, _, _. split; [reflexivity|]. split; [exact Hv|].
      exact (Rational_DivMod_arith tx ty qx qy Ex Ey Hs). }
  destruct (rational_shape _ _ Vx) as [Rx Sx], (rational_shape _ _ Vy) as [Ry Sy].
  assert (Sxy : x = y -> oy = ox /\ qy = qx) by (intros ->; split; congruence).
  unfold GMPy_Rational_DivMod.
  run_prelude P.
  lift_old P Hx. lift_old P Hy. lift_old P Hc.
  prelude_unpack P.
  destruct ox as [rx dx], oy as [ry dy]; cbn [ob_data] in *.
  repeat step. rewrite Rx; simp_prog. repeat step. rewrite Ry; simp_prog.
  destruct (decide (x = y)) as [Exy|Exy];
    [ destruct (Sxy Exy) as [Eo Eq]; subst y qy; injection Eo as -> -> | ];
    (destruct Sx as [Dx | (tx & Tx & Ex)], Sy as [Dy | (ty & Ty & Ey)]).
  all: try subst dx; try subst dy.
  all: try (cbn in Tx; discriminate); try (cbn in Ty; discriminate).
  all: try (injection Dy as ->).
  all: try (rewrite Tx in Ty; injection Ty as ->).
  all: exec.
  all: zsimp.
  all: (split; [| intros l n0 c0 Hl; lift_old P Hl; solve_lookup ]).
  all: eapply Hgoal;
       [ cbv beta iota; unfold GMP.mpq_sgn; split;
         first [ apply <- Z.sgn_null_iff; eassumption
               | rewrite Z.sgn_null_iff; eassumption
               | proj_state; reflexivity | read_pair_rw; reflexivity ]
       | first [assumption | reflexivity]
       | first [assumption | reflexivity] ].
Qed.

(** C4. Rational divmod fails with a divide-by-zero error for a zero
    divisor; otherwise the quotient is the integer [floor (x / y)] and the
    remainder the exact rational [x - quotient * y] in canonical form, so
    that [x = quotient * y + remainder]; in particular
    divmod (7/2, 1/3) = (10, 1/6). *)
Theorem Rational_DivMod_exact x y context st ox oy qx qy n cx :
  heap st !! x = Some ox -> rational_value (ob_data ox) = Some qx ->
  heap st !! y = Some oy -> rational_value (ob_data oy) = Some qy ->
  heap st !! resolve st context = Some (mk_object n (CTXT_Object cx)) ->
  (5 <= mem_avail st)%nat ->
  (exists v st', GMPy_Rational_DivMod x y context st = Some (v, st') /\
                 Rational_DivMod_post qx qy v st') /\
  (forall v st', Rational_DivMod_post (7 # 2) (1 # 3) v st' ->
     exists r, v = Ref r /\
               read_pair st' r = Some (MPZ_Object 10, MPQ_Object (1 # 6))).
Proof.
  intros Hx Vx Hy Vy Hc Hmem. split.
  - pose proof (Rational_DivMod_spec x y context st ox oy qx qy n cx
                  Hx Vx Hy Vy Hc Hmem) as H.
    apply wp_run in H. destruct H as (v & st' & Hrun & Hpost & _). eauto.
  - intros v st' [_ H]. destruct H as (r & quo & rem & -> & Hp & -> & -> & _).
    + discriminate.
    + exists r. split; [reflexivity | exact Hp].
Qed.


(** ** Real *)

(** *** Projections through the state transformers *)

Lemma flags_or_no_flags fl : MPFR.flags_or fl MPFR.no_flags = fl.
Proof. destruct fl; unfold MPFR.flags_or; cbn; rewrite !orb_false_r; reflexivity. Qed.

Lemma flags_state_id st : flags_state (mpfr_flags st) st = st.
Proof. destruct st; reflexivity. Qed.

Lemma MPFR_of_run l o f p rc st :
  heap st !! l = Some o -> ob_data o = MPFR_Object f p rc ->
  MPFR_of l st = Some ((f, p, rc), st).
Proof. intros H D. unfold MPFR_of, bind. rewrite (get_object_run _ _ _ H), D. reflexivity. Qed.

Lemma MPFR_f_run l o f p rc st :
  heap st !! l = Some o -> ob_data o = MPFR_Object f p rc ->
  MPFR_f l st = Some (f, st).
Proof. intros H D. unfold MPFR_f, bind. rewrite (MPFR_of_run _ _ _ _ _ _ H D). reflexivity. Qed.

Lemma mpfr_raise_run fl fl0 st :
  mpfr_flags st = fl0 ->
  mpfr_raise fl st = Some (tt, flags_state (MPFR.flags_or fl0 fl) st).
Proof. intros <-. reflexivity. Qed.

Lemma mpfr_clear_flags_run st :
  mpfr_clear_flags st = Some (tt, flags_state MPFR.no_flags st).
Proof. reflexivity. Qed.

Lemma mpfr_get_flags_run fl0 st :
  mpfr_flags st = fl0 -> mpfr_get_flags st = Some (fl0, st).
Proof. intros <-. reflexivity. Qed.

Lemma mpfr_call_run f rng fl0 st :
  mpfr_range st = rng -> mpfr_flags st = fl0 ->
  mpfr_call f st =
    Some ((fst (fst (f rng)), snd (fst (f rng))),
          flags_state (MPFR.flags_or fl0 (snd (f rng))) st).
Proof.
  intros <- <-. unfold mpfr_call. destruct (f (mpfr_range st)) as [[v t] fl].
  reflexivity.
Qed.

Lemma GMPy_MPFR_New_run c n cx st :
  heap st !! c = Some (mk_object n (CTXT_Object cx)) -> mem_avail st <> O ->
  GMPy_MPFR_New 0 c st =
    Some (Some (fresh_loc st), alloc_state (MPFR_Object MPFR.NaN (ctx_mpfr_prec cx) 0) st).
Proof.
  intros H Hm. unfold GMPy_MPFR_New, bind. rewrite (get_ctx_run _ _ _ _ H).
  apply alloc_run, Hm.
Qed.

Lemma From_Real_Temp_borrow x c o n cx f p rc st :
  heap st !! x = Some o -> ob_data o = MPFR_Object f p rc ->
  heap st !! c = Some (mk_object n (CTXT_Object cx)) ->
  GMPy_MPFR_From_Real_Temp x 0 c st =
    Some (Some x, upd x (mk_object (Pos.succ (ob_refcnt o)) (ob_data o)) st).
Proof.
  intros H D Hc. unfold GMPy_MPFR_From_Real_Temp, bind.
  rewrite (get_object_run _ _ _ H), (get_ctx_run _ _ _ _ Hc), D. rewrite <- D.
  rewrite (Py_INCREF_run _ _ _ H). reflexivity.
Qed.

Lemma From_Real_Temp_fresh x c o n cx rng fl0 f p rc fl st :
  heap st !! x = Some o ->
  heap st !! c = Some (mk_object n (CTXT_Object cx)) ->
  mpfr_range st = rng -> mpfr_flags st = fl0 ->
  mpfr_temp cx rng (ob_data o) = Some (f, p, rc, fl) ->
  mem_avail st <> O ->
  GMPy_MPFR_From_Real_Temp x 0 c st =
    Some (Some (fresh_loc st),
          alloc_state (MPFR_Object f p rc) (flags_state (MPFR.flags_or fl0 fl) st)).
Proof.
  intros H Hc <- <- T Hm. unfold GMPy_MPFR_From_Real_Temp, bind.
  rewrite (get_object_run _ _ _ H), (get_ctx_run _ _ _ _ Hc).
  destruct (ob_data o); cbn in T; try discriminate; injection T as <- <- <- <-;
    cbn [Z.eqb];
    try (erewrite mpfr_call_run by reflexivity; cbn beta iota;
         exact (alloc_run _ (flags_state _ st) Hm)).
  rewrite flags_or_no_flags, flags_state_id. apply alloc_run, Hm.
Qed.

Ltac step_real :=
  lazymatch goal with
  | |- wp (MPFR_of _) _ _ => prim MPFR_of_run
  | |- wp (MPFR_f _) _ _ => prim MPFR_f_run
  | |- wp (mpfr_raise _) _ _ => prim mpfr_raise_run
  | |- wp mpfr_clear_flags _ _ => prim mpfr_clear_flags_run
  | |- wp mpfr_get_flags _ _ => prim mpfr_get_flags_run
  | |- wp (mpfr_call _) _ _ => prim mpfr_call_run
  | |- wp (GMPy_MPFR_New _ _) _ _ => prim GMPy_MPFR_New_run
  | |- wp (GMPy_MPFR_From_Real_Temp _ _ _) _ _ =>
      first [ prim From_Real_Temp_borrow | prim From_Real_Temp_fresh ]
  | |- wp (set_ctx _ _) _ _ => unfold set_ctx
  | |- wp (set_f _ _) _ _ => unfold set_f
  | |- wp (set_rc _ _) _ _ => unfold set_rc
  | |- wp (GET_MPFR_ROUND _) _ _ => unfold GET_MPFR_ROUND
  | |- wp (mpfr_zero_p _) _ _ => unfold mpfr_zero_p
  | |- wp (mpfr_nan_p _) _ _ => unfold mpfr_nan_p
  | |- wp (mpfr_inf_p _) _ _ => unfold mpfr_inf_p
  | |- wp (mpfr_signbit _) _ _ => unfold mpfr_signbit
  | |- wp (mpfr_sgn _) _ _ => unfold mpfr_sgn
  | |- wp (mpfr_set_nan _) _ _ => unfold mpfr_set_nan
  | |- wp (mpfr_set_zero _ _) _ _ => unfold mpfr_set_zero
  | |- wp (mpfr_set_inf _ _) _ _ => unfold mpfr_set_inf
  | |- wp (mpfr_into _ _) _ _ => unfold mpfr_into
  | |- wp (mpfr_set_si _ _ _) _ _ => unfold mpfr_set_si
  | |- wp (mpfr_set _ _ _) _ _ => unfold mpfr_set
  | |- wp (mpfr_neg _ _ _) _ _ => unfold mpfr_neg
  | |- wp (mpfr_floor _ _) _ _ => unfold mpfr_floor
  | |- wp (mpfr_div _ _ _ _) _ _ => unfold mpfr_div
  | |- wp (mpfr_fms _ _ _ _ _) _ _ => unfold mpfr_fms
  | |- wp (SUBNORMALIZE _ _) _ _ => unfold SUBNORMALIZE
  | |- wp (MERGE_FLAGS _) _ _ => unfold MERGE_FLAGS
  | |- wp mpfr_underflow_p _ _ => unfold mpfr_underflow_p
  | |- wp mpfr_overflow_p _ _ => unfold mpfr_overflow_p
  | |- wp mpfr_inexflag_p _ _ => unfold mpfr_inexflag_p
  | |- wp (trapped _ _) _ _ => unfold trapped
  | |- wp (Real_DivMod_divzero _ _) _ _ => unfold Real_DivMod_divzero
  | |- wp (raise_invalid _) _ _ => unfold raise_invalid
  | |- wp (Real_DivMod_compute _ _ _ _ _) _ _ => unfold Real_DivMod_compute
  | |- wp (Real_DivMod_traps _) _ _ => unfold Real_DivMod_traps
  | |- wp (GMPY_DIVZERO _) _ _ => prim PyErr_SetString_run
  | |- wp (GMPY_INVALID _) _ _ => prim PyErr_SetString_run
  | |- wp (GMPY_UNDERFLOW _) _ _ => prim PyErr_SetString_run
  | |- wp (GMPY_OVERFLOW _) _ _ => prim PyErr_SetString_run
  | |- wp (GMPY_INEXACT _) _ _ => prim PyErr_SetString_run
  | |- _ => step
  end.

Ltac exec_real := repeat (step_real || branch).

Lemma real_shape cx d f :
  real_value cx d = Some f ->
  is_REAL d = true /\
  ((exists p rc, d = MPFR_Object f p rc) \/
   (exists p rc fl,
      mpfr_temp cx (MPFR.mk_range (ctx_emin cx) (ctx_emax cx)) d = Some (f, p, rc, fl))).
Proof.
  unfold real_value. destruct d; cbn; intros H; try discriminate;
    injection H as <-; (split; [reflexivity|]); eauto 6.
Qed.


(** *** The stages of [GMPy_Real_DivMod] *)

Lemma traps_on_set_invalid c m : traps_on (set_invalid c) m = traps_on c m.
Proof. reflexivity. Qed.

Lemma traps_on_set_divzero c m : traps_on (set_divzero c) m = traps_on c m.
Proof. reflexivity. Qed.

Lemma traps_on_merge_flags fl c m : traps_on (merge_flags fl c) m = traps_on c m.
Proof. reflexivity. Qed.

Lemma modifies_refl L S : modifies L S S.
Proof. split; reflexivity. Qed.

Lemma modifies_trans L S1 S2 S3 : modifies L S1 S2 -> modifies L S2 S3 -> modifies L S1 S3.
Proof.
  intros [F1 M1 C1 R1] [F2 M2 C2 R2]. split; try congruence.
  intros l Hl. rewrite F2, F1 by exact Hl. reflexivity.
Qed.

Lemma modifies_weaken L L' S S' : L ⊆ L' -> modifies L S S' -> modifies L' S S'.
Proof.
  intros HL [F M C R]. split; try assumption.
  intros l Hl. apply F. intros Hin. apply Hl, HL, Hin.
Qed.

Ltac solve_modifies :=
  split;
  [ let l := fresh "l" in
    let Hl := fresh "Hl" in
    intros l Hl;
    repeat (apply not_elem_of_cons in Hl;
            let Hn := fresh "Hn" in destruct Hl as [Hn Hl]);
    repeat first [ rewrite flags_lookup | rewrite err_lookup | rewrite range_lookup
                 | rewrite upd_lookup_ne by solve_ne ];
    reflexivity
  | proj_state; reflexivity .. ].

(** Rewrite the conditions decided on the way in the goal and settle one
    conjunct of a stage's postcondition. *)
Ltac use_conditions :=
  rewrite ?traps_on_set_invalid, ?traps_on_set_divzero, ?traps_on_merge_flags in *;
  repeat match goal with
         | H : ?c = ?b |- _ =>
             lazymatch b with true => idtac | false => idtac end;
             lazymatch c with true => fail | false => fail | _ => rewrite !H end
         end;
  cbn [orb andb negb fst snd raised err_after c_ctx c_quo c_rem c_flags res_cell].

Ltac stage_leaf :=
  repeat match goal with |- _ /\ _ => split end;
  first [ reflexivity | solve_lookup | solve_modifies
        | proj_state; first [reflexivity | assumption] ].

Lemma divzero_stage k ty S nk cx ny fy py rcy :
  heap S !! k = Some (mk_object nk (CTXT_Object cx)) ->
  heap S !! ty = Some (mk_object ny (MPFR_Object fy py rcy)) ->
  k <> ty ->
  wp (Real_DivMod_divzero k ty) S
     (fun failed S' =>
        failed = raised (snd (divzero_pure fy cx)) /\
        heap S' !! k = Some (mk_object nk (CTXT_Object (fst (divzero_pure fy cx)))) /\
        modifies [k] S S' /\
        mpfr_flags S' = mpfr_flags S /\
        err_indicator S' = err_after (snd (divzero_pure fy cx)) S).
Proof.
  intros Hk Hy Hne. exec_real; unfold divzero_pure; use_conditions; stage_leaf.
Qed.

Lemma compute_stage k tx ty quo rem S nk cx nx fx px rcx ny fy py rcy nq fq p rcq nr fr rcr rng fl :
  heap S !! k = Some (mk_object nk (CTXT_Object cx)) ->
  heap S !! tx = Some (mk_object nx (MPFR_Object fx px rcx)) ->
  heap S !! ty = Some (mk_object ny (MPFR_Object fy py rcy)) ->
  heap S !! quo = Some (mk_object nq (MPFR_Object fq p rcq)) ->
  heap S !! rem = Some (mk_object nr (MPFR_Object fr p rcr)) ->
  k <> quo -> k <> rem -> quo <> rem ->
  tx <> k -> tx <> quo -> tx <> rem -> ty <> k -> ty <> quo -> ty <> rem ->
  mpfr_range S = rng -> mpfr_flags S = fl ->
  wp (Real_DivMod_compute k tx ty quo rem) S
     (fun failed S' =>
        let out := compute_pure rng p fx fy (mk_cells cx (fq, rcq) (fr, rcr) fl) in
        failed = raised (snd out) /\
        heap S' !! k = Some (mk_object nk (CTXT_Object (c_ctx (fst out)))) /\
        heap S' !! quo =
          Some (mk_object nq (MPFR_Object (fst (c_quo (fst out))) p (snd (c_quo (fst out))))) /\
        heap S' !! rem =
          Some (mk_object nr (MPFR_Object (fst (c_rem (fst out))) p (snd (c_rem (fst out))))) /\
        modifies [k; quo; rem] S S' /\
        mpfr_flags S' = c_flags (fst out) /\
        err_indicator S' = err_after (snd out) S).
Proof.
  intros Hk Hx Hy Hq Hr N1 N2 N3 N4 N5 N6 N7 N8 N9 Hrng Hfl.
  cbv zeta. exec_real.
  all: unfold compute_pure; cbn [c_ctx c_quo c_rem c_flags]; use_conditions.
  all: stage_leaf.
Qed.

Lemma subnormalize_stage k v S nk cx nv f p rc rng fl :
  heap S !! k = Some (mk_object nk (CTXT_Object cx)) ->
  heap S !! v = Some (mk_object nv (MPFR_Object f p rc)) ->
  k <> v ->
  mpfr_range S = rng -> mpfr_flags S = fl ->
  wp (SUBNORMALIZE k v) S
     (fun _ S' =>
        let out := subnormalize_pure cx rng p (f, rc) fl in
        heap S' !! v =
          Some (mk_object nv (MPFR_Object (fst (fst out)) p (snd (fst out)))) /\
        modifies [v] S S' /\
        mpfr_flags S' = snd out /\
        err_indicator S' = err_indicator S).
Proof.
  intros Hk Hv Hne Hrng Hfl. cbv zeta. exec_real.
  all: unfold subnormalize_pure; use_conditions.
  all: stage_leaf.
Qed.

Lemma merge_stage k S nk cx fl :
  heap S !! k = Some (mk_object nk (CTXT_Object cx)) ->
  mpfr_flags S = fl ->
  wp (MERGE_FLAGS k) S
     (fun _ S' =>
        heap S' !! k = Some (mk_object nk (CTXT_Object (merge_flags fl cx))) /\
        modifies [k] S S' /\
        mpfr_flags S' = fl /\
        err_indicator S' = err_indicator S).
Proof.
  intros Hk Hfl. exec_real. stage_leaf.
Qed.

Lemma traps_stage k S nk cx fl :
  heap S !! k = Some (mk_object nk (CTXT_Object cx)) ->
  mpfr_flags S = fl ->
  wp (Real_DivMod_traps k) S
     (fun failed S' =>
        failed = raised (traps_pure fl cx) /\
        modifies [] S S' /\
        mpfr_flags S' = fl /\
        err_indicator S' = err_after (traps_pure fl cx) S).
Proof.
  intros Hk Hfl. exec_real.
  all: unfold traps_pure; use_conditions.
  all: stage_leaf.
Qed.

(** The stages in sequence, for any two continuations: [error] is entered
    exactly when [core_pure] reports an error. *)
Lemma real_core_spec k tx ty quo rem S nk cx nx fx px rcx ny fy py rcy p rng
    (error success : M retval) (Q : retval -> state -> Prop) :
  heap S !! k = Some (mk_object nk (CTXT_Object cx)) ->
  heap S !! tx = Some (mk_object nx (MPFR_Object fx px rcx)) ->
  heap S !! ty = Some (mk_object ny (MPFR_Object fy py rcy)) ->
  heap S !! quo = Some (mk_object 1 (MPFR_Object MPFR.NaN p 0)) ->
  heap S !! rem = Some (mk_object 1 (MPFR_Object MPFR.NaN p 0)) ->
  k <> quo -> k <> rem -> quo <> rem ->
  tx <> k -> tx <> quo -> tx <> rem -> ty <> k -> ty <> quo -> ty <> rem ->
  mpfr_range S = rng ->
  (forall S', core_post (core_pure rng p cx fx fy) k quo rem nk p S S' ->
              wp (match out_result (core_pure rng p cx fx fy) with
                  | inl _ => error
                  | inr _ => success
                  end) S' Q) ->
  wp (let* failed := Real_DivMod_divzero k ty in
      if failed then error
      else
        do mpfr_clear_flags then
        let* failed := Real_DivMod_compute k tx ty quo rem in
        if failed then error
        else
          do SUBNORMALIZE k rem then
          do SUBNORMALIZE k quo then
          do MERGE_FLAGS k then
          let* failed := Real_DivMod_traps k in
          if failed then error else success) S Q.
Proof.
  intros Hk Hx Hy Hq Hr N1 N2 N3 N4 N5 N6 N7 N8 N9 Hrng Hcont.
  unfold core_pure, core_post in Hcont.
  apply wp_bind. eapply wp_mono; [ eapply divzero_stage; [exact Hk | exact Hy | congruence] |].
  intros failed S1 (-> & Hk1 & Hm1 & Hf1 & He1).
  destruct (divzero_pure fy cx) as [cx1 [e1|]] eqn:E1; cbn [fst snd raised err_after] in *.
  { apply Hcont. cbn [out_ctx out_flags out_result].
    split; [exact Hk1|]. split.
    { exists (MPFR.NaN, 0), (MPFR.NaN, 0). cbn [fst snd].
      split; [solve_lookup|]. split; [solve_lookup|]. intros v Hv. discriminate. }
    split; [eapply modifies_weaken; [|exact Hm1]; set_solver|].
    split; [intros fl Hfl; discriminate | exact He1]. }
  step_real. step_real.
  apply wp_bind.
  eapply wp_mono;
    [ eapply (compute_stage k tx ty quo rem); try solve_lookup; try assumption; solve_proj |].
  intros failed S2. cbv zeta. intros (-> & Hk2 & Hq2 & Hr2 & Hm2 & Hf2 & He2).
  destruct (compute_pure rng p fx fy
              (mk_cells cx1 (MPFR.NaN, 0) (MPFR.NaN, 0) MPFR.no_flags))
    as [s2 [e2|]] eqn:E2; destruct s2 as [cx2 [fq2 rq2] [fr2 rr2] fl2];
    cbn [fst snd raised err_after c_ctx c_quo c_rem c_flags] in *.
  { apply Hcont. cbn [out_ctx out_flags out_result].
    split; [exact Hk2|]. split.
    { exists (fq2, rq2), (fr2, rr2). split; [exact Hq2|]. split; [exact Hr2|].
      intros v Hv. discriminate. }
    split.
    { eapply modifies_trans; [eapply modifies_weaken; [|exact Hm1]; set_solver|].
      eapply modifies_trans; [|exact Hm2]. solve_modifies. }
    split; [intros fl Hfl; discriminate | exact He2]. }
  apply wp_bind.
  eapply wp_mono;
    [ eapply (subnormalize_stage k rem); [exact Hk2 | exact Hr2 | assumption | solve_proj | exact Hf2] |].
  intros [] S3. cbv zeta. intros (Hr3 & Hm3 & Hf3 & He3).
  apply wp_bind.
  eapply wp_mono;
    [ eapply (subnormalize_stage k quo); [solve_lookup | solve_lookup | assumption | solve_proj | exact Hf3] |].
  intros [] S4. cbv zeta. intros (Hq4 & Hm4 & Hf4 & He4).
  apply wp_bind.
  eapply wp_mono; [ eapply (merge_stage k); [solve_lookup | exact Hf4] |].
  intros [] S5 (Hk5 & Hm5 & Hf5 & He5).
  apply wp_bind.
  eapply wp_mono; [ eapply (traps_stage k); [exact Hk5 | exact Hf5] |].
  intros failed S6 (-> & Hm6 & Hf6 & He6).
  cbv zeta in Hcont.
  set (rf := subnormalize_pure cx2 rng p (fr2, rr2) fl2) in *.
  set (qf := subnormalize_pure cx2 rng p (fq2, rq2) (snd rf)) in *.
  assert (Hpost : forall res,
            err_indicator S6 =
              match res with inl e => Some e | inr _ => err_indicator S end ->
            (forall v, res = inr v -> v = (fst qf, fst rf)) ->
            core_post (mk_outcome (merge_flags (snd qf) cx2) (Some (snd qf)) res)
              k quo rem nk p S S6).
  { intros res Hres Hv. unfold core_post. cbn [out_ctx out_flags out_result].
    split; [solve_lookup|]. split.
    { eexists _, _. split; [solve_lookup|]. split; [solve_lookup|]. exact Hv. }
    split.
    { eapply modifies_trans; [eapply modifies_weaken; [|exact Hm1]; set_solver|].
      eapply modifies_trans; [eapply modifies_trans; [|exact Hm2]; solve_modifies|].
      eapply modifies_trans; [eapply modifies_weaken; [|exact Hm3]; set_solver|].
      eapply modifies_trans; [eapply modifies_weaken; [|exact Hm4]; set_solver|].
      eapply modifies_trans; [eapply modifies_weaken; [|exact Hm5]; set_solver|].
      eapply modifies_weaken; [|exact Hm6]; set_solver. }
    split; [intros fl Hfl; injection Hfl as <-; exact Hf6 | exact Hres]. }
  destruct (traps_pure _ _) as [e6|] eqn:E6; cbn [raised err_after] in *;
    apply Hcont, Hpost; cbn [out_result].
  - exact He6.
  - intros v Hv. discriminate.
  - rewrite He6, He5, He4, He3, He2. proj_state. rewrite He1. reflexivity.
  - intros v Hv. injection Hv as <-. reflexivity.
Qed.


Ltac run_prelude_real P :=
  repeat lazymatch goal with
         | |- context [alloc_state _ (alloc_state _ (alloc_state _ _))] => fail
         | |- _ => step_real
         end;
  abstract_prelude P.

(** [GMPy_Real_DivMod] on two Real operands returns and leaves the state
    that [Real_DivMod_pure] describes. *)
Lemma Real_DivMod_spec x y context st ox oy fx fy n cx :
  heap st !! x = Some ox -> real_value cx (ob_data ox) = Some fx ->
  heap st !! y = Some oy -> real_value cx (ob_data oy) = Some fy ->
  heap st !! resolve st context = Some (mk_object n (CTXT_Object cx)) ->
  (5 <= mem_avail st)%nat ->
  wp (GMPy_Real_DivMod x y context) st
     (Real_DivMod_post cx fx fy (resolve st context) n st).
Proof.
  intros Hx Vx Hy Vy Hc Hmem.
  destruct (real_shape _ _ _ Vx) as [Rx Sx], (real_shape _ _ _ Vy) as [Ry Sy].
  assert (Sxy : x = y -> oy = ox /\ fy = fx) by (intros ->; split; congruence).
  unfold GMPy_Real_DivMod.
  run_prelude_real P.
  lift_old P Hx. lift_old P Hy. lift_old P Hc.
  prelude_unpack P.
  destruct ox as [rx dx], oy as [ry dy]; cbn [ob_data] in *.
  repeat step_real. rewrite Rx; simp_prog. repeat step_real. rewrite Ry; simp_prog.
  destruct (decide (x = y)) as [Exy|Exy];
    [ destruct (Sxy Exy) as [Eo Eq]; subst y fy; injection Eo as -> -> | ];
    (destruct Sx as [(px & rcx & Dx) | (px & rcx & flx & Tx)],
              Sy as [(py & rcy & Dy) | (py & rcy & fly & Ty)]).
  all: try subst dx; try subst dy.
  all: try (cbn in Tx; discriminate); try (cbn in Ty; discriminate).
  all: try (injection Dy as -> ->).
  all: try (rewrite Tx in Ty; injection Ty as -> -> ->).
  all: do 4 step_real.
  all: eapply real_core_spec;
       [ solve_lookup | solve_lookup | solve_lookup | solve_lookup | solve_lookup
       | solve_ne | solve_ne | solve_ne | solve_ne | solve_ne | solve_ne
       | solve_ne | solve_ne | solve_ne | solve_proj | ].
  all: intros S' (Hk' & (q & r & Hq' & Hr' & Hv) & Hmod & Hfl & He).
  all: unfold Real_DivMod_post; cbv zeta; unfold Real_DivMod_pure.
  all: destruct (out_result (core_pure _ _ cx _ _)) as [e|[q' r']] eqn:Eo.
  all: exec_real.
  all: try (specialize (Hv _ eq_refl); injection Hv as -> ->).
  all: rewrite ?Eo.
  all: (split; [solve_lookup|]).
  all: (split; [intros l n0 c0 Hl Hlk; lift_old P Hlk; solve_lookup|]).
  all: (split; [intros fl Hfl'; proj_state; apply Hfl, Hfl'|]).
  all: try (eexists; split; [reflexivity|]; split; [read_pair_rw; reflexivity|]).
  all: try (split; [reflexivity|]).
  all: (split; [proj_state; rewrite He, ?Eo; proj_state; congruence|]).
  all: through_modifies; rewrite Hmem'; clear - Hmem; lia.
Qed.


(** *** Facts on the values *)

Lemma traps_on_untrapped c m : ctx_traps c = 0 -> traps_on c m = false.
Proof. intros H. unfold traps_on. rewrite H. reflexivity. Qed.

Lemma traps_pure_untrapped fl c : ctx_traps c = 0 -> traps_pure fl c = None.
Proof.
  intros H. unfold traps_pure. rewrite !(traps_on_untrapped c _ H), !andb_false_r.
  reflexivity.
Qed.

Lemma set_si_minus_one rng p :
  MPFR.emin rng <= 1 <= MPFR.emax rng -> 1 <= p ->
  MPFR.mpfr_set_si rng p (-1) MPFR.MPFR_RNDN = (minus_one, 0, MPFR.no_flags).
Proof.
  intros [H1 H2] Hp.
  assert (Ep : (1 <=? p) = true) by (apply Z.leb_le; exact Hp).
  assert (Ex : (MPFR.emax rng <? 1) = false) by (apply Z.ltb_ge; exact H2).
  assert (En : (1 <? MPFR.emin rng) = false) by (apply Z.ltb_ge; exact H1).
  unfold MPFR.mpfr_set_si, MPFR.mpfr_set_z, MPFR.round_dyadic, MPFR.check_range.
  change (-1 =? 0) with false. change (-1 <? 0) with true.
  change (Z.to_pos (Z.abs (-1))) with 1%positive.
  change (MPFR.bitlen 1) with 1. cbv iota. rewrite Ep.
  change (0 + Z.log2 1 + 1) with 1. rewrite Ex, En. reflexivity.
Qed.

Lemma subnormalize_minus_one rng p rnd :
  MPFR.emin rng <= 1 ->
  fst (fst (MPFR.mpfr_subnormalize rng p minus_one 0 rnd)) = minus_one.
Proof.
  intros H.
  assert (E : (1 <=? 1 - MPFR.emin rng + 1) = true) by (apply Z.leb_le; lia).
  unfold MPFR.mpfr_subnormalize, minus_one, MPFR.mpfr_get_exp.
  change (MPFR.bitlen 1) with 1. change (0 + 1) with 1.
  destruct (MPFR.emin rng + p - 1 <=? 1); [reflexivity|].
  rewrite E. reflexivity.
Qed.

Lemma subnormalize_pure_value cx rng p x t fl :
  fst (fst (subnormalize_pure cx rng p (x, t) fl)) =
    if ctx_subnormalize cx
    then fst (fst (MPFR.mpfr_subnormalize rng p x t (ctx_mpfr_round cx)))
    else x.
Proof. unfold subnormalize_pure. destruct (ctx_subnormalize cx); reflexivity. Qed.

(** Under an untrapped context the function computes the pair of the table
    and raises the invalid-operation flag; where the table has the quotient
    -1, the context is to hold that number. *)
Lemma special_values_pure cx fx fy q r :
  ctx_traps cx = 0 ->
  (q = minus_one -> ctx_emin cx <= 1 <= ctx_emax cx /\ 1 <= ctx_mpfr_prec cx) ->
  special_values cx fx fy = Some (q, r) ->
  exists cx' fl cq cr,
    Real_DivMod_pure cx fx fy = mk_outcome cx' (Some fl) (inr (cq, cr)) /\
    fst cq = q /\ fst cr = r /\ ctx_invalid cx' = true.
Proof.
  intros T H Hs. unfold Real_DivMod_pure, core_pure, divzero_pure, compute_pure.
  assert (Tz : forall m, traps_on cx m = false) by (intros m; apply traps_on_untrapped, T).
  assert (E1 : q = minus_one ->
               MPFR.mpfr_set_si (MPFR.mk_range (ctx_emin cx) (ctx_emax cx))
                 (ctx_mpfr_prec cx) (-1) MPFR.MPFR_RNDN = (minus_one, 0, MPFR.no_flags)).
  { intros Eq. destruct (H Eq) as [R P]. apply set_si_minus_one; assumption. }
  assert (E2 : q = minus_one -> forall rnd,
               fst (fst (MPFR.mpfr_subnormalize (MPFR.mk_range (ctx_emin cx) (ctx_emax cx))
                           (ctx_mpfr_prec cx) minus_one 0 rnd)) = minus_one).
  { intros Eq rnd. destruct (H Eq) as [R P]. apply subnormalize_minus_one, R. }
  clear H.
  destruct fx as [|sx|sx|sx mx ex], fy as [|sy|sy|sy my ey]; cbn in Hs;
    try discriminate;
    try (destruct (Bool.eqb sx sy) eqn:Es);
    injection Hs as <- <-;
    cbn [MPFR.mpfr_zero_p MPFR.mpfr_nan_p MPFR.mpfr_inf_p MPFR.mpfr_signbit orb negb
         fst snd c_ctx c_quo c_rem c_flags];
    rewrite ?Es; cbn [negb];
    rewrite ?traps_on_set_divzero, ?Tz; cbn [fst snd c_ctx c_quo c_rem c_flags];
    (rewrite ?E1 by reflexivity); cbn [fst snd];
    (rewrite traps_pure_untrapped by exact T);
    eexists _, _, _, _; (split; [reflexivity|]);
    unfold res_cell; rewrite ?subnormalize_pure_value; cbn [fst snd];
    unfold rounded_per_context; cbn [ctx_subnormalize ctx_mpfr_round set_invalid set_divzero
                                     ctx_mpfr_prec ctx_emin ctx_emax];
    destruct (ctx_subnormalize cx) eqn:Sn.
  all: try (destruct sx, sy; try discriminate Es).
  all: repeat split; first [reflexivity | apply E2; reflexivity].
Qed.

(** *** Flags and traps on the values *)

Lemma raises_only_refl c : raises_only c c.
Proof. repeat split; auto. Qed.

Lemma raises_only_trans a b c : raises_only a b -> raises_only b c -> raises_only a c.
Proof.
  intros (A1 & A2 & A3 & A4 & A5 & A6 & A7) (B1 & B2 & B3 & B4 & B5 & B6 & B7).
  repeat split; try congruence; auto.
Qed.

Lemma divzero_pure_raises fy cx : raises_only cx (fst (divzero_pure fy cx)).
Proof.
  unfold divzero_pure. destruct (MPFR.mpfr_zero_p fy); cbn [fst];
    [repeat split; auto | apply raises_only_refl].
Qed.

Lemma divzero_pure_untrapped fy cx :
  traps_on cx TRAP_DIVZERO = false -> snd (divzero_pure fy cx) = None.
Proof.
  intros H. unfold divzero_pure. rewrite H. destruct (MPFR.mpfr_zero_p fy); reflexivity.
Qed.

Lemma compute_pure_raises rng p fx fy s :
  raises_only (c_ctx s) (c_ctx (fst (compute_pure rng p fx fy s))).
Proof.
  unfold compute_pure.
  repeat match goal with
         | |- context [if ?c then _ else _] => destruct c
         end; cbn [fst c_ctx]; first [apply raises_only_refl | repeat split; auto].
Qed.

Lemma compute_pure_untrapped rng p fx fy s :
  traps_on (c_ctx s) TRAP_INVALID = false -> snd (compute_pure rng p fx fy s) = None.
Proof.
  intros H. unfold compute_pure. rewrite H.
  repeat match goal with
         | |- context [if ?c then _ else _] => destruct c
         end; reflexivity.
Qed.

Lemma traps_on_ext c c' m : ctx_traps c' = ctx_traps c -> traps_on c' m = traps_on c m.
Proof. intros H. unfold traps_on. rewrite H. reflexivity. Qed.

Lemma traps_pure_first fl c e msg :
  traps_pure fl c = Some (e, msg) -> first_trap c (trap_checks fl) = Some e.
Proof.
  unfold traps_pure, trap_checks, first_trap.
  repeat match goal with
         | |- context [if ?c then _ else _] => destruct c
         end; intros H; inversion H; reflexivity.
Qed.

Lemma traps_pure_none fl c :
  traps_pure fl c = None -> first_trap c (trap_checks fl) = None.
Proof.
  unfold traps_pure, trap_checks, first_trap.
  repeat match goal with
         | |- context [if ?c then _ else _] => destruct c
         end; intros H; inversion H; reflexivity.
Qed.

Lemma first_trap_ext c c' checks :
  ctx_traps c' = ctx_traps c -> first_trap c' checks = first_trap c checks.
Proof.
  intros H. induction checks as [|[[flag mask] e] rest IH]; [reflexivity|].
  cbn [first_trap]. rewrite IH, (traps_on_ext c c' mask H). reflexivity.
Qed.

Lemma raises_only_kept c c' fl : raises_only c c' -> flags_kept c (merge_flags fl c').
Proof.
  intros (A1 & A2 & A3 & A4 & A5 & A6 & A7). unfold flags_kept, merge_flags.
  cbn [ctx_underflow ctx_overflow ctx_inexact ctx_invalid ctx_erange ctx_divzero].
  rewrite A2, A3, A4, A5. repeat split; auto; intros ->; reflexivity.
Qed.

Lemma raises_only_flags_kept c c' : raises_only c c' -> flags_kept c c'.
Proof.
  intros (A1 & A2 & A3 & A4 & A5 & A6 & A7). unfold flags_kept.
  rewrite A2, A3, A4, A5. repeat split; auto.
Qed.

(** The shape of the outcome: the context only gains flags, and once the
    computation is reached the flags are merged and the traps decide. *)
Lemma Real_DivMod_pure_shape cx fx fy :
  let out := Real_DivMod_pure cx fx fy in
  flags_kept cx (out_ctx out) /\
  (traps_on cx TRAP_DIVZERO = false -> traps_on cx TRAP_INVALID = false ->
   exists fl, out_flags out = Some fl /\
     ctx_underflow (out_ctx out) = ctx_underflow cx || MPFR.underflow fl /\
     ctx_overflow (out_ctx out) = ctx_overflow cx || MPFR.overflow fl /\
     ctx_inexact (out_ctx out) = ctx_inexact cx || MPFR.inexflag fl /\
     match first_trap cx (trap_checks fl) with
     | Some e => exists msg, out_result out = inl (e, msg)
     | None => exists v, out_result out = inr v
     end).
Proof.
  cbv zeta. unfold Real_DivMod_pure, core_pure.
  pose proof (divzero_pure_raises fy cx) as R1.
  pose proof (divzero_pure_untrapped fy cx) as U1.
  destruct (divzero_pure fy cx) as [cx1 e1]. cbn [fst snd] in *.
  pose proof (compute_pure_raises (MPFR.mk_range (ctx_emin cx) (ctx_emax cx))
                (ctx_mpfr_prec cx) fx fy
                (mk_cells cx1 (MPFR.NaN, 0) (MPFR.NaN, 0) MPFR.no_flags)) as R2.
  pose proof (compute_pure_untrapped (MPFR.mk_range (ctx_emin cx) (ctx_emax cx))
                (ctx_mpfr_prec cx) fx fy
                (mk_cells cx1 (MPFR.NaN, 0) (MPFR.NaN, 0) MPFR.no_flags)) as U2.
  destruct (compute_pure _ _ fx fy _) as [s e2]. cbn [fst snd c_ctx] in *.
  pose proof (raises_only_trans _ _ _ R1 R2) as R3.
  assert (T1 : traps_on cx1 TRAP_INVALID = traps_on cx TRAP_INVALID)
    by (apply traps_on_ext, R1).
  set (rf := subnormalize_pure (c_ctx s) _ _ (c_rem s) (c_flags s)) in *.
  set (qf := subnormalize_pure (c_ctx s) _ _ (c_quo s) (snd rf)) in *.
  pose proof (traps_pure_first (snd qf) (merge_flags (snd qf) (c_ctx s))) as F1.
  pose proof (traps_pure_none (snd qf) (merge_flags (snd qf) (c_ctx s))) as F2.
  rewrite (first_trap_ext cx (merge_flags (snd qf) (c_ctx s)) _ (proj1 R3)) in F1, F2.
  destruct R3 as (A1 & A2 & A3 & A4 & A5 & A6 & A7).
  split.
  - destruct e1 as [e1|]; [apply raises_only_flags_kept, R1|].
    destruct e2 as [e2|];
      [apply raises_only_flags_kept; repeat split; assumption|].
    destruct (traps_pure _ _); apply raises_only_kept; repeat split; assumption.
  - intros D I. rewrite (U1 D). rewrite T1 in U2. rewrite (U2 I).
    exists (snd qf).
    destruct (traps_pure _ _) as [[e msg]|] eqn:E; cbn [out_ctx out_flags out_result];
      (split; [reflexivity|]);
      cbn [merge_flags ctx_underflow ctx_overflow ctx_inexact];
      rewrite A2, A3, A4; (split; [reflexivity|]); (split; [reflexivity|]);
      (split; [reflexivity|]).
    + rewrite (F1 e msg eq_refl). eauto.
    + rewrite (F2 eq_refl). eauto.
Qed.

Lemma zero_divisor_pure cx sx mx ex sy :
  let out := Real_DivMod_pure cx (MPFR.Num sx mx ex) (MPFR.Zero sy) in
  ctx_divzero (out_ctx out) = true /\
  (traps_on cx TRAP_DIVZERO = true ->
   out = mk_outcome (set_divzero cx) None
           (inl (GMPyExc_DivZero, "'mpfr' division by zero in divmod"%string))) /\
  (traps_on cx TRAP_DIVZERO = false ->
   exists fl cq cr,
     out = mk_outcome (merge_flags fl (set_divzero cx)) (Some fl) (inr (cq, cr)) /\
     fst cq = MPFR.Inf (xorb sx sy) /\ fst cr = MPFR.NaN).
Proof.
  cbv zeta. unfold Real_DivMod_pure, core_pure, divzero_pure, compute_pure.
  cbn [MPFR.mpfr_zero_p MPFR.mpfr_nan_p MPFR.mpfr_inf_p orb fst snd
       c_ctx c_quo c_rem c_flags].
  split; [| split].
  - destruct (traps_on cx TRAP_DIVZERO); [reflexivity|].
    destruct (traps_pure _ _); reflexivity.
  - intros ->. reflexivity.
  - intros T. rewrite T. unfold subnormalize_pure, res_cell.
    cbn [set_divzero ctx_subnormalize].
    destruct (ctx_subnormalize cx); cbn; eexists _, _, _;
      (split; [reflexivity | split; reflexivity]).
Qed.

(** C2. Under an untrapped context, Real divmod on a NaN, on an infinite
    dividend or on an infinite divisor raises the invalid-operation flag and
    returns the pair of the table [special_values]: (NaN, NaN) when x is
    NaN, y is NaN or x is infinite; for an infinite y and a finite x, two
    zeros with the sign of y when x is zero, (-1, infinity with the sign
    of y) when the signs differ, and (0, x rounded per context) when they
    agree.  Where the quotient of the table is -1, the context is to hold
    that number: its exponent range contains 1 and its precision is one
    bit at least. *)
Theorem Real_DivMod_special_values x y context st ox oy fx fy n cx q r :
  heap st !! x = Some ox -> real_value cx (ob_data ox) = Some fx ->
  heap st !! y = Some oy -> real_value cx (ob_data oy) = Some fy ->
  heap st !! resolve st context = Some (mk_object n (CTXT_Object cx)) ->
  (5 <= mem_avail st)%nat ->
  ctx_traps cx = TRAP_NONE ->
  (q = minus_one -> ctx_emin cx <= 1 <= ctx_emax cx /\ 1 <= ctx_mpfr_prec cx) ->
  special_values cx fx fy = Some (q, r) ->
  exists res st' rq rr cx',
    GMPy_Real_DivMod x y context st = Some (Ref res, st') /\
    read_pair st' res =
      Some (MPFR_Object q (ctx_mpfr_prec cx) rq, MPFR_Object r (ctx_mpfr_prec cx) rr) /\
    heap st' !! resolve st context = Some (mk_object n (CTXT_Object cx')) /\
    ctx_invalid cx' = true.
Proof.
  intros Hx Vx Hy Vy Hc Hmem T R Hs.
  pose proof (Real_DivMod_spec x y context st ox oy fx fy n cx Hx Vx Hy Vy Hc Hmem) as H.
  apply wp_run in H. destruct H as (v & st' & Hrun & Hpost).
  destruct (special_values_pure cx fx fy q r T R Hs)
    as (cx' & fl & [q0 rq] & [r0 rr] & E & Eq & Er & Hi).
  cbn [fst] in Eq, Er. subst q0 r0.
  unfold Real_DivMod_post in Hpost. cbv zeta in Hpost. rewrite E in Hpost.
  cbn [out_ctx out_flags out_result fst snd] in Hpost.
  destruct Hpost as (Hk & _ & _ & res & -> & Hp & _).
  exists res, st', rq, rr, cx'. auto.
Qed.

(** C3, as the code has it. With a zero divisor and a finite nonzero
    dividend the divide-by-zero flag of the context is set; if the
    divide-by-zero trap is enabled the call fails at once with that error
    and nothing else is changed in the context; if that trap is disabled,
    whatever the other traps are, the computation goes on and the call
    returns an infinite quotient, of the sign of x / y, and a NaN
    remainder. *)
Theorem Real_DivMod_zero_divisor x y context st ox oy sx mx ex sy n cx :
  heap st !! x = Some ox -> real_value cx (ob_data ox) = Some (MPFR.Num sx mx ex) ->
  heap st !! y = Some oy -> real_value cx (ob_data oy) = Some (MPFR.Zero sy) ->
  heap st !! resolve st context = Some (mk_object n (CTXT_Object cx)) ->
  (5 <= mem_avail st)%nat ->
  exists v st' cx',
    GMPy_Real_DivMod x y context st = Some (v, st') /\
    heap st' !! resolve st context = Some (mk_object n (CTXT_Object cx')) /\
    ctx_divzero cx' = true /\
    (traps_on cx TRAP_DIVZERO = true ->
     v = NULL /\ cx' = set_divzero cx /\
     err_indicator st' =
       Some (GMPyExc_DivZero, "'mpfr' division by zero in divmod"%string)) /\
    (traps_on cx TRAP_DIVZERO = false ->
     exists res rq rr,
       v = Ref res /\
       read_pair st' res =
         Some (MPFR_Object (MPFR.Inf (xorb sx sy)) (ctx_mpfr_prec cx) rq,
               MPFR_Object MPFR.NaN (ctx_mpfr_prec cx) rr)).
Proof.
  intros Hx Vx Hy Vy Hc Hmem.
  pose proof (Real_DivMod_spec x y context st ox oy _ _ n cx Hx Vx Hy Vy Hc Hmem) as H.
  apply wp_run in H. destruct H as (v & st' & Hrun & Hpost).
  destruct (zero_divisor_pure cx sx mx ex sy) as (Hd & Ht & Hu). cbv zeta in Hd, Ht, Hu.
  unfold Real_DivMod_post in Hpost. cbv zeta in Hpost.
  destruct Hpost as (Hk & _ & _ & Hres).
  exists v, st', (out_ctx (Real_DivMod_pure cx (MPFR.Num sx mx ex) (MPFR.Zero sy))).
  split; [exact Hrun|]. split; [exact Hk|]. split; [exact Hd|]. split.
  - intros T. rewrite (Ht T) in Hres |- *. cbn [out_result out_ctx] in *.
    destruct Hres as (-> & He & _). auto.
  - intros T. destruct (Hu T) as (fl & [q0 rq] & [r0 rr] & E & Eq & Er).
    cbn [fst] in Eq, Er. subst q0 r0. rewrite E in Hres. cbn [out_result fst snd] in Hres.
    destruct Hres as (res & -> & Hp & _). eauto.
Qed.








(** ** The dispatchers *)

Lemma andM_tests f x y st ox oy :
  heap st !! x = Some ox -> heap st !! y = Some oy ->
  andM (type_test f x) (type_test f y) st = Some (f (ob_data ox) && f (ob_data oy), st).
Proof.
  intros Hx Hy. unfold andM, bind. rewrite (type_test_run f x ox st Hx).
  destruct (f (ob_data ox)); [apply (type_test_run f y oy st Hy) | reflexivity].
Qed.

Lemma Number_DivMod_dispatch si_bits x y context st ox oy :
  heap st !! x = Some ox -> heap st !! y = Some oy ->
  GMPy_Number_DivMod si_bits x y context st =
    match first_common layers (ob_data ox) (ob_data oy) with
    | Some L => algorithm si_bits L x y context st
    | None =>
        Some (NULL, err_state PyExc_TypeError "divmod() argument type not supported" st)
    end.
Proof.
  intros Hx Hy.
  unfold GMPy_Number_DivMod, IS_INTEGER, IS_RATIONAL, IS_REAL, IS_COMPLEX,
    first_common, layers, bind.
  cbn [List.find in_layer].
  rewrite (andM_tests is_INTEGER x y st ox oy Hx Hy).
  destruct (is_INTEGER (ob_data ox) && is_INTEGER (ob_data oy)); [reflexivity|].
  rewrite (andM_tests is_RATIONAL x y st ox oy Hx Hy).
  destruct (is_RATIONAL (ob_data ox) && is_RATIONAL (ob_data oy)); [reflexivity|].
  rewrite (andM_tests is_REAL x y st ox oy Hx Hy).
  destruct (is_REAL (ob_data ox) && is_REAL (ob_data oy)); [reflexivity|].
  rewrite (andM_tests is_COMPLEX x y st ox oy Hx Hy).
  destruct (is_COMPLEX (ob_data ox) && is_COMPLEX (ob_data oy)); reflexivity.
Qed.

Lemma mpz_divmod_fast_dispatch si_bits x y st ox oy :
  heap st !! x = Some ox -> heap st !! y = Some oy ->
  GMPy_mpz_divmod_fast si_bits x y st =
    match first_common layers (ob_data ox) (ob_data oy) with
    | Some L => algorithm si_bits L x y None st
    | None => Some (Py_NotImplemented, st)
    end.
Proof.
  intros Hx Hy.
  unfold GMPy_mpz_divmod_fast, IS_INTEGER, IS_RATIONAL, IS_REAL, IS_COMPLEX,
    first_common, layers, bind.
  cbn [List.find in_layer].
  rewrite (andM_tests is_INTEGER x y st ox oy Hx Hy).
  destruct (is_INTEGER (ob_data ox) && is_INTEGER (ob_data oy)); [reflexivity|].
  rewrite (andM_tests is_RATIONAL x y st ox oy Hx Hy).
  destruct (is_RATIONAL (ob_data ox) && is_RATIONAL (ob_data oy)); [reflexivity|].
  rewrite (andM_tests is_REAL x y st ox oy Hx Hy).
  destruct (is_REAL (ob_data ox) && is_REAL (ob_data oy)); [reflexivity|].
  rewrite (andM_tests is_COMPLEX x y st ox oy Hx Hy).
  destruct (is_COMPLEX (ob_data ox) && is_COMPLEX (ob_data oy)); reflexivity.
Qed.

Lemma only_error_err_state e msg st : only_error e msg st (err_state e msg st).
Proof. repeat split. Qed.

(** C9. The Complex algorithm fails for all operands, with the type error
    on floor and mod of complex numbers, and changes nothing but the error
    indicator: no object, no context flag, no MPFR flag.  So does the
    dispatcher on every pair of operands whose first common layer is
    Complex. *)
Theorem Complex_DivMod_always_fails :
  (forall x y context st,
     exists st',
       GMPy_Complex_DivMod x y context st = Some (NULL, st') /\
       only_error PyExc_TypeError "can't take floor or mod of complex number." st st') /\
  (forall si_bits x y context st ox oy,
     heap st !! x = Some ox -> heap st !! y = Some oy ->
     first_common layers (ob_data ox) (ob_data oy) = Some Complex ->
     exists st',
       GMPy_Number_DivMod si_bits x y context st = Some (NULL, st') /\
       only_error PyExc_TypeError "can't take floor or mod of complex number." st st').
Proof.
  split.
  - intros x y context st. eexists. split; [reflexivity | apply only_error_err_state].
  - intros si_bits x y context st ox oy Hx Hy HL.
    rewrite (Number_DivMod_dispatch si_bits x y context st ox oy Hx Hy), HL.
    eexists. split; [reflexivity | apply only_error_err_state].
Qed.

(** C7, as the code has it. Both dispatchers try the layers in the order
    Integer, Rational, Real, Complex and run the algorithm of the first
    layer that both operands satisfy.  When the operands share no layer,
    the operator slot [GMPy_mpz_divmod_fast] returns the sentinel
    [Py_NotImplemented] and leaves the state as it is, whereas
    [GMPy_Number_DivMod] fails with a type error. *)
Theorem dispatch_order si_bits x y context st ox oy :
  heap st !! x = Some ox -> heap st !! y = Some oy ->
  layers = [Integer; Rational; Real; Complex] /\
  GMPy_Number_DivMod si_bits x y context st =
    match first_common layers (ob_data ox) (ob_data oy) with
    | Some L => algorithm si_bits L x y context st
    | None =>
        Some (NULL, err_state PyExc_TypeError "divmod() argument type not supported" st)
    end /\
  GMPy_mpz_divmod_fast si_bits x y st =
    match first_common layers (ob_data ox) (ob_data oy) with
    | Some L => algorithm si_bits L x y None st
    | None => Some (Py_NotImplemented, st)
    end.
Proof.
  intros Hx Hy. split; [reflexivity|]. split.
  - apply (Number_DivMod_dispatch si_bits x y context st ox oy Hx Hy).
  - apply (mpz_divmod_fast_dispatch si_bits x y st ox oy Hx Hy).
Qed.

(** ** Operands outside the layer of an algorithm *)








(** ** The method of the context *)

Lemma integer_value_total d : is_INTEGER d = true -> exists a, integer_value d = Some a.
Proof. destruct d; cbn; intros H; try discriminate; eauto. Qed.

Lemma rational_value_total d : is_RATIONAL d = true -> exists q, rational_value d = Some q.
Proof. destruct d; cbn; intros H; try discriminate; eauto. Qed.

Lemma real_value_total cx d : is_REAL d = true -> exists f, real_value cx d = Some f.
Proof. destruct d; cbn; intros H; try discriminate; eauto. Qed.

Lemma flags_kept_refl c : flags_kept c c.
Proof. repeat split; auto. Qed.

Lemma Number_DivMod_frame si_bits x y k st ox oy n cx :
  0 < si_bits ->
  heap st !! x = Some ox -> heap st !! y = Some oy ->
  heap st !! k = Some (mk_object n (CTXT_Object cx)) ->
  (5 <= mem_avail st)%nat ->
  wp (GMPy_Number_DivMod si_bits x y (Some k)) st (context_frame k n cx st).
Proof.
  intros Hbits Hx Hy Hk Hmem. unfold wp.
  rewrite (Number_DivMod_dispatch si_bits x y (Some k) st ox oy Hx Hy).
  assert (Hsame : context_frame k n cx st NULL st ->
                  forall e msg, context_frame k n cx st NULL (err_state e msg st)).
  { intros H e msg. exact H. }
  assert (Hid : forall v, context_frame k n cx st v st).
  { intros v. exists cx. split; [exact Hk|]. split; [apply flags_kept_refl|].
    intros l n0 c0 _ Hl. exact Hl. }
  destruct (first_common layers (ob_data ox) (ob_data oy)) as [L|] eqn:EL;
    [| apply (Hsame (Hid NULL)) ].
  apply List.find_some in EL. destruct EL as [_ EL].
  apply andb_true_iff in EL. destruct EL as [Lx Ly].
  destruct L; cbn [in_layer algorithm] in *.
  - destruct (integer_value_total _ Lx) as [a Va], (integer_value_total _ Ly) as [b Vb].
    change (wp (GMPy_Integer_DivMod si_bits x y (Some k)) st (context_frame k n cx st)).
    eapply wp_mono;
      [ exact (Integer_DivMod_spec si_bits x y (Some k) st ox oy a b n cx
                 Hbits Hx Va Hy Vb Hk Hmem) |].
    intros v st' [_ Hu]. exists cx. split; [apply Hu, Hk|].
    split; [apply flags_kept_refl|]. intros l n0 c0 _ Hl. apply Hu, Hl.
  - destruct (rational_value_total _ Lx) as [a Va], (rational_value_total _ Ly) as [b Vb].
    change (wp (GMPy_Rational_DivMod x y (Some k)) st (context_frame k n cx st)).
    eapply wp_mono;
      [ exact (Rational_DivMod_spec x y (Some k) st ox oy a b n cx Hx Va Hy Vb Hk Hmem) |].
    intros v st' [_ Hu]. exists cx. split; [apply Hu, Hk|].
    split; [apply flags_kept_refl|]. intros l n0 c0 _ Hl. apply Hu, Hl.
  - destruct (real_value_total cx _ Lx) as [a Va], (real_value_total cx _ Ly) as [b Vb].
    change (wp (GMPy_Real_DivMod x y (Some k)) st (context_frame k n cx st)).
    eapply wp_mono;
      [ exact (Real_DivMod_spec x y (Some k) st ox oy a b n cx Hx Va Hy Vb Hk Hmem) |].
    intros v st' (Hk' & Hf & _). cbv zeta in Hk'.
    eexists. split; [exact Hk'|].
    split; [apply (Real_DivMod_pure_shape cx a b) | exact Hf].
  - apply (Hsame (Hid NULL)).
Qed.

Lemma PyTuple_GET_SIZE_run l o items st :
  heap st !! l = Some o -> ob_data o = PyTuple_Object items ->
  PyTuple_GET_SIZE l st = Some (length items, st).
Proof.
  intros H D. unfold PyTuple_GET_SIZE, bind. rewrite (tuple_items_run _ _ _ _ H D).
  reflexivity.
Qed.

Lemma PyTuple_GET_ITEM_run l o items i v st :
  heap st !! l = Some o -> ob_data o = PyTuple_Object items -> items !! i = Some (Some v) ->
  PyTuple_GET_ITEM l i st = Some (v, st).
Proof.
  intros H D I. unfold PyTuple_GET_ITEM, bind. rewrite (tuple_items_run _ _ _ _ H D), I.
  reflexivity.
Qed.

Lemma GMPy_CTXT_Copy_run s n cx st :
  heap st !! s = Some (mk_object n (CTXT_Object cx)) -> mem_avail st <> O ->
  GMPy_CTXT_Copy s st =
    Some (Some (fresh_loc st), alloc_state (CTXT_Object (set_readonly false cx)) st).
Proof.
  intros H Hm. unfold GMPy_CTXT_Copy, bind. rewrite (get_ctx_run _ _ _ _ H).
  apply alloc_run, Hm.
Qed.

Ltac step_ctx :=
  lazymatch goal with
  | |- wp (PyTuple_GET_SIZE _) _ _ => prim PyTuple_GET_SIZE_run
  | |- wp (PyTuple_GET_ITEM _ _) _ _ => prim PyTuple_GET_ITEM_run
  | |- wp (GMPy_CTXT_Copy _) _ _ => prim GMPy_CTXT_Copy_run
  | |- _ => step_real
  end.

(** C8. The method [context.divmod] on a read-only context clones it: the
    dispatcher runs with the clone, a fresh object, which takes the flag
    updates and is freed before the method returns, and the read-only
    context is in the final state what it was, reference count included.
    On a writable context the dispatcher runs with the context itself,
    which keeps the flags raised; no object is allocated for it. *)
Theorem Context_DivMod_readonly si_bits s args st n cx nt a0 a1 o0 o1 :
  0 < si_bits ->
  heap st !! args = Some (mk_object nt (PyTuple_Object [Some a0; Some a1])) ->
  heap st !! a0 = Some o0 -> heap st !! a1 = Some o1 ->
  heap st !! s = Some (mk_object n (CTXT_Object cx)) ->
  (6 <= mem_avail st)%nat ->
  (ctx_readonly cx = true ->
   exists v st1 cx1,
     GMPy_Number_DivMod si_bits a0 a1 (Some (fresh_loc st))
       (alloc_state (CTXT_Object (set_readonly false cx)) st) = Some (v, st1) /\
     heap st1 !! fresh_loc st = Some (mk_object 1 (CTXT_Object cx1)) /\
     flags_kept cx cx1 /\
     GMPy_Context_DivMod si_bits (Some s) args st =
       Some (v, free_state (fresh_loc st) st1) /\
     heap (free_state (fresh_loc st) st1) !! s = Some (mk_object n (CTXT_Object cx)) /\
     heap (free_state (fresh_loc st) st1) !! fresh_loc st = None) /\
  (ctx_readonly cx = false ->
   exists v st1 cx1,
     GMPy_Number_DivMod si_bits a0 a1 (Some s)
       (upd s (mk_object (Pos.succ n) (CTXT_Object cx)) st) = Some (v, st1) /\
     heap st1 !! s = Some (mk_object (Pos.succ n) (CTXT_Object cx1)) /\
     flags_kept cx cx1 /\
     GMPy_Context_DivMod si_bits (Some s) args st =
       Some (v, upd s (mk_object n (CTXT_Object cx1)) st1)).
Proof.
  intros Hbits Hargs H0 H1 Hs Hmem.
  assert (Hks : fresh_loc st <> s) by (eapply fresh_loc_ne; exact Hs).
  split; intros Hro.
  - assert (Hk1 : heap (alloc_state (CTXT_Object (set_readonly false cx)) st)
                    !! fresh_loc st =
                  Some (mk_object 1 (CTXT_Object (set_readonly false cx))))
      by apply alloc_lookup_new.
    pose proof (alloc_lookup_old (CTXT_Object (set_readonly false cx)) st _ _ H0) as H0'.
    pose proof (alloc_lookup_old (CTXT_Object (set_readonly false cx)) st _ _ H1) as H1'.
    pose proof (alloc_lookup_old (CTXT_Object (set_readonly false cx)) st _ _ Hs) as Hs'.
    assert (Hm1 : (5 <= mem_avail (alloc_state (CTXT_Object (set_readonly false cx)) st))%nat)
      by (cbn; lia).
    destruct (proj1 (wp_run _ _ _)
                (Number_DivMod_frame si_bits a0 a1 _ _ o0 o1 1 _ Hbits H0' H1' Hk1 Hm1))
      as (v & st1 & Hrun & cx1 & Hk & Hkept & Hframe).
    exists v, st1, cx1. split; [exact Hrun|]. split; [exact Hk|].
    split; [exact Hkept|]. split; [| split].
    + apply wp_run_eq. unfold GMPy_Context_DivMod.
      repeat step_ctx. cbn [length Nat.eqb negb].
      repeat step_ctx. rewrite Hro.
      repeat step_ctx.
      unfold wp at 1. rewrite Hrun.
      repeat step_ctx. split; reflexivity.
    + rewrite free_lookup_ne by exact Hks. apply Hframe; [congruence | exact Hs'].
    + apply free_lookup_eq.
  - assert (Hk1 : heap (upd s (mk_object (Pos.succ n) (CTXT_Object cx)) st) !! s =
                  Some (mk_object (Pos.succ n) (CTXT_Object cx)))
      by apply upd_lookup_eq.
    assert (H0' : exists o0', heap (upd s (mk_object (Pos.succ n) (CTXT_Object cx)) st)
                                !! a0 = Some o0').
    { destruct (decide (s = a0)) as [<-|Hne]; [eauto|].
      exists o0. rewrite upd_lookup_ne by exact Hne. exact H0. }
    assert (H1' : exists o1', heap (upd s (mk_object (Pos.succ n) (CTXT_Object cx)) st)
                                !! a1 = Some o1').
    { destruct (decide (s = a1)) as [<-|Hne]; [eauto|].
      exists o1. rewrite upd_lookup_ne by exact Hne. exact H1. }
    destruct H0' as [o0' H0'], H1' as [o1' H1'].
    assert (Hm1 : (5 <= mem_avail (upd s (mk_object (Pos.succ n) (CTXT_Object cx)) st))%nat)
      by (cbn; lia).
    destruct (proj1 (wp_run _ _ _)
                (Number_DivMod_frame si_bits a0 a1 s _ o0' o1' _ _ Hbits H0' H1' Hk1 Hm1))
      as (v & st1 & Hrun & cx1 & Hk & Hkept & Hframe).
    exists v, st1, cx1. split; [exact Hrun|]. split; [exact Hk|].
    split; [exact Hkept|].
    apply wp_run_eq. unfold GMPy_Context_DivMod.
    repeat step_ctx. cbn [length Nat.eqb negb].
    repeat step_ctx. rewrite Hro.
    repeat step_ctx.
    unfold wp at 1. rewrite Hrun.
    repeat step_ctx. rewrite Pos.pred_succ. split; reflexivity.
Qed.


(** * The theorems on the example states *)

Ltac example :=
  first [ reflexivity | left; reflexivity | vm_compute; discriminate | vm_compute; lia
        | vm_compute; split; discriminate ].

(** divmod (-7, 2) returns, and returns what C1 says. *)
Lemma Integer_DivMod_floor_witness :
  (0 < 64 /\
   heap ex_int !! 2%positive = Some (mk_object 1 (MPZ_Object (-7))) /\
   heap ex_int !! 3%positive = Some (mk_object 1 (PyLong_Object 2)) /\
   heap ex_int !! resolve ex_int None = Some (mk_object 1 (CTXT_Object ex_cx)) /\
   (5 <= mem_avail ex_int)%nat) /\
  exists v st',
    GMPy_Integer_DivMod 64 2%positive 3%positive None ex_int = Some (v, st') /\
    Integer_DivMod_post (-7) 2 v st'.
Proof.
  split; [repeat split; example|].
  refine (proj1 (Integer_DivMod_floor 64 2%positive 3%positive None ex_int
                   (mk_object 1 (MPZ_Object (-7))) (mk_object 1 (PyLong_Object 2))
                   (-7) 2 1%positive ex_cx _ _ _ _ _ _ _)); example.
Defined.

(** divmod (7, -2) takes the path of the negative machine word. *)
Lemma Integer_DivMod_negative_word_witness :
  (MachineWord.fits_si 64 (-2) = true /\ -2 < 0 /\
   heap ex_neg !! 2%positive = Some (mk_object 1 (MPZ_Object 7)) /\
   heap ex_neg !! 3%positive = Some (mk_object 1 (PyLong_Object (-2))) /\
   (3 <= mem_avail ex_neg)%nat) /\
  divmod_neg_si 64 7 (-2) = GMP.mpz_fdiv_qr 7 (-2).
Proof.
  split; [repeat split; example|].
  refine (proj1 (Integer_DivMod_negative_word 64 2%positive 3%positive None ex_neg
                   (mk_object 1 (MPZ_Object 7)) (mk_object 1 (PyLong_Object (-2)))
                   7 (-2) 1%positive ex_cx _ _ _ _ _ _ _ _)); example.
Defined.

(** divmod (7/2, 1/3) returns, and returns what C4 says. *)
Lemma Rational_DivMod_exact_witness :
  (heap ex_rat !! 2%positive = Some (mk_object 1 (MPQ_Object (7 # 2))) /\
   heap ex_rat !! 3%positive = Some (mk_object 1 (PyFraction_Object (1 # 3))) /\
   (5 <= mem_avail ex_rat)%nat) /\
  exists v st',
    GMPy_Rational_DivMod 2%positive 3%positive None ex_rat = Some (v, st') /\
    Rational_DivMod_post (7 # 2) (1 # 3) v st'.
Proof.
  split; [repeat split; example|].
  refine (proj1 (Rational_DivMod_exact 2%positive 3%positive None ex_rat
                   (mk_object 1 (MPQ_Object (7 # 2)))
                   (mk_object 1 (PyFraction_Object (1 # 3)))
                   (7 # 2) (1 # 3) 1%positive ex_cx _ _ _ _ _ _)); example.
Defined.

(** divmod (5.0, -inf) = (-1, -inf), with the invalid-operation flag. *)
Lemma Real_DivMod_special_values_witness :
  (ctx_traps ex_cx = TRAP_NONE /\
   ctx_emin ex_cx <= 1 <= ctx_emax ex_cx /\ 1 <= ctx_mpfr_prec ex_cx /\
   special_values ex_cx five (MPFR.Inf true) = Some (minus_one, MPFR.Inf true) /\
   (5 <= mem_avail ex_inf)%nat) /\
  exists res st' rq rr cx',
    GMPy_Real_DivMod 2%positive 3%positive None ex_inf = Some (Ref res, st') /\
    read_pair st' res =
      Some (MPFR_Object minus_one (ctx_mpfr_prec ex_cx) rq,
            MPFR_Object (MPFR.Inf true) (ctx_mpfr_prec ex_cx) rr) /\
    heap st' !! resolve ex_inf None = Some (mk_object 1 (CTXT_Object cx')) /\
    ctx_invalid cx' = true.
Proof.
  split; [repeat split; example|].
  refine (Real_DivMod_special_values 2%positive 3%positive None ex_inf
            (mk_object 1 (PyFloat_Object five))
            (mk_object 1 (MPFR_Object (MPFR.Inf true) 53 0))
            five (MPFR.Inf true) 1%positive ex_cx minus_one (MPFR.Inf true)
            _ _ _ _ _ _ _ (fun _ => _) _); try example.
  repeat split; example.
Defined.

(** divmod (5.0, 0.0) sets the divide-by-zero flag. *)
Lemma Real_DivMod_zero_divisor_witness :
  (heap ex_zero_div !! 2%positive = Some (mk_object 1 (PyFloat_Object five)) /\
   heap ex_zero_div !! 3%positive = Some (mk_object 1 (PyFloat_Object (MPFR.Zero false))) /\
   (5 <= mem_avail ex_zero_div)%nat) /\
  exists v st' cx',
    GMPy_Real_DivMod 2%positive 3%positive None ex_zero_div = Some (v, st') /\
    heap st' !! resolve ex_zero_div None = Some (mk_object 1 (CTXT_Object cx')) /\
    ctx_divzero cx' = true.
Proof.
  split; [repeat split; example|].
  destruct (Real_DivMod_zero_divisor 2%positive 3%positive None ex_zero_div
              (mk_object 1 (PyFloat_Object five))
              (mk_object 1 (PyFloat_Object (MPFR.Zero false)))
              false 5%positive 0 false 1%positive ex_cx)
    as (v & st' & cx' & Hrun & Hk & Hd & _); [example ..|].
  exists v, st', cx'. auto.
Defined.


(** A string and an integer share no layer. *)
Lemma dispatch_order_witness :
  (heap ex_no_layer !! 2%positive = Some (mk_object 1 PyOther_Object) /\
   heap ex_no_layer !! 3%positive = Some (mk_object 1 (PyLong_Object 1))) /\
  GMPy_mpz_divmod_fast 64 2%positive 3%positive ex_no_layer =
    match first_common layers PyOther_Object (PyLong_Object 1) with
    | Some L => algorithm 64 L 2%positive 3%positive None ex_no_layer
    | None => Some (Py_NotImplemented, ex_no_layer)
    end.
Proof.
  split; [repeat split; example|].
  refine (proj2 (proj2 (dispatch_order 64 2%positive 3%positive None ex_no_layer
                          (mk_object 1 PyOther_Object) (mk_object 1 (PyLong_Object 1))
                          _ _))); example.
Defined.

(** A complex number and an integer meet in the Complex layer. *)
Lemma Complex_DivMod_always_fails_witness :
  (heap ex_complex !! 2%positive = Some (mk_object 1 PyComplex_Object) /\
   heap ex_complex !! 3%positive = Some (mk_object 1 (PyLong_Object 1)) /\
   first_common layers PyComplex_Object (PyLong_Object 1) = Some Complex) /\
  exists st',
    GMPy_Number_DivMod 64 2%positive 3%positive None ex_complex = Some (NULL, st') /\
    only_error PyExc_TypeError "can't take floor or mod of complex number." ex_complex st'.
Proof.
  split; [repeat split; example|].
  refine (proj2 Complex_DivMod_always_fails 64 2%positive 3%positive None ex_complex
            (mk_object 1 PyComplex_Object) (mk_object 1 (PyLong_Object 1)) _ _ _);
    example.
Defined.


(** [context.divmod (7.5, 2.0)] on a read-only context. *)
Lemma Context_DivMod_readonly_witness :
  (0 < 64 /\
   heap ex_readonly !! 4%positive =
     Some (mk_object 1 (PyTuple_Object [Some 2%positive; Some 3%positive])) /\
   heap ex_readonly !! 1%positive =
     Some (mk_object 1 (CTXT_Object (example_context TRAP_NONE true))) /\
   ctx_readonly (example_context TRAP_NONE true) = true /\
   (6 <= mem_avail ex_readonly)%nat) /\
  exists v st1 cx1,
    GMPy_Context_DivMod 64 (Some 1%positive) 4%positive ex_readonly =
      Some (v, free_state (fresh_loc ex_readonly) st1) /\
    heap st1 !! fresh_loc ex_readonly = Some (mk_object 1 (CTXT_Object cx1)) /\
    heap (free_state (fresh_loc ex_readonly) st1) !! 1%positive =
      Some (mk_object 1 (CTXT_Object (example_context TRAP_NONE true))).
Proof.
  split; [repeat split; example|].
  destruct (proj1 (Context_DivMod_readonly 64 1%positive 4%positive ex_readonly 1%positive
                     (example_context TRAP_NONE true) 1%positive 2%positive 3%positive
                     (mk_object 1 (PyFloat_Object seven_and_a_half))
                     (mk_object 1 (PyFloat_Object two))
                     ltac:(example) ltac:(example) ltac:(example) ltac:(example)
                     ltac:(example) ltac:(example)) ltac:(example))
    as (v & st1 & cx1 & _ & Hk & _ & Hrun & Hs & _).
  exists v, st1, cx1. auto.
Defined.

(** * Where the code departs from the specification *)

(** C3, as the specification has it, fails on divmod (5.0, 0.0) under an
    untrapped context: the quotient returned is an infinity and not a
    NaN. *)
Lemma zero_divisor_quotient_not_nan :
  exists res st',
    GMPy_Real_DivMod 2%positive 3%positive None ex_zero_div = Some (Ref res, st') /\
    read_pair st' res =
      Some (MPFR_Object (MPFR.Inf false) 53 0, MPFR_Object MPFR.NaN 53 0) /\
    MPFR.Inf false <> MPFR.NaN.
Proof.
  eexists _, _. split; [vm_compute; reflexivity|].
  split; [vm_compute; reflexivity | discriminate].
Qed.

(** C7, as the specification has it, fails on a string and an integer: the
    operands share no layer and the dispatcher fails with a type error; it
    does not return the sentinel. *)
Lemma Number_DivMod_no_layer_fails :
  first_common layers PyOther_Object (PyLong_Object 1) = None /\
  GMPy_Number_DivMod 64 2%positive 3%positive None ex_no_layer =
    Some (NULL,
          err_state PyExc_TypeError "divmod() argument type not supported" ex_no_layer) /\
  NULL <> Py_NotImplemented.
Proof.
  split; [reflexivity|]. split; [vm_compute; reflexivity | discriminate].
Qed.

(** C2, as the specification has it, fails on divmod (0.25, -inf) under an
    untrapped context whose largest exponent is 0: the operands have
    different signs, and the quotient returned is minus infinity and not
    -1, a number that the context cannot represent. *)
Lemma quotient_minus_one_overflows :
  ctx_traps (range_context (-1073741823) 0) = TRAP_NONE /\
  special_values (range_context (-1073741823) 0) a_quarter (MPFR.Inf true) =
    Some (minus_one, MPFR.Inf true) /\
  exists res st',
    GMPy_Real_DivMod 2%positive 3%positive None ex_small_range = Some (Ref res, st') /\
    read_pair st' res =
      Some (MPFR_Object (MPFR.Inf true) 53 0, MPFR_Object (MPFR.Inf true) 53 0) /\
    MPFR.Inf true <> minus_one.
Proof.
  split; [reflexivity|]. split; [reflexivity|].
  eexists _, _. split; [vm_compute; reflexivity|].
  split; [vm_compute; reflexivity | discriminate].
Qed.



(** * Reference counts and memory *)

(** An object of the old state is in the new one: the operands are looked
    at first, since their reference counts went up and down. *)
Ltac preserves_leaf P x y Hx Hy :=
  let l := fresh "l" in
  let o := fresh "o" in
  let Hl := fresh "Hl" in
  intros l o _ Hl;
  destruct (decide (l = x)) as [->|?];
  [ rewrite Hx in Hl; injection Hl as <-; rewrite ?Pos.pred_succ; solve_lookup
  | destruct (decide (l = y)) as [->|?];
    [ rewrite Hy in Hl; injection Hl as <-; rewrite ?Pos.pred_succ; solve_lookup
    | lift_old P Hl; solve_lookup ] ].

Ltac new_pair_leaf P :=
  unfold returns_new_pair;
  lazymatch goal with
  | |- _ /\ mem_avail _ = mem_avail _ =>
      split; [proj_state; discriminate
             | proj_state;
               match goal with Hm : mem_avail _ = (mem_avail _ - 3)%nat |- _ => rewrite Hm end;
               match goal with Hm : (_ <= mem_avail _)%nat |- _ => clear - Hm; lia end ]
  | |- _ /\ _ /\ _ =>
      split; [proj_state; assumption|];
      split; [proj_state;
              match goal with Hm : mem_avail _ = (mem_avail _ - 3)%nat |- _ => rewrite Hm end;
              match goal with Hm : (_ <= mem_avail _)%nat |- _ => clear - Hm; lia end|];
      eexists _, _, _, _;
      split; [solve_lookup|]; split; [solve_lookup|]; split; [solve_lookup|];
      split; [exact (pre_fresh_r _ _ _ _ _ _ _ _ P)|];
      split; [exact (pre_fresh_q _ _ _ _ _ _ _ _ P)|];
      split; [exact (pre_fresh_m _ _ _ _ _ _ _ _ P)|];
      split; [assumption|]; split; [assumption|]; apply not_eq_sym; assumption
  end.

Lemma Integer_DivMod_frame si_bits x y context st ox oy a b n cx :
  0 < si_bits ->
  heap st !! x = Some ox -> integer_value (ob_data ox) = Some a ->
  heap st !! y = Some oy -> integer_value (ob_data oy) = Some b ->
  heap st !! resolve st context = Some (mk_object n (CTXT_Object cx)) ->
  (5 <= mem_avail st)%nat ->
  wp (GMPy_Integer_DivMod si_bits x y context) st
     (fun v st' => preserves [] st st' /\ returns_new_pair st v st' /\
                   mpfr_flags st' = mpfr_flags st).
Proof.
  intros Hbits Hx Vx Hy Vy Hc Hmem.
  unfold GMPy_Integer_DivMod.
  run_prelude P.
  pose proof Hx as Hx0. pose proof Hy as Hy0.
  lift_old P Hx. lift_old P Hy. lift_old P Hc.
  prelude_unpack P.
  destruct ox as [rx dx], oy as [ry dy]; cbn [ob_data] in Vx, Vy.
  destruct dx; try discriminate; injection Vx as ->;
  destruct dy; try discriminate; injection Vy as ->.
  all: simp_prog.
  all: exec.
  all: (split; [preserves_leaf P x y Hx0 Hy0|]).
  all: (split; [new_pair_leaf P | proj_state; assumption]).
Qed.

Lemma Rational_DivMod_frame x y context st ox oy qx qy n cx :
  heap st !! x = Some ox -> rational_value (ob_data ox) = Some qx ->
  heap st !! y = Some oy -> rational_value (ob_data oy) = Some qy ->
  heap st !! resolve st context = Some (mk_object n (CTXT_Object cx)) ->
  (5 <= mem_avail st)%nat ->
  wp (GMPy_Rational_DivMod x y context) st
     (fun v st' => preserves [] st st' /\ returns_new_pair st v st' /\
                   mpfr_flags st' = mpfr_flags st).
Proof.
  intros Hx Vx Hy Vy Hc Hmem.
  destruct (rational_shape _ _ Vx) as [Rx Sx], (rational_shape _ _ Vy) as [Ry Sy].
  assert (Sxy : x = y -> oy = ox /\ qy = qx) by (intros ->; split; congruence).
  unfold GMPy_Rational_DivMod.
  run_prelude P.
  pose proof Hx as Hx0. pose proof Hy as Hy0.
  lift_old P Hx. lift_old P Hy. lift_old P Hc.
  prelude_unpack P.
  destruct ox as [rx dx], oy as [ry dy]; cbn [ob_data] in *.
  repeat step. rewrite Rx; simp_prog. repeat step. rewrite Ry; simp_prog.
  destruct (decide (x = y)) as [Exy|Exy];
    [ destruct (Sxy Exy) as [Eo Eq]; subst y qy; injection Eo as -> -> | ];
    (destruct Sx as [Dx | (tx & Tx & Ex)], Sy as [Dy | (ty & Ty & Ey)]).
  all: try subst dx; try subst dy.
  all: try (cbn in Tx; discriminate); try (cbn in Ty; discriminate).
  all: try (injection Dy as ->).
  all: try (rewrite Tx in Ty; injection Ty as ->).
  all: exec.
  all: (split; [preserves_leaf P x y Hx0 Hy0 || preserves_leaf P x x Hx0 Hx0|]).
  all: (split; [new_pair_leaf P | proj_state; assumption]).
Qed.

Ltac preserves_but_leaf P x y Hx Hy :=
  let l := fresh "l" in
  let o := fresh "o" in
  let Hn := fresh "Hn" in
  let Hl := fresh "Hl" in
  intros l o Hn Hl;
  apply not_elem_of_cons in Hn; destruct Hn as [Hn _];
  destruct (decide (l = x)) as [->|?];
  [ rewrite Hx in Hl; injection Hl as <-; rewrite ?Pos.pred_succ; solve_lookup
  | destruct (decide (l = y)) as [->|?];
    [ rewrite Hy in Hl; injection Hl as <-; rewrite ?Pos.pred_succ; solve_lookup
    | lift_old P Hl; solve_lookup ] ].

Ltac new_pair_through P :=
  unfold returns_new_pair;
  lazymatch goal with
  | |- _ /\ mem_avail _ = mem_avail _ =>
      split; [ proj_state;
               match goal with He : err_indicator _ = Some _ |- _ => rewrite He end;
               discriminate
             | through_modifies;
               match goal with Hm : mem_avail _ = (mem_avail _ - 3)%nat |- _ => rewrite Hm end;
               match goal with Hm : (_ <= mem_avail _)%nat |- _ => clear - Hm; lia end ]
  | |- _ /\ _ /\ _ =>
      split; [ proj_state;
               match goal with He : err_indicator _ = err_indicator _ |- _ => rewrite He end;
               proj_state; assumption |];
      split; [through_modifies;
              match goal with Hm : mem_avail _ = (mem_avail _ - 3)%nat |- _ => rewrite Hm end;
              match goal with Hm : (_ <= mem_avail _)%nat |- _ => clear - Hm; lia end|];
      eexists _, _, _, _;
      split; [solve_lookup|]; split; [solve_lookup|]; split; [solve_lookup|];
      split; [exact (pre_fresh_r _ _ _ _ _ _ _ _ P)|];
      split; [exact (pre_fresh_q _ _ _ _ _ _ _ _ P)|];
      split; [exact (pre_fresh_m _ _ _ _ _ _ _ _ P)|];
      split; [assumption|]; split; [assumption|]; apply not_eq_sym; assumption
  end.

Lemma Real_DivMod_frame x y context st ox oy fx fy n cx :
  heap st !! x = Some ox -> real_value cx (ob_data ox) = Some fx ->
  heap st !! y = Some oy -> real_value cx (ob_data oy) = Some fy ->
  heap st !! resolve st context = Some (mk_object n (CTXT_Object cx)) ->
  (5 <= mem_avail st)%nat ->
  wp (GMPy_Real_DivMod x y context) st
     (fun v st' => preserves [resolve st context] st st' /\ returns_new_pair st v st').
Proof.
  intros Hx Vx Hy Vy Hc Hmem.
  destruct (real_shape _ _ _ Vx) as [Rx Sx], (real_shape _ _ _ Vy) as [Ry Sy].
  assert (Sxy : x = y -> oy = ox /\ fy = fx) by (intros ->; split; congruence).
  unfold GMPy_Real_DivMod.
  run_prelude_real P.
  pose proof Hx as Hx0. pose proof Hy as Hy0.
  lift_old P Hx. lift_old P Hy. lift_old P Hc.
  prelude_unpack P.
  destruct ox as [rx dx], oy as [ry dy]; cbn [ob_data] in *.
  repeat step_real. rewrite Rx; simp_prog. repeat step_real. rewrite Ry; simp_prog.
  destruct (decide (x = y)) as [Exy|Exy];
    [ destruct (Sxy Exy) as [Eo Eq]; subst y fy; injection Eo as -> -> | ];
    (destruct Sx as [(px & rcx & Dx) | (px & rcx & flx & Tx)],
              Sy as [(py & rcy & Dy) | (py & rcy & fly & Ty)]).
  all: try subst dx; try subst dy.
  all: try (cbn in Tx; discriminate); try (cbn in Ty; discriminate).
  all: try (injection Dy as -> ->).
  all: try (rewrite Tx in Ty; injection Ty as -> -> ->).
  all: do 4 step_real.
  all: eapply real_core_spec;
       [ solve_lookup | solve_lookup | solve_lookup | solve_lookup | solve_lookup
       | solve_ne | solve_ne | solve_ne | solve_ne | solve_ne | solve_ne
       | solve_ne | solve_ne | solve_ne | solve_proj | ].
  all: intros S' (Hk' & (q & r & Hq' & Hr' & Hv) & Hmod & Hfl & He).
  all: destruct (out_result (core_pure _ _ cx _ _)) as [e|[q' r']] eqn:Eo.
  all: exec_real.
  all: (split; [preserves_but_leaf P x y Hx0 Hy0 || preserves_but_leaf P x x Hx0 Hx0|]).
  all: new_pair_through P.
Qed.


(** X1. On two Integer operands [GMPy_Integer_DivMod] follows the protocol
    of a function returning a new reference: every object of the caller is
    afterwards what it was, reference count included (a borrowed operand is
    released again, a temporary freed); it returns [NULL] with an exception
    set and no memory taken, or a fresh tuple of one reference that owns two
    fresh numbers of one reference each, three objects in all; the MPFR
    flags are not touched. *)
Theorem Integer_DivMod_ownership si_bits x y context st ox oy a b n cx :
  0 < si_bits ->
  heap st !! x = Some ox -> integer_value (ob_data ox) = Some a ->
  heap st !! y = Some oy -> integer_value (ob_data oy) = Some b ->
  heap st !! resolve st context = Some (mk_object n (CTXT_Object cx)) ->
  (5 <= mem_avail st)%nat ->
  exists v st',
    GMPy_Integer_DivMod si_bits x y context st = Some (v, st') /\
    preserves [] st st' /\ returns_new_pair st v st' /\
    mpfr_flags st' = mpfr_flags st.
Proof.
  intros Hbits Hx Vx Hy Vy Hc Hmem. apply wp_run.
  exact (Integer_DivMod_frame si_bits x y context st ox oy a b n cx
           Hbits Hx Vx Hy Vy Hc Hmem).
Qed.

(** X2. The same protocol for [GMPy_Rational_DivMod] on two Rational
    operands, the same object passed twice included. *)
Theorem Rational_DivMod_ownership x y context st ox oy qx qy n cx :
  heap st !! x = Some ox -> rational_value (ob_data ox) = Some qx ->
  heap st !! y = Some oy -> rational_value (ob_data oy) = Some qy ->
  heap st !! resolve st context = Some (mk_object n (CTXT_Object cx)) ->
  (5 <= mem_avail st)%nat ->
  exists v st',
    GMPy_Rational_DivMod x y context st = Some (v, st') /\
    preserves [] st st' /\ returns_new_pair st v st' /\
    mpfr_flags st' = mpfr_flags st.
Proof.
  intros Hx Vx Hy Vy Hc Hmem. apply wp_run.
  exact (Rational_DivMod_frame x y context st ox oy qx qy n cx Hx Vx Hy Vy Hc Hmem).
Qed.

(** X3. The same protocol for [GMPy_Real_DivMod] on two Real operands; the
    one object it writes to is the context, which stays a context with the
    reference count it had. *)
Theorem Real_DivMod_ownership x y context st ox oy fx fy n cx :
  heap st !! x = Some ox -> real_value cx (ob_data ox) = Some fx ->
  heap st !! y = Some oy -> real_value cx (ob_data oy) = Some fy ->
  heap st !! resolve st context = Some (mk_object n (CTXT_Object cx)) ->
  (5 <= mem_avail st)%nat ->
  exists v st' cx',
    GMPy_Real_DivMod x y context st = Some (v, st') /\
    preserves [resolve st context] st st' /\ returns_new_pair st v st' /\
    heap st' !! resolve st context = Some (mk_object n (CTXT_Object cx')).
Proof.
  intros Hx Vx Hy Vy Hc Hmem.
  pose proof (Real_DivMod_frame x y context st ox oy fx fy n cx Hx Vx Hy Vy Hc Hmem) as F.
  pose proof (Real_DivMod_spec x y context st ox oy fx fy n cx Hx Vx Hy Vy Hc Hmem) as S.
  apply wp_run in F. destruct F as (v & st' & Hrun & Hp & Hn).
  apply wp_run in S. destruct S as (v2 & st2 & Hrun2 & Hk & _).
  rewrite Hrun in Hrun2. injection Hrun2 as <- <-.
  exists v, st'. eexists. split; [exact Hrun|]. split; [exact Hp|].
  split; [exact Hn | exact Hk].
Qed.

Lemma preserves_weaken L L' st st' : L ⊆ L' -> preserves L st st' -> preserves L' st st'.
Proof. intros HL H l o Hl. apply H. intros Hin. apply Hl, HL, Hin. Qed.

Lemma preserves_refl L st : preserves L st st.
Proof. intros l o _ H. exact H. Qed.

(** X4. [GMPy_Number_DivMod] never returns [Py_NotImplemented], whatever
    the two operands are: it returns [NULL] with an exception set and no
    memory taken, or a fresh pair. No object of the caller other than the
    context is changed. *)
Theorem Number_DivMod_protocol si_bits x y k st ox oy n cx :
  0 < si_bits ->
  heap st !! x = Some ox -> heap st !! y = Some oy ->
  heap st !! k = Some (mk_object n (CTXT_Object cx)) ->
  (5 <= mem_avail st)%nat ->
  exists v st',
    GMPy_Number_DivMod si_bits x y (Some k) st = Some (v, st') /\
    v <> Py_NotImplemented /\
    preserves [k] st st' /\ returns_new_pair st v st'.
Proof.
  intros Hbits Hx Hy Hk Hmem.
  rewrite (Number_DivMod_dispatch si_bits x y (Some k) st ox oy Hx Hy).
  assert (Hfail : forall e msg,
            exists v st', Some (NULL, err_state e msg st) = Some (v, st') /\
              v <> Py_NotImplemented /\ preserves [k] st st' /\ returns_new_pair st v st').
  { intros e msg. eexists _, _. split; [reflexivity|]. split; [discriminate|].
    split; [intros l o _ H; exact H|]. split; [discriminate | reflexivity]. }
  assert (Hni : forall v st', returns_new_pair st v st' -> v <> Py_NotImplemented).
  { intros v st' H ->. exact H. }
  destruct (first_common layers (ob_data ox) (ob_data oy)) as [L|] eqn:EL;
    [| apply Hfail ].
  apply List.find_some in EL. destruct EL as [_ EL].
  apply andb_true_iff in EL. destruct EL as [Lx Ly].
  destruct L; cbn [in_layer algorithm] in *.
  - destruct (integer_value_total _ Lx) as [a Va], (integer_value_total _ Ly) as [b Vb].
    destruct (proj1 (wp_run _ _ _)
                (Integer_DivMod_frame si_bits x y (Some k) st ox oy a b n cx
                   Hbits Hx Va Hy Vb Hk Hmem)) as (v & st' & Hrun & Hp & Hn & _).
    exists v, st'. split; [exact Hrun|]. split; [exact (Hni v st' Hn)|].
    split; [eapply preserves_weaken; [|exact Hp]; set_solver | exact Hn].
  - destruct (rational_value_total _ Lx) as [a Va], (rational_value_total _ Ly) as [b Vb].
    destruct (proj1 (wp_run _ _ _)
                (Rational_DivMod_frame x y (Some k) st ox oy a b n cx Hx Va Hy Vb Hk Hmem))
      as (v & st' & Hrun & Hp & Hn & _).
    exists v, st'. split; [exact Hrun|]. split; [exact (Hni v st' Hn)|].
    split; [eapply preserves_weaken; [|exact Hp]; set_solver | exact Hn].
  - destruct (real_value_total cx _ Lx) as [a Va], (real_value_total cx _ Ly) as [b Vb].
    destruct (proj1 (wp_run _ _ _)
                (Real_DivMod_frame x y (Some k) st ox oy a b n cx Hx Va Hy Vb Hk Hmem))
      as (v & st' & Hrun & Hp & Hn).
    exists v, st'. split; [exact Hrun|]. split; [exact (Hni v st' Hn)|].
    split; [exact Hp | exact Hn].
  - apply Hfail.
Qed.

Lemma Integer_DivMod_ownership_witness :
  (0 < 64 /\
   heap ex_int !! 2%positive = Some (mk_object 1 (MPZ_Object (-7))) /\
   heap ex_int !! 3%positive = Some (mk_object 1 (PyLong_Object 2)) /\
   (5 <= mem_avail ex_int)%nat) /\
  exists v st',
    GMPy_Integer_DivMod 64 2%positive 3%positive None ex_int = Some (v, st') /\
    preserves [] ex_int st' /\ returns_new_pair ex_int v st' /\
    mpfr_flags st' = mpfr_flags ex_int.
Proof.
  split; [repeat split; example|].
  refine (Integer_DivMod_ownership 64 2%positive 3%positive None ex_int
            (mk_object 1 (MPZ_Object (-7))) (mk_object 1 (PyLong_Object 2))
            (-7) 2 1%positive ex_cx _ _ _ _ _ _ _); example.
Defined.

Lemma Rational_DivMod_ownership_witness :
  (heap ex_rat !! 2%positive = Some (mk_object 1 (MPQ_Object (7 # 2))) /\
   heap ex_rat !! 3%positive = Some (mk_object 1 (PyFraction_Object (1 # 3))) /\
   (5 <= mem_avail ex_rat)%nat) /\
  exists v st',
    GMPy_Rational_DivMod 2%positive 3%positive None ex_rat = Some (v, st') /\
    preserves [] ex_rat st' /\ returns_new_pair ex_rat v st' /\
    mpfr_flags st' = mpfr_flags ex_rat.
Proof.
  split; [repeat split; example|].
  refine (Rational_DivMod_ownership 2%positive 3%positive None ex_rat
            (mk_object 1 (MPQ_Object (7 # 2)))
            (mk_object 1 (PyFraction_Object (1 # 3)))
            (7 # 2) (1 # 3) 1%positive ex_cx _ _ _ _ _ _); example.
Defined.

Lemma Real_DivMod_ownership_witness :
  (heap ex_inf !! 2%positive = Some (mk_object 1 (PyFloat_Object five)) /\
   heap ex_inf !! 3%positive = Some (mk_object 1 (MPFR_Object (MPFR.Inf true) 53 0)) /\
   (5 <= mem_avail ex_inf)%nat) /\
  exists v st' cx',
    GMPy_Real_DivMod 2%positive 3%positive None ex_inf = Some (v, st') /\
    preserves [resolve ex_inf None] ex_inf st' /\ returns_new_pair ex_inf v st' /\
    heap st' !! resolve ex_inf None = Some (mk_object 1 (CTXT_Object cx')).
Proof.
  split; [repeat split; example|].
  refine (Real_DivMod_ownership 2%positive 3%positive None ex_inf
            (mk_object 1 (PyFloat_Object five))
            (mk_object 1 (MPFR_Object (MPFR.Inf true) 53 0))
            five (MPFR.Inf true) 1%positive ex_cx _ _ _ _ _ _); example.
Defined.

Lemma Number_DivMod_protocol_witness :
  (0 < 64 /\
   heap ex_no_layer !! 2%positive = Some (mk_object 1 PyOther_Object) /\
   heap ex_no_layer !! 3%positive = Some (mk_object 1 (PyLong_Object 1)) /\
   heap ex_no_layer !! 1%positive = Some (mk_object 1 (CTXT_Object ex_cx)) /\
   (5 <= mem_avail ex_no_layer)%nat) /\
  exists v st',
    GMPy_Number_DivMod 64 2%positive 3%positive (Some 1%positive) ex_no_layer =
      Some (v, st') /\
    v <> Py_NotImplemented /\
    preserves [1%positive] ex_no_layer st' /\ returns_new_pair ex_no_layer v st'.
Proof.
  split; [repeat split; example|].
  refine (Number_DivMod_protocol 64 2%positive 3%positive 1%positive ex_no_layer
            (mk_object 1 PyOther_Object) (mk_object 1 (PyLong_Object 1))
            1%positive ex_cx _ _ _ _ _); example.
Defined.


(** * Running out of memory *)

Lemma GMPy_MPFR_New_fail c n cx st :
  heap st !! c = Some (mk_object n (CTXT_Object cx)) -> mem_avail st = O ->
  GMPy_MPFR_New 0 c st = Some (None, err_state PyExc_MemoryError "" st).
Proof.
  intros H Hm. unfold GMPy_MPFR_New, bind. rewrite (get_ctx_run _ _ _ _ H).
  apply alloc_fail, Hm.
Qed.

Lemma From_Integer_Temp_fail x c o v st :
  heap st !! x = Some o ->
  (ob_data o = PyLong_Object v \/ ob_data o = XMPZ_Object v) ->
  mem_avail st = O ->
  GMPy_MPZ_From_Integer_Temp x c st = Some (None, err_state PyExc_MemoryError "" st).
Proof.
  intros H D Hm. unfold GMPy_MPZ_From_Integer_Temp, bind.
  rewrite (get_object_run _ _ _ H). destruct D as [-> | ->]; apply alloc_fail, Hm.
Qed.

Lemma From_Number_Temp_fail x c o q st :
  heap st !! x = Some o -> mpq_temp_value (ob_data o) = Some q ->
  mem_avail st = O ->
  GMPy_MPQ_From_Number_Temp x c st = Some (None, err_state PyExc_MemoryError "" st).
Proof.
  intros H D Hm. unfold GMPy_MPQ_From_Number_Temp, bind.
  rewrite (get_object_run _ _ _ H).
  destruct (ob_data o); try discriminate; apply alloc_fail, Hm.
Qed.

Lemma From_Real_Temp_fail x c o n cx rng fl0 f p rc fl st :
  heap st !! x = Some o ->
  heap st !! c = Some (mk_object n (CTXT_Object cx)) ->
  mpfr_range st = rng -> mpfr_flags st = fl0 ->
  mpfr_temp cx rng (ob_data o) = Some (f, p, rc, fl) ->
  mem_avail st = O ->
  GMPy_MPFR_From_Real_Temp x 0 c st =
    Some (None, err_state PyExc_MemoryError "" (flags_state (MPFR.flags_or fl0 fl) st)).
Proof.
  intros H Hc <- <- T Hm. unfold GMPy_MPFR_From_Real_Temp, bind.
  rewrite (get_object_run _ _ _ H), (get_ctx_run _ _ _ _ Hc).
  destruct (ob_data o); cbn in T; try discriminate; injection T as <- <- <- <-;
    cbn [Z.eqb];
    try (erewrite mpfr_call_run by reflexivity; cbn beta iota;
         exact (alloc_fail _ (flags_state _ st) Hm)).
  rewrite flags_or_no_flags, flags_state_id. apply alloc_fail, Hm.
Qed.

(** Symbolic execution that takes the failing branch of an allocation when
    no memory is left. *)
Ltac step_mem :=
  lazymatch goal with
  | |- wp (alloc _) _ _ => first [prim alloc_run | prim alloc_fail]
  | |- wp (GMPy_MPFR_New _ _) _ _ =>
      first [prim GMPy_MPFR_New_run | prim GMPy_MPFR_New_fail]
  | |- wp (GMPy_MPZ_From_Integer_Temp _ _) _ _ =>
      first [ prim From_Integer_Temp_borrow | prim From_Integer_Temp_fresh
            | prim From_Integer_Temp_fail ]
  | |- wp (GMPy_MPQ_From_Number_Temp _ _) _ _ =>
      first [ prim From_Number_Temp_borrow | prim From_Number_Temp_fresh
            | prim From_Number_Temp_fail ]
  | |- wp (GMPy_MPFR_From_Real_Temp _ _ _) _ _ =>
      first [ prim From_Real_Temp_borrow | prim From_Real_Temp_fresh
            | prim From_Real_Temp_fail ]
  | |- wp (Py_XDECREF None) _ _ => unfold Py_XDECREF
  | |- _ => step_real
  end.

Ltac fails_clean_leaf Hm :=
  unfold fails_clean;
  split; [proj_state; reflexivity|];
  split; [ let l := fresh "l" in let o := fresh "o" in let Hl := fresh "Hl" in
           intros l o _ Hl; rewrite ?Pos.pred_succ; solve_lookup
         | proj_state; rewrite Hm; reflexivity ].

Lemma Integer_DivMod_no_memory si_bits x y context st n cx :
  heap st !! resolve st context = Some (mk_object n (CTXT_Object cx)) ->
  (mem_avail st < 3)%nat ->
  wp (GMPy_Integer_DivMod si_bits x y context) st
     (fun v st' => v = NULL /\ fails_clean PyExc_MemoryError "" st st').
Proof.
  intros Hc Hmem. unfold GMPy_Integer_DivMod.
  destruct (mem_avail st) as [|[|[|m]]] eqn:Hm; [| | | lia].
  all: repeat step_mem.
  all: (split; [reflexivity | fails_clean_leaf Hm]).
Qed.

Lemma Rational_DivMod_no_memory x y context st n cx :
  heap st !! resolve st context = Some (mk_object n (CTXT_Object cx)) ->
  (mem_avail st < 3)%nat ->
  wp (GMPy_Rational_DivMod x y context) st
     (fun v st' => v = NULL /\ fails_clean PyExc_MemoryError "" st st').
Proof.
  intros Hc Hmem. unfold GMPy_Rational_DivMod.
  destruct (mem_avail st) as [|[|[|m]]] eqn:Hm; [| | | lia].
  all: repeat step_mem.
  all: (split; [reflexivity | fails_clean_leaf Hm]).
Qed.

Lemma Real_DivMod_no_memory x y context st n cx :
  heap st !! resolve st context = Some (mk_object n (CTXT_Object cx)) ->
  (mem_avail st < 3)%nat ->
  wp (GMPy_Real_DivMod x y context) st
     (fun v st' => v = NULL /\ fails_clean PyExc_MemoryError "" st st').
Proof.
  intros Hc Hmem. unfold GMPy_Real_DivMod.
  destruct (mem_avail st) as [|[|[|m]]] eqn:Hm; [| | | lia].
  all: repeat step_mem.
  all: (split; [reflexivity | fails_clean_leaf Hm]).
Qed.

(** ** No memory for the temporaries *)

Ltac exec_mem := repeat (step_mem || branch).

Ltac fails_clean_pre P x y Hx Hy :=
  unfold fails_clean;
  split; [proj_state; reflexivity|];
  split; [ preserves_leaf P x y Hx Hy || preserves_leaf P x x Hx Hx
         | proj_state;
           match goal with Hm : mem_avail _ = (mem_avail _ - 3)%nat |- _ => rewrite Hm end;
           match goal with Hm : mem_avail _ = 3%nat |- _ => rewrite Hm end;
           reflexivity ].

Lemma Integer_DivMod_no_temporaries si_bits x y context st ox oy a b n cx :
  heap st !! x = Some ox -> ob_data ox = PyLong_Object a ->
  heap st !! y = Some oy -> ob_data oy = PyLong_Object b ->
  heap st !! resolve st context = Some (mk_object n (CTXT_Object cx)) ->
  mem_avail st = 3%nat ->
  wp (GMPy_Integer_DivMod si_bits x y context) st
     (fun v st' => v = NULL /\
        fails_clean PyExc_SystemError "Could not convert Integer to mpz." st st').
Proof.
  intros Hx Dx Hy Dy Hc Hmem.
  unfold GMPy_Integer_DivMod.
  run_prelude P.
  pose proof Hx as Hx0. pose proof Hy as Hy0.
  lift_old P Hx. lift_old P Hy. lift_old P Hc.
  prelude_unpack P.
  destruct ox as [rx dx], oy as [ry dy]; cbn [ob_data] in Dx, Dy. subst dx dy.
  simp_prog. exec_mem.
  split; [reflexivity | fails_clean_pre P x y Hx0 Hy0].
Qed.

Lemma Rational_DivMod_no_temporaries x y context st ox oy qx qy n cx :
  heap st !! x = Some ox -> rational_value (ob_data ox) = Some qx ->
  heap st !! y = Some oy -> rational_value (ob_data oy) = Some qy ->
  native_mpq (ob_data ox) && native_mpq (ob_data oy) = false ->
  heap st !! resolve st context = Some (mk_object n (CTXT_Object cx)) ->
  mem_avail st = 3%nat ->
  wp (GMPy_Rational_DivMod x y context) st
     (fun v st' => v = NULL /\
        fails_clean PyExc_SystemError "Could not convert Rational to mpq." st st').
Proof.
  intros Hx Vx Hy Vy Hnat Hc Hmem.
  destruct (rational_shape _ _ Vx) as [Rx Sx], (rational_shape _ _ Vy) as [Ry Sy].
  assert (Sxy : x = y -> oy = ox /\ qy = qx) by (intros ->; split; congruence).
  unfold GMPy_Rational_DivMod.
  run_prelude P.
  pose proof Hx as Hx0. pose proof Hy as Hy0.
  lift_old P Hx. lift_old P Hy. lift_old P Hc.
  prelude_unpack P.
  destruct ox as [rx dx], oy as [ry dy]; cbn [ob_data] in *.
  repeat step. rewrite Rx; simp_prog. repeat step. rewrite Ry; simp_prog.
  destruct (decide (x = y)) as [Exy|Exy];
    [ destruct (Sxy Exy) as [Eo Eq]; subst y qy; injection Eo as -> -> | ];
    (destruct Sx as [Dx | (tx & Tx & Ex)], Sy as [Dy | (ty & Ty & Ey)]).
  all: try subst dx; try subst dy.
  all: try (cbn in Tx; discriminate); try (cbn in Ty; discriminate).
  all: try discriminate Hnat.
  all: try (injection Dy as ->).
  all: try (rewrite Tx in Ty; injection Ty as ->).
  all: exec_mem.
  all: (split; [reflexivity | fails_clean_pre P x y Hx0 Hy0]).
Qed.

Lemma Real_DivMod_no_temporaries x y context st ox oy fx fy n cx :
  heap st !! x = Some ox -> real_value cx (ob_data ox) = Some fx ->
  heap st !! y = Some oy -> real_value cx (ob_data oy) = Some fy ->
  native_mpfr (ob_data ox) && native_mpfr (ob_data oy) = false ->
  heap st !! resolve st context = Some (mk_object n (CTXT_Object cx)) ->
  mem_avail st = 3%nat ->
  wp (GMPy_Real_DivMod x y context) st
     (fun v st' => v = NULL /\
        fails_clean PyExc_SystemError "Can not convert Real to 'mpfr'" st st').
Proof.
  intros Hx Vx Hy Vy Hnat Hc Hmem.
  destruct (real_shape _ _ _ Vx) as [Rx Sx], (real_shape _ _ _ Vy) as [Ry Sy].
  assert (Sxy : x = y -> oy = ox /\ fy = fx) by (intros ->; split; congruence).
  unfold GMPy_Real_DivMod.
  run_prelude_real P.
  pose proof Hx as Hx0. pose proof Hy as Hy0.
  lift_old P Hx. lift_old P Hy. lift_old P Hc.
  prelude_unpack P.
  destruct ox as [rx dx], oy as [ry dy]; cbn [ob_data] in *.
  repeat step_real. rewrite Rx; simp_prog. repeat step_real. rewrite Ry; simp_prog.
  destruct (decide (x = y)) as [Exy|Exy];
    [ destruct (Sxy Exy) as [Eo Eq]; subst y fy; injection Eo as -> -> | ];
    (destruct Sx as [(px & rcx & Dx) | (px & rcx & flx & Tx)],
              Sy as [(py & rcy & Dy) | (py & rcy & fly & Ty)]).
  all: try subst dx; try subst dy.
  all: try (cbn in Tx; discriminate); try (cbn in Ty; discriminate).
  all: try discriminate Hnat.
  all: try (injection Dy as -> ->).
  all: try (rewrite Tx in Ty; injection Ty as -> -> ->).
  all: exec_mem.
  all: (split; [reflexivity | fails_clean_pre P x y Hx0 Hy0]).
Qed.


(** X5. When fewer than three objects can be allocated, each of the three
    algorithms returns [NULL] with the [MemoryError] of the failed
    allocation, whatever the operands are: the containers it did obtain are
    released again, so that every object of the caller is what it was and
    the memory is what it was. *)
Theorem no_memory_for_containers si_bits x y context st n cx :
  heap st !! resolve st context = Some (mk_object n (CTXT_Object cx)) ->
  (mem_avail st < 3)%nat ->
  (exists st', GMPy_Integer_DivMod si_bits x y context st = Some (NULL, st') /\
               fails_clean PyExc_MemoryError "" st st') /\
  (exists st', GMPy_Rational_DivMod x y context st = Some (NULL, st') /\
               fails_clean PyExc_MemoryError "" st st') /\
  (exists st', GMPy_Real_DivMod x y context st = Some (NULL, st') /\
               fails_clean PyExc_MemoryError "" st st').
Proof.
  intros Hc Hmem.
  pose proof (Integer_DivMod_no_memory si_bits x y context st n cx Hc Hmem) as H1.
  pose proof (Rational_DivMod_no_memory x y context st n cx Hc Hmem) as H2.
  pose proof (Real_DivMod_no_memory x y context st n cx Hc Hmem) as H3.
  apply wp_run in H1, H2, H3.
  destruct H1 as (v1 & s1 & R1 & -> & F1), H2 as (v2 & s2 & R2 & -> & F2),
           H3 as (v3 & s3 & R3 & -> & F3).
  eauto 10.
Qed.

(** X6. When the three containers can be allocated but no temporary for an
    operand that needs one, the algorithm fails with its [SystemError] on
    the conversion, which replaces the [MemoryError]; the containers, the
    temporary it may have got and the reference it may have taken on the
    other operand are released: every object of the caller is what it was
    and the memory is what it was. *)
Theorem no_memory_for_temporaries si_bits x y context st ox oy n cx :
  heap st !! x = Some ox -> heap st !! y = Some oy ->
  heap st !! resolve st context = Some (mk_object n (CTXT_Object cx)) ->
  mem_avail st = 3%nat ->
  (forall a b,
     ob_data ox = PyLong_Object a -> ob_data oy = PyLong_Object b ->
     exists st', GMPy_Integer_DivMod si_bits x y context st = Some (NULL, st') /\
       fails_clean PyExc_SystemError "Could not convert Integer to mpz." st st') /\
  (forall qx qy,
     rational_value (ob_data ox) = Some qx -> rational_value (ob_data oy) = Some qy ->
     native_mpq (ob_data ox) && native_mpq (ob_data oy) = false ->
     exists st', GMPy_Rational_DivMod x y context st = Some (NULL, st') /\
       fails_clean PyExc_SystemError "Could not convert Rational to mpq." st st') /\
  (forall fx fy,
     real_value cx (ob_data ox) = Some fx -> real_value cx (ob_data oy) = Some fy ->
     native_mpfr (ob_data ox) && native_mpfr (ob_data oy) = false ->
     exists st', GMPy_Real_DivMod x y context st = Some (NULL, st') /\
       fails_clean PyExc_SystemError "Can not convert Real to 'mpfr'" st st').
Proof.
  intros Hx Hy Hc Hmem. repeat split.
  - intros a b Dx Dy.
    pose proof (Integer_DivMod_no_temporaries si_bits x y context st ox oy a b n cx
                  Hx Dx Hy Dy Hc Hmem) as H.
    apply wp_run in H. destruct H as (v & s & R & -> & F). eauto.
  - intros qx qy Vx Vy Hn.
    pose proof (Rational_DivMod_no_temporaries x y context st ox oy qx qy n cx
                  Hx Vx Hy Vy Hn Hc Hmem) as H.
    apply wp_run in H. destruct H as (v & s & R & -> & F). eauto.
  - intros fx fy Vx Vy Hn.
    pose proof (Real_DivMod_no_temporaries x y context st ox oy fx fy n cx
                  Hx Vx Hy Vy Hn Hc Hmem) as H.
    apply wp_run in H. destruct H as (v & s & R & -> & F). eauto.
Qed.

Lemma no_memory_for_containers_witness :
  (heap (with_mem 2 ex_int) !! resolve (with_mem 2 ex_int) None =
     Some (mk_object 1 (CTXT_Object ex_cx)) /\
   (mem_avail (with_mem 2 ex_int) < 3)%nat) /\
  exists st',
    GMPy_Integer_DivMod 64 2%positive 3%positive None (with_mem 2 ex_int) =
      Some (NULL, st') /\
    fails_clean PyExc_MemoryError "" (with_mem 2 ex_int) st'.
Proof.
  split; [repeat split; example|].
  refine (proj1 (no_memory_for_containers 64 2%positive 3%positive None
                   (with_mem 2 ex_int) 1%positive ex_cx _ _)); example.
Defined.

Lemma no_memory_for_temporaries_witness :
  (heap (with_mem 3 ex_longs) !! 2%positive = Some (mk_object 1 (PyLong_Object 3)) /\
   heap (with_mem 3 ex_longs) !! 3%positive = Some (mk_object 1 (PyLong_Object 2)) /\
   mem_avail (with_mem 3 ex_longs) = 3%nat) /\
  exists st',
    GMPy_Integer_DivMod 64 2%positive 3%positive None (with_mem 3 ex_longs) =
      Some (NULL, st') /\
    fails_clean PyExc_SystemError "Could not convert Integer to mpz."
      (with_mem 3 ex_longs) st'.
Proof.
  split; [repeat split; example|].
  refine (proj1 (no_memory_for_temporaries 64 2%positive 3%positive None
                   (with_mem 3 ex_longs)
                   (mk_object 1 (PyLong_Object 3)) (mk_object 1 (PyLong_Object 2))
                   1%positive ex_cx _ _ _ _) 3 2 _ _); example.
Defined.


(** * More on the Rational algorithm *)

(** The remainder of a floor division lies between zero and the divisor. *)
Lemma Qfloor_rem_range (x y r : Q) :
  (~ y == 0 -> r == x - inject_Z (Qfloor (x / y)) * y ->
   (0 < y -> 0 <= r /\ r < y) /\ (y < 0 -> y < r /\ r <= 0))%Q.
Proof.
  intros Hy Hr.
  pose proof (Qfloor_le (x / y)) as H1.
  pose proof (Qlt_floor (x / y)) as H2.
  rewrite inject_Z_plus in H2. change (inject_Z 1) with 1%Q in H2.
  assert (Hx : (x == (x / y) * y)%Q) by (field; exact Hy).
  set (t := (x / y)%Q) in *. set (f := inject_Z (Qfloor t)) in *.
  assert (Hr' : (r == (t - f) * y)%Q) by (rewrite Hr; rewrite Hx at 1; ring).
  split; intros Hs; rewrite Hr'; split; nra.
Qed.

Lemma Qfloor_inject_div (a b : Z) : b <> 0 -> Qfloor (inject_Z a / inject_Z b) = a / b.
Proof.
  intros Hb. destruct b as [|p|p]; [congruence | |].
  - unfold Qdiv, Qinv, inject_Z, Qmult, Qfloor. cbn [Qnum Qden].
    rewrite Z.mul_1_r, Pos.mul_1_l. reflexivity.
  - unfold Qdiv, Qinv, inject_Z, Qmult, Qfloor. cbn [Qnum Qden].
    rewrite Pos.mul_1_l. change (Z.neg p) with (- Z.pos p).
    rewrite <- (Z.div_opp_opp a (- Z.pos p)) by lia.
    rewrite Z.opp_involutive. f_equal. lia.
Qed.

Lemma Qred_inject_Z (z : Z) : Qred (inject_Z z) = inject_Z z.
Proof.
  unfold Qred, inject_Z.
  pose proof (Z.ggcd_correct_divisors z 1) as H. pose proof (Z.ggcd_gcd z 1) as G.
  destruct (Z.ggcd z 1) as [g [aa bb]]. cbn [fst snd] in *.
  rewrite Z.gcd_1_r in G. subst g. destruct H as [H1 H2].
  assert (Ea : aa = z) by lia. assert (Eb : bb = 1) by lia. subst aa bb. reflexivity.
Qed.

Lemma integer_is_rational d z :
  integer_value d = Some z -> rational_value d = Some (inject_Z z).
Proof. destruct d; cbn; intros H; try discriminate; injection H as ->; reflexivity. Qed.

(** X7. For a nonzero divisor the remainder that [GMPy_Rational_DivMod]
    returns is zero or has the sign of the divisor and is smaller than it in
    magnitude, and it is stored in lowest terms. *)
Theorem Rational_DivMod_remainder_range x y context st ox oy qx qy n cx :
  heap st !! x = Some ox -> rational_value (ob_data ox) = Some qx ->
  heap st !! y = Some oy -> rational_value (ob_data oy) = Some qy ->
  heap st !! resolve st context = Some (mk_object n (CTXT_Object cx)) ->
  (5 <= mem_avail st)%nat ->
  (~ qy == 0)%Q ->
  exists r st' quo rem,
    GMPy_Rational_DivMod x y context st = Some (Ref r, st') /\
    read_pair st' r = Some (MPZ_Object quo, MPQ_Object rem) /\
    Qred rem = rem /\
    ((0 < qy -> 0 <= rem /\ rem < qy) /\ (qy < 0 -> qy < rem /\ rem <= 0))%Q.
Proof.
  intros Hx Vx Hy Vy Hc Hmem Hnz.
  pose proof (Rational_DivMod_spec x y context st ox oy qx qy n cx
                Hx Vx Hy Vy Hc Hmem) as H.
  apply wp_run in H. destruct H as (v & st' & Hrun & [_ Hpost] & _).
  destruct (Hpost Hnz) as (r & quo & rem & -> & Hp & Hq & Hr & _).
  exists r, st', quo, rem. split; [exact Hrun|]. split; [exact Hp|]. split.
  - rewrite Hr. apply Qred_complete, Qred_correct.
  - apply (Qfloor_rem_range qx qy rem Hnz). rewrite Hr, Qred_correct, Hq. reflexivity.
Qed.

(** X8. On two Integer operands with a nonzero divisor the Rational
    algorithm agrees with the Integer one: the quotient is the floor
    quotient of the integers and the remainder is their floor remainder, as
    a rational of denominator 1. *)
Theorem Rational_DivMod_on_integers x y context st ox oy a b n cx :
  heap st !! x = Some ox -> integer_value (ob_data ox) = Some a ->
  heap st !! y = Some oy -> integer_value (ob_data oy) = Some b ->
  heap st !! resolve st context = Some (mk_object n (CTXT_Object cx)) ->
  (5 <= mem_avail st)%nat ->
  b <> 0 ->
  exists r st',
    GMPy_Rational_DivMod x y context st = Some (Ref r, st') /\
    read_pair st' r = Some (MPZ_Object (a / b), MPQ_Object (inject_Z (a mod b))).
Proof.
  intros Hx Vx Hy Vy Hc Hmem Hb.
  pose proof (Rational_DivMod_spec x y context st ox oy _ _ n cx
                Hx (integer_is_rational _ _ Vx) Hy (integer_is_rational _ _ Vy) Hc Hmem) as H.
  apply wp_run in H. destruct H as (v & st' & Hrun & [_ Hpost] & _).
  assert (Hnz : (~ inject_Z b == 0)%Q).
  { unfold Qeq. cbn. lia. }
  destruct (Hpost Hnz) as (r & quo & rem & -> & Hp & Hq & Hr & _).
  exists r, st'. split; [exact Hrun|].
  rewrite Qfloor_inject_div in Hq by exact Hb. subst quo.
  assert (Er : rem = inject_Z (a mod b)).
  { rewrite Hr. rewrite <- (Qred_inject_Z (a mod b)). apply Qred_complete.
    rewrite Z.mod_eq by exact Hb.
    unfold Z.sub. rewrite inject_Z_plus, inject_Z_opp, inject_Z_mult. ring. }
  rewrite Hp, Er. reflexivity.
Qed.

Lemma Rational_DivMod_remainder_range_witness :
  (heap ex_rat !! 2%positive = Some (mk_object 1 (MPQ_Object (7 # 2))) /\
   heap ex_rat !! 3%positive = Some (mk_object 1 (PyFraction_Object (1 # 3))) /\
   (5 <= mem_avail ex_rat)%nat /\ (~ 1 # 3 == 0)%Q) /\
  exists r st' quo rem,
    GMPy_Rational_DivMod 2%positive 3%positive None ex_rat = Some (Ref r, st') /\
    read_pair st' r = Some (MPZ_Object quo, MPQ_Object rem) /\
    Qred rem = rem /\
    ((0 < 1 # 3 -> 0 <= rem /\ rem < 1 # 3) /\ (1 # 3 < 0 -> 1 # 3 < rem /\ rem <= 0))%Q.
Proof.
  split; [repeat split; example|].
  refine (Rational_DivMod_remainder_range 2%positive 3%positive None ex_rat
            (mk_object 1 (MPQ_Object (7 # 2)))
            (mk_object 1 (PyFraction_Object (1 # 3)))
            (7 # 2) (1 # 3) 1%positive ex_cx _ _ _ _ _ _ _); example.
Defined.

Lemma Rational_DivMod_on_integers_witness :
  (heap ex_int !! 2%positive = Some (mk_object 1 (MPZ_Object (-7))) /\
   heap ex_int !! 3%positive = Some (mk_object 1 (PyLong_Object 2)) /\
   (5 <= mem_avail ex_int)%nat /\ 2 <> 0) /\
  exists r st',
    GMPy_Rational_DivMod 2%positive 3%positive None ex_int = Some (Ref r, st') /\
    read_pair st' r = Some (MPZ_Object (-7 / 2), MPQ_Object (inject_Z (-7 mod 2))).
Proof.
  split; [repeat split; example|].
  refine (Rational_DivMod_on_integers 2%positive 3%positive None ex_int
            (mk_object 1 (MPZ_Object (-7))) (mk_object 1 (PyLong_Object 2))
            (-7) 2 1%positive ex_cx _ _ _ _ _ _ _); example.
Defined.


(** * The other operator slots and the other ways into the method *)

(** X9. The slot of [mpq] tries the layers Rational, Real, Complex in this
    order, the slot of [mpfr] the layers Real, Complex, and both return
    [Py_NotImplemented] without touching the state when the operands share
    none of them; two Integer operands run the Rational algorithm in the
    first and the Real algorithm in the second.  The slot of [mpc] makes no
    test: it fails with the type error of the Complex algorithm on any two
    operands and never returns [Py_NotImplemented]. *)
Theorem slots_dispatch si_bits x y st ox oy :
  heap st !! x = Some ox -> heap st !! y = Some oy ->
  GMPy_mpq_divmod_fast x y st =
    match first_common [Rational; Real; Complex] (ob_data ox) (ob_data oy) with
    | Some L => algorithm si_bits L x y None st
    | None => Some (Py_NotImplemented, st)
    end /\
  GMPy_mpfr_divmod_fast x y st =
    match first_common [Real; Complex] (ob_data ox) (ob_data oy) with
    | Some L => algorithm si_bits L x y None st
    | None => Some (Py_NotImplemented, st)
    end /\
  GMPy_mpc_divmod_fast x y st =
    Some (NULL,
          err_state PyExc_TypeError "can't take floor or mod of complex number." st).
Proof.
  intros Hx Hy. split; [| split; [| reflexivity]].
  - unfold GMPy_mpq_divmod_fast, IS_RATIONAL, IS_REAL, IS_COMPLEX, first_common, bind.
    cbn [List.find in_layer].
    rewrite (andM_tests is_RATIONAL x y st ox oy Hx Hy).
    destruct (is_RATIONAL (ob_data ox) && is_RATIONAL (ob_data oy)); [reflexivity|].
    rewrite (andM_tests is_REAL x y st ox oy Hx Hy).
    destruct (is_REAL (ob_data ox) && is_REAL (ob_data oy)); [reflexivity|].
    rewrite (andM_tests is_COMPLEX x y st ox oy Hx Hy).
    destruct (is_COMPLEX (ob_data ox) && is_COMPLEX (ob_data oy)); reflexivity.
  - unfold GMPy_mpfr_divmod_fast, IS_REAL, IS_COMPLEX, first_common, bind.
    cbn [List.find in_layer].
    rewrite (andM_tests is_REAL x y st ox oy Hx Hy).
    destruct (is_REAL (ob_data ox) && is_REAL (ob_data oy)); [reflexivity|].
    rewrite (andM_tests is_COMPLEX x y st ox oy Hx Hy).
    destruct (is_COMPLEX (ob_data ox) && is_COMPLEX (ob_data oy)); reflexivity.
Qed.

(** X10. Called with a tuple that does not hold exactly two arguments, the
    method fails with a type error before it looks at its context: nothing
    but the error indicator changes, and a read-only context is not
    cloned. *)
Theorem Context_DivMod_arity si_bits self args st o items :
  heap st !! args = Some o -> ob_data o = PyTuple_Object items ->
  length items <> 2%nat ->
  exists st',
    GMPy_Context_DivMod si_bits self args st = Some (NULL, st') /\
    only_error PyExc_TypeError "div_mod() requires 2 arguments." st st'.
Proof.
  intros Ha Da Hlen. eexists. split; [| apply only_error_err_state].
  apply wp_run_eq. unfold GMPy_Context_DivMod.
  repeat step_ctx.
  destruct (Nat.eqb_spec (length items) 2) as [E|E]; [contradiction|].
  cbn [negb]. repeat step_ctx. split; reflexivity.
Qed.

(** X11. Called with no context object, or with an object that is no
    context, the method takes the current context: it sets the exponent
    range of MPFR from it, holds one more reference on it while the
    dispatcher runs with it, and gives the reference back.  The current
    context is used as it is, read-only or not. *)
Theorem Context_DivMod_current si_bits self args st n cx nt a0 a1 o0 o1 :
  0 < si_bits ->
  heap st !! args = Some (mk_object nt (PyTuple_Object [Some a0; Some a1])) ->
  heap st !! a0 = Some o0 -> heap st !! a1 = Some o1 ->
  heap st !! current_context st = Some (mk_object n (CTXT_Object cx)) ->
  (self = None \/
   exists s os, self = Some s /\ heap st !! s = Some os /\ is_CTXT (ob_data os) = false) ->
  (5 <= mem_avail st)%nat ->
  exists v st1 cx1,
    GMPy_Number_DivMod si_bits a0 a1 (Some (current_context st))
      (upd (current_context st) (mk_object (Pos.succ n) (CTXT_Object cx))
         (range_state (MPFR.mk_range (ctx_emin cx) (ctx_emax cx)) st)) = Some (v, st1) /\
    heap st1 !! current_context st = Some (mk_object (Pos.succ n) (CTXT_Object cx1)) /\
    flags_kept cx cx1 /\
    GMPy_Context_DivMod si_bits self args st =
      Some (v, upd (current_context st) (mk_object n (CTXT_Object cx1)) st1).
Proof.
  intros Hbits Hargs H0 H1 Hc Hself Hmem.
  set (c := current_context st) in *.
  set (S0 := range_state (MPFR.mk_range (ctx_emin cx) (ctx_emax cx)) st).
  assert (Hk1 : heap (upd c (mk_object (Pos.succ n) (CTXT_Object cx)) S0) !! c =
                Some (mk_object (Pos.succ n) (CTXT_Object cx)))
    by apply upd_lookup_eq.
  assert (H0' : exists o0', heap (upd c (mk_object (Pos.succ n) (CTXT_Object cx)) S0)
                              !! a0 = Some o0').
  { destruct (decide (c = a0)) as [<-|Hne]; [eauto|].
    exists o0. rewrite upd_lookup_ne by exact Hne. exact H0. }
  assert (H1' : exists o1', heap (upd c (mk_object (Pos.succ n) (CTXT_Object cx)) S0)
                              !! a1 = Some o1').
  { destruct (decide (c = a1)) as [<-|Hne]; [eauto|].
    exists o1. rewrite upd_lookup_ne by exact Hne. exact H1. }
  destruct H0' as [o0' H0'], H1' as [o1' H1'].
  assert (Hm1 : (5 <= mem_avail (upd c (mk_object (Pos.succ n) (CTXT_Object cx)) S0))%nat)
    by (cbn; lia).
  destruct (proj1 (wp_run _ _ _)
              (Number_DivMod_frame si_bits a0 a1 c _ o0' o1' _ _ Hbits H0' H1' Hk1 Hm1))
    as (v & st1 & Hrun & cx1 & Hk & Hkept & Hframe).
  exists v, st1, cx1. split; [exact Hrun|]. split; [exact Hk|].
  split; [exact Hkept|].
  assert (Hc' : heap st !! resolve st None = Some (mk_object n (CTXT_Object cx)))
    by exact Hc.
  apply wp_run_eq. unfold GMPy_Context_DivMod.
  repeat step_ctx. cbn [length Nat.eqb negb].
  destruct Hself as [-> | (s & os & -> & Hs & Hnc)].
  - repeat step_ctx. cbn [resolve]. fold c. fold S0.
    repeat step_ctx.
    unfold wp at 1. rewrite Hrun.
    repeat step_ctx. rewrite Pos.pred_succ. split; reflexivity.
  - repeat step_ctx. rewrite Hnc. repeat step_ctx. cbn [resolve]. fold c. fold S0.
    repeat step_ctx.
    unfold wp at 1. rewrite Hrun.
    repeat step_ctx. rewrite Pos.pred_succ. split; reflexivity.
Qed.

Lemma GMPy_CTXT_Copy_fail s n cx st :
  heap st !! s = Some (mk_object n (CTXT_Object cx)) -> mem_avail st = O ->
  GMPy_CTXT_Copy s st = Some (None, err_state PyExc_MemoryError "" st).
Proof.
  intros H Hm. unfold GMPy_CTXT_Copy, bind. rewrite (get_ctx_run _ _ _ _ H).
  apply alloc_fail, Hm.
Qed.

(** X12. When a read-only context cannot be cloned, the method returns
    [NULL] with the error of the allocation; the dispatcher is not run and
    nothing else changes. *)
Theorem Context_DivMod_clone_fails si_bits s args st n cx nt a0 a1 :
  heap st !! args = Some (mk_object nt (PyTuple_Object [Some a0; Some a1])) ->
  heap st !! s = Some (mk_object n (CTXT_Object cx)) ->
  ctx_readonly cx = true ->
  mem_avail st = O ->
  exists st',
    GMPy_Context_DivMod si_bits (Some s) args st = Some (NULL, st') /\
    only_error PyExc_MemoryError "" st st'.
Proof.
  intros Hargs Hs Hro Hmem. eexists. split; [| apply only_error_err_state].
  apply wp_run_eq. unfold GMPy_Context_DivMod.
  repeat step_ctx. cbn [length Nat.eqb negb].
  repeat step_ctx. rewrite Hro.
  eapply wp_eq; [apply (GMPy_CTXT_Copy_fail s n cx st Hs Hmem)|].
  repeat step_ctx. split; reflexivity.
Qed.


Lemma slots_dispatch_witness :
  (heap ex_int !! 2%positive = Some (mk_object 1 (MPZ_Object (-7))) /\
   heap ex_int !! 3%positive = Some (mk_object 1 (PyLong_Object 2))) /\
  GMPy_mpq_divmod_fast 2%positive 3%positive ex_int =
    match first_common [Rational; Real; Complex] (MPZ_Object (-7)) (PyLong_Object 2) with
    | Some L => algorithm 64 L 2%positive 3%positive None ex_int
    | None => Some (Py_NotImplemented, ex_int)
    end.
Proof.
  split; [repeat split; example|].
  refine (proj1 (slots_dispatch 64 2%positive 3%positive ex_int
                   (mk_object 1 (MPZ_Object (-7))) (mk_object 1 (PyLong_Object 2))
                   _ _)); example.
Defined.

Lemma Context_DivMod_arity_witness :
  (heap ex_one_arg !! 4%positive =
     Some (mk_object 1 (PyTuple_Object [Some 2%positive])) /\
   length [Some 2%positive] <> 2%nat) /\
  exists st',
    GMPy_Context_DivMod 64 (Some 1%positive) 4%positive ex_one_arg = Some (NULL, st') /\
    only_error PyExc_TypeError "div_mod() requires 2 arguments." ex_one_arg st'.
Proof.
  split; [repeat split; example|].
  refine (Context_DivMod_arity 64 (Some 1%positive) 4%positive ex_one_arg
            (mk_object 1 (PyTuple_Object [Some 2%positive])) [Some 2%positive] _ _ _);
    example.
Defined.

Lemma Context_DivMod_current_witness :
  (0 < 64 /\
   heap ex_int !! 4%positive =
     Some (mk_object 1 (PyTuple_Object [Some 2%positive; Some 3%positive])) /\
   heap ex_int !! current_context ex_int = Some (mk_object 1 (CTXT_Object ex_cx)) /\
   (5 <= mem_avail ex_int)%nat) /\
  exists v st1 cx1,
    heap st1 !! current_context ex_int = Some (mk_object 2 (CTXT_Object cx1)) /\
    GMPy_Context_DivMod 64 None 4%positive ex_int =
      Some (v, upd (current_context ex_int) (mk_object 1 (CTXT_Object cx1)) st1).
Proof.
  split; [repeat split; example|].
  destruct (Context_DivMod_current 64 None 4%positive ex_int 1%positive ex_cx
              1%positive 2%positive 3%positive
              (mk_object 1 (MPZ_Object (-7))) (mk_object 1 (PyLong_Object 2))
              ltac:(example) ltac:(example) ltac:(example) ltac:(example)
              ltac:(example) ltac:(example) ltac:(example))
    as (v & st1 & cx1 & _ & Hk & _ & Hrun).
  exists v, st1, cx1. auto.
Defined.

Lemma Context_DivMod_clone_fails_witness :
  (heap (with_mem 0 ex_readonly) !! 1%positive =
     Some (mk_object 1 (CTXT_Object (example_context TRAP_NONE true))) /\
   ctx_readonly (example_context TRAP_NONE true) = true /\
   mem_avail (with_mem 0 ex_readonly) = O) /\
  exists st',
    GMPy_Context_DivMod 64 (Some 1%positive) 4%positive (with_mem 0 ex_readonly) =
      Some (NULL, st') /\
    only_error PyExc_MemoryError "" (with_mem 0 ex_readonly) st'.
Proof.
  split; [repeat split; example|].
  refine (Context_DivMod_clone_fails 64 1%positive 4%positive (with_mem 0 ex_readonly)
            1%positive (example_context TRAP_NONE true) 1%positive 2%positive 3%positive
            _ _ _ _); example.
Defined.

(** * More on the Real algorithm *)

Lemma traps_pure_kind fl c e msg :
  traps_pure fl c = Some (e, msg) ->
  e = GMPyExc_Underflow \/ e = GMPyExc_Overflow \/ e = GMPyExc_Inexact.
Proof.
  unfold traps_pure.
  repeat match goal with
         | |- context [if ?c then _ else _] => destruct c
         end; intros H; inversion H; auto.
Qed.

Lemma finite_operands_pure cx sx mx ex sy my ey :
  exists fl res,
    Real_DivMod_pure cx (MPFR.Num sx mx ex) (MPFR.Num sy my ey) =
      mk_outcome (merge_flags fl cx) (Some fl) res /\
    forall e msg, res = inl (e, msg) ->
      e = GMPyExc_Underflow \/ e = GMPyExc_Overflow \/ e = GMPyExc_Inexact.
Proof.
  unfold Real_DivMod_pure, core_pure, divzero_pure, compute_pure.
  cbn [MPFR.mpfr_zero_p MPFR.mpfr_nan_p MPFR.mpfr_inf_p orb fst snd
       c_ctx c_quo c_rem c_flags].
  destruct (traps_pure _ _) as [[e msg]|] eqn:E; eexists _, _; (split; [reflexivity|]);
    intros e' msg' H; inversion H; subst.
  exact (traps_pure_kind _ _ _ _ E).
Qed.

(** X13. On two finite nonzero operands [GMPy_Real_DivMod] leaves the
    invalid-operation, the divide-by-zero and the range-error flag of the
    context as they were, and if it fails, it fails with the underflow, the
    overflow or the inexact error. *)
Theorem Real_DivMod_finite_operands x y context st ox oy sx mx ex sy my ey n cx :
  heap st !! x = Some ox -> real_value cx (ob_data ox) = Some (MPFR.Num sx mx ex) ->
  heap st !! y = Some oy -> real_value cx (ob_data oy) = Some (MPFR.Num sy my ey) ->
  heap st !! resolve st context = Some (mk_object n (CTXT_Object cx)) ->
  (5 <= mem_avail st)%nat ->
  exists v st' cx',
    GMPy_Real_DivMod x y context st = Some (v, st') /\
    heap st' !! resolve st context = Some (mk_object n (CTXT_Object cx')) /\
    ctx_invalid cx' = ctx_invalid cx /\
    ctx_divzero cx' = ctx_divzero cx /\
    ctx_erange cx' = ctx_erange cx /\
    (v = NULL ->
     exists e msg, err_indicator st' = Some (e, msg) /\
       (e = GMPyExc_Underflow \/ e = GMPyExc_Overflow \/ e = GMPyExc_Inexact)).
Proof.
  intros Hx Vx Hy Vy Hc Hmem.
  pose proof (Real_DivMod_spec x y context st ox oy _ _ n cx Hx Vx Hy Vy Hc Hmem) as H.
  apply wp_run in H. destruct H as (v & st' & Hrun & Hpost).
  destruct (finite_operands_pure cx sx mx ex sy my ey) as (fl & res & E & Hkind).
  unfold Real_DivMod_post in Hpost. cbv zeta in Hpost. rewrite E in Hpost.
  cbn [out_ctx out_flags out_result] in Hpost.
  destruct Hpost as (Hk & _ & _ & Hres).
  exists v, st', (merge_flags fl cx). split; [exact Hrun|]. split; [exact Hk|].
  split; [reflexivity|]. split; [reflexivity|]. split; [reflexivity|].
  intros ->. destruct res as [[e msg]|[q r]].
  - destruct Hres as (_ & He & _). exists e, msg. split; [exact He|].
    exact (Hkind e msg eq_refl).
  - destruct Hres as (r0 & Hv & _). discriminate.
Qed.

Lemma special_trapped_pure cx fx fy q r :
  special_values cx fx fy = Some (q, r) ->
  MPFR.mpfr_zero_p fy = false ->
  traps_on cx TRAP_INVALID = true ->
  Real_DivMod_pure cx fx fy = mk_outcome (set_invalid cx) None (inl invalid_error).
Proof.
  intros Hs Hz Ht. unfold Real_DivMod_pure, core_pure, divzero_pure, compute_pure.
  rewrite Hz. cbn [fst snd c_ctx c_quo c_rem c_flags]. rewrite Ht.
  destruct fx as [|sx|sx|sx mx ex], fy as [|sy|sy|sy my ey]; cbn in Hs, Hz;
    try discriminate; reflexivity.
Qed.

(** X14. With the trap on invalid operations enabled, Real divmod on a NaN,
    on an infinite dividend or on an infinite divisor fails with the
    invalid-operation error: the flag is set on the context, no other field
    of the context changes, and the containers are released. *)
Theorem Real_DivMod_invalid_trapped x y context st ox oy fx fy n cx q r :
  heap st !! x = Some ox -> real_value cx (ob_data ox) = Some fx ->
  heap st !! y = Some oy -> real_value cx (ob_data oy) = Some fy ->
  heap st !! resolve st context = Some (mk_object n (CTXT_Object cx)) ->
  (5 <= mem_avail st)%nat ->
  special_values cx fx fy = Some (q, r) ->
  MPFR.mpfr_zero_p fy = false ->
  traps_on cx TRAP_INVALID = true ->
  exists st',
    GMPy_Real_DivMod x y context st = Some (NULL, st') /\
    err_indicator st' = Some (GMPyExc_Invalid, "'mpfr' invalid operation in divmod"%string) /\
    heap st' !! resolve st context = Some (mk_object n (CTXT_Object (set_invalid cx))) /\
    mem_avail st' = mem_avail st.
Proof.
  intros Hx Vx Hy Vy Hc Hmem Hs Hz Ht.
  pose proof (Real_DivMod_spec x y context st ox oy _ _ n cx Hx Vx Hy Vy Hc Hmem) as H.
  apply wp_run in H. destruct H as (v & st' & Hrun & Hpost).
  unfold Real_DivMod_post in Hpost. cbv zeta in Hpost.
  rewrite (special_trapped_pure cx fx fy q r Hs Hz Ht) in Hpost.
  cbn [out_ctx out_flags out_result] in Hpost.
  destruct Hpost as (Hk & _ & _ & -> & He & Hm).
  exists st'. auto.
Qed.

Lemma merge_no_flags cx : merge_flags MPFR.no_flags cx = cx.
Proof.
  destruct cx. unfold merge_flags. cbn. rewrite !orb_false_r. reflexivity.
Qed.

Lemma zero_dividend_pure cx a b my ey :
  exists rq rr,
    Real_DivMod_pure cx (MPFR.Zero a) (MPFR.Num b my ey) =
      mk_outcome cx (Some MPFR.no_flags)
        (inr ((MPFR.Zero (xorb a b), rq),
              (MPFR.Zero (negb (is_RNDD (ctx_mpfr_round cx))), rr))).
Proof.
  unfold Real_DivMod_pure, core_pure, divzero_pure, compute_pure.
  cbn [MPFR.mpfr_zero_p MPFR.mpfr_nan_p MPFR.mpfr_inf_p orb fst snd
       c_ctx c_quo c_rem c_flags].
  unfold subnormalize_pure, res_cell.
  destruct (ctx_subnormalize cx), a, b, (ctx_mpfr_round cx);
    cbn; rewrite ?merge_no_flags; eexists _, _; reflexivity.
Qed.

(** X15. A zero dividend with a finite nonzero divisor gives a zero
    quotient of the sign of x / y and a zero remainder whose sign does not
    depend on the operands: it is negative, unless the context rounds toward
    minus infinity.  No flag is raised, so the call succeeds under any traps
    and the context is what it was. *)
Theorem Real_DivMod_zero_dividend x y context st ox oy a b my ey n cx :
  heap st !! x = Some ox -> real_value cx (ob_data ox) = Some (MPFR.Zero a) ->
  heap st !! y = Some oy -> real_value cx (ob_data oy) = Some (MPFR.Num b my ey) ->
  heap st !! resolve st context = Some (mk_object n (CTXT_Object cx)) ->
  (5 <= mem_avail st)%nat ->
  exists res st' rq rr,
    GMPy_Real_DivMod x y context st = Some (Ref res, st') /\
    read_pair st' res =
      Some (MPFR_Object (MPFR.Zero (xorb a b)) (ctx_mpfr_prec cx) rq,
            MPFR_Object (MPFR.Zero (negb (is_RNDD (ctx_mpfr_round cx))))
              (ctx_mpfr_prec cx) rr) /\
    heap st' !! resolve st context = Some (mk_object n (CTXT_Object cx)) /\
    mpfr_flags st' = MPFR.no_flags.
Proof.
  intros Hx Vx Hy Vy Hc Hmem.
  pose proof (Real_DivMod_spec x y context st ox oy _ _ n cx Hx Vx Hy Vy Hc Hmem) as H.
  apply wp_run in H. destruct H as (v & st' & Hrun & Hpost).
  destruct (zero_dividend_pure cx a b my ey) as (rq & rr & E).
  unfold Real_DivMod_post in Hpost. cbv zeta in Hpost. rewrite E in Hpost.
  cbn [out_ctx out_flags out_result fst snd] in Hpost.
  destruct Hpost as (Hk & _ & Hfl & res & -> & Hp & _).
  exists res, st', rq, rr. split; [exact Hrun|]. split; [exact Hp|].
  split; [exact Hk | exact (Hfl _ eq_refl)].
Qed.

(** X16. What Real divmod returns and what it leaves in the context do not
    depend on the flags and on the exponent range that MPFR holds when the
    function is entered: the range is set from the context and the flags are
    cleared before the computation. *)
Theorem Real_DivMod_ignores_entry_state x y context st ox oy fx fy n cx fl rng :
  heap st !! x = Some ox -> real_value cx (ob_data ox) = Some fx ->
  heap st !! y = Some oy -> real_value cx (ob_data oy) = Some fy ->
  heap st !! resolve st context = Some (mk_object n (CTXT_Object cx)) ->
  (5 <= mem_avail st)%nat ->
  exists v1 st1 v2 st2,
    GMPy_Real_DivMod x y context st = Some (v1, st1) /\
    GMPy_Real_DivMod x y context (flags_state fl (range_state rng st)) = Some (v2, st2) /\
    heap st1 !! resolve st context = heap st2 !! resolve st context /\
    (v1 = NULL <-> v2 = NULL) /\
    (v1 = NULL -> err_indicator st1 = err_indicator st2) /\
    (forall r1 r2, v1 = Ref r1 -> v2 = Ref r2 ->
       read_pair st1 r1 = read_pair st2 r2 /\ read_pair st1 r1 <> None).
Proof.
  intros Hx Vx Hy Vy Hc Hmem.
  pose proof (Real_DivMod_spec x y context st ox oy fx fy n cx Hx Vx Hy Vy Hc Hmem) as H1.
  pose proof (Real_DivMod_spec x y context (flags_state fl (range_state rng st))
                ox oy fx fy n cx Hx Vx Hy Vy Hc Hmem) as H2.
  apply wp_run in H1, H2.
  destruct H1 as (v1 & st1 & R1 & K1 & _ & _ & P1).
  destruct H2 as (v2 & st2 & R2 & K2 & _ & _ & P2).
  cbv zeta in K1, K2, P1, P2.
  change (resolve (flags_state fl (range_state rng st)) context)
    with (resolve st context) in K2.
  exists v1, st1, v2, st2. split; [exact R1|]. split; [exact R2|].
  split; [rewrite K1, K2; reflexivity|].
  destruct (out_result (Real_DivMod_pure cx fx fy)) as [e|[q r]].
  - destruct P1 as (-> & E1 & _), P2 as (-> & E2 & _).
    split; [tauto|]. split; [intros _; rewrite E1, E2; reflexivity|].
    intros r1 r2 H. discriminate.
  - destruct P1 as (r1 & -> & E1 & _), P2 as (r2 & -> & E2 & _).
    split; [split; discriminate|]. split; [discriminate|].
    intros r1' r2' H1 H2. injection H1 as <-. injection H2 as <-.
    rewrite E1, E2. split; [reflexivity | discriminate].
Qed.

Lemma divzero_trapped_pure cx fx sy :
  traps_on cx TRAP_DIVZERO = true ->
  Real_DivMod_pure cx fx (MPFR.Zero sy) =
    mk_outcome (set_divzero cx) None
      (inl (GMPyExc_DivZero, "'mpfr' division by zero in divmod"%string)).
Proof.
  intros H. unfold Real_DivMod_pure, core_pure, divzero_pure.
  cbn [MPFR.mpfr_zero_p]. rewrite H. reflexivity.
Qed.

(** X17. The test of the divisor comes first: with the divide-by-zero trap
    enabled, a zero divisor makes Real divmod fail with the divide-by-zero
    error for every dividend, a NaN, an infinity and a zero included; the
    divide-by-zero flag is the only field of the context that changes, and
    the containers are released. *)
Theorem Real_DivMod_divzero_first x y context st ox oy fx sy n cx :
  heap st !! x = Some ox -> real_value cx (ob_data ox) = Some fx ->
  heap st !! y = Some oy -> real_value cx (ob_data oy) = Some (MPFR.Zero sy) ->
  heap st !! resolve st context = Some (mk_object n (CTXT_Object cx)) ->
  (5 <= mem_avail st)%nat ->
  traps_on cx TRAP_DIVZERO = true ->
  exists st',
    GMPy_Real_DivMod x y context st = Some (NULL, st') /\
    err_indicator st' = Some (GMPyExc_DivZero, "'mpfr' division by zero in divmod"%string) /\
    heap st' !! resolve st context = Some (mk_object n (CTXT_Object (set_divzero cx))) /\
    mem_avail st' = mem_avail st.
Proof.
  intros Hx Vx Hy Vy Hc Hmem Ht.
  pose proof (Real_DivMod_spec x y context st ox oy _ _ n cx Hx Vx Hy Vy Hc Hmem) as H.
  apply wp_run in H. destruct H as (v & st' & Hrun & Hpost).
  unfold Real_DivMod_post in Hpost. cbv zeta in Hpost.
  rewrite (divzero_trapped_pure cx fx sy Ht) in Hpost.
  cbn [out_ctx out_flags out_result] in Hpost.
  destruct Hpost as (Hk & _ & _ & -> & He & Hm).
  exists st'. auto.
Qed.

Lemma Real_DivMod_finite_operands_witness :
  (heap ex_finite !! 2%positive = Some (mk_object 1 (PyFloat_Object seven_and_a_half)) /\
   heap ex_finite !! 3%positive = Some (mk_object 1 (PyFloat_Object two)) /\
   (5 <= mem_avail ex_finite)%nat) /\
  exists v st' cx',
    GMPy_Real_DivMod 2%positive 3%positive None ex_finite = Some (v, st') /\
    heap st' !! resolve ex_finite None = Some (mk_object 1 (CTXT_Object cx')) /\
    ctx_invalid cx' = ctx_invalid ex_cx.
Proof.
  split; [repeat split; example|].
  destruct (Real_DivMod_finite_operands 2%positive 3%positive None ex_finite
              (mk_object 1 (PyFloat_Object seven_and_a_half))
              (mk_object 1 (PyFloat_Object two))
              false 15%positive (-1) false 1%positive 1 1%positive ex_cx)
    as (v & st' & cx' & Hrun & Hk & Hi & _); [example ..|].
  exists v, st', cx'. auto.
Defined.

Lemma Real_DivMod_invalid_trapped_witness :
  (heap ex_trap_invalid !! 2%positive = Some (mk_object 1 (PyFloat_Object MPFR.NaN)) /\
   special_values (example_context TRAP_INVALID false) MPFR.NaN two =
     Some (MPFR.NaN, MPFR.NaN) /\
   MPFR.mpfr_zero_p two = false /\
   traps_on (example_context TRAP_INVALID false) TRAP_INVALID = true /\
   (5 <= mem_avail ex_trap_invalid)%nat) /\
  exists st',
    GMPy_Real_DivMod 2%positive 3%positive None ex_trap_invalid = Some (NULL, st') /\
    err_indicator st' =
      Some (GMPyExc_Invalid, "'mpfr' invalid operation in divmod"%string) /\
    heap st' !! resolve ex_trap_invalid None =
      Some (mk_object 1 (CTXT_Object (set_invalid (example_context TRAP_INVALID false)))) /\
    mem_avail st' = mem_avail ex_trap_invalid.
Proof.
  split; [repeat split; example|].
  refine (Real_DivMod_invalid_trapped 2%positive 3%positive None ex_trap_invalid
            (mk_object 1 (PyFloat_Object MPFR.NaN)) (mk_object 1 (PyFloat_Object two))
            MPFR.NaN two 1%positive (example_context TRAP_INVALID false)
            MPFR.NaN MPFR.NaN _ _ _ _ _ _ _ _ _); example.
Defined.

Lemma Real_DivMod_zero_dividend_witness :
  (heap ex_zero_dividend !! 2%positive =
     Some (mk_object 1 (PyFloat_Object (MPFR.Zero false))) /\
   heap ex_zero_dividend !! 3%positive = Some (mk_object 1 (PyFloat_Object two)) /\
   (5 <= mem_avail ex_zero_dividend)%nat) /\
  exists res st' rq rr,
    GMPy_Real_DivMod 2%positive 3%positive None ex_zero_dividend = Some (Ref res, st') /\
    read_pair st' res =
      Some (MPFR_Object (MPFR.Zero (xorb false false)) (ctx_mpfr_prec ex_cx) rq,
            MPFR_Object (MPFR.Zero (negb (is_RNDD (ctx_mpfr_round ex_cx))))
              (ctx_mpfr_prec ex_cx) rr) /\
    heap st' !! resolve ex_zero_dividend None = Some (mk_object 1 (CTXT_Object ex_cx)) /\
    mpfr_flags st' = MPFR.no_flags.
Proof.
  split; [repeat split; example|].
  refine (Real_DivMod_zero_dividend 2%positive 3%positive None ex_zero_dividend
            (mk_object 1 (PyFloat_Object (MPFR.Zero false)))
            (mk_object 1 (PyFloat_Object two))
            false false 1%positive 1 1%positive ex_cx _ _ _ _ _ _); example.
Defined.

Lemma Real_DivMod_ignores_entry_state_witness :
  (heap ex_finite !! 2%positive = Some (mk_object 1 (PyFloat_Object seven_and_a_half)) /\
   heap ex_finite !! 3%positive = Some (mk_object 1 (PyFloat_Object two)) /\
   (5 <= mem_avail ex_finite)%nat) /\
  exists v1 st1 v2 st2,
    GMPy_Real_DivMod 2%positive 3%positive None ex_finite = Some (v1, st1) /\
    GMPy_Real_DivMod 2%positive 3%positive None
      (flags_state MPFR.flag_overflow (range_state (MPFR.mk_range (-10) 10) ex_finite)) =
      Some (v2, st2) /\
    heap st1 !! resolve ex_finite None = heap st2 !! resolve ex_finite None.
Proof.
  split; [repeat split; example|].
  destruct (Real_DivMod_ignores_entry_state 2%positive 3%positive None ex_finite
              (mk_object 1 (PyFloat_Object seven_and_a_half))
              (mk_object 1 (PyFloat_Object two))
              seven_and_a_half two 1%positive ex_cx
              MPFR.flag_overflow (MPFR.mk_range (-10) 10))
    as (v1 & st1 & v2 & st2 & R1 & R2 & K & _); [example ..|].
  exists v1, st1, v2, st2. auto.
Defined.

Lemma Real_DivMod_divzero_first_witness :
  (heap (example_state (example_context TRAP_DIVZERO false)
           (PyFloat_Object MPFR.NaN) (PyFloat_Object (MPFR.Zero false))) !! 2%positive =
     Some (mk_object 1 (PyFloat_Object MPFR.NaN)) /\
   traps_on (example_context TRAP_DIVZERO false) TRAP_DIVZERO = true) /\
  exists st',
    GMPy_Real_DivMod 2%positive 3%positive None
      (example_state (example_context TRAP_DIVZERO false)
         (PyFloat_Object MPFR.NaN) (PyFloat_Object (MPFR.Zero false))) = Some (NULL, st') /\
    err_indicator st' =
      Some (GMPyExc_DivZero, "'mpfr' division by zero in divmod"%string) /\
    heap st' !! 1%positive =
      Some (mk_object 1 (CTXT_Object (set_divzero (example_context TRAP_DIVZERO false)))) /\
    mem_avail st' = 10%nat.
Proof.
  split; [repeat split; example|].
  refine (Real_DivMod_divzero_first 2%positive 3%positive None
            (example_state (example_context TRAP_DIVZERO false)
               (PyFloat_Object MPFR.NaN) (PyFloat_Object (MPFR.Zero false)))
            (mk_object 1 (PyFloat_Object MPFR.NaN))
            (mk_object 1 (PyFloat_Object (MPFR.Zero false)))
            MPFR.NaN false 1%positive (example_context TRAP_DIVZERO false)
            _ _ _ _ _ _ _); example.
Defined.

